(** * Static analysis engine of [code_analyzer.py]: a shallow embedding

    The analyzer walks the syntax trees produced by Python's [ast] module and
    derives complexity metrics, control-flow facts, data-flow facts and
    edge-case hints for every function, then aggregates per-file results into
    a repository report.  This file embeds those passes as Rocq functions over
    an inductive rendering of the syntax tree and proves the properties the
    specification states about them.

    Conventions.  Python [int] is [Z]; [str] is [string]; a [list] is a
    [list]; a [set] of names is a [gset string]; [list(set(xs))] lists
    the distinct elements in the iteration order of the running process,
    which is a parameter; the module-level memo dictionary is a [gmap].  Library routines whose text is not part of the
    repository ([ast.unparse], [ast.parse], [str.lower], the file system,
    [tokenize], [symtable]) are section variables. *)

From Stdlib Require Import ZArith String Ascii List Lia Permutation.
From Stdlib Require DecimalString.
From stdpp Require Import base list strings gmap sorting.

Open Scope Z_scope.
Open Scope string_scope.
Open Scope list_scope.

#[local] Set Warnings "-register-all".

(** ** Syntax trees

    One constructor per node class the analyzer tests with [isinstance] or
    reads a field of; every other class of the [ast] grammar ([AsyncFor],
    [AsyncWith], [Lambda], [BinOp], [Compare], comprehensions, [match_case],
    [withitem], [keyword], ...) is [Other] with its child nodes in field order:
    the analyzer never distinguishes them.  Fields follow [_fields] of the
    Python class; [lineno]/[end_lineno] are kept where the analyzer reads
    them.  Operator and context singletons ([ast.And], [ast.Load], ...) are
    leaves that match no test of the analyzer and are left out of the child
    lists. *)

Inductive constant : Type :=
| CNone | CBool (b : bool) | CInt (z : Z) | CFloat (repr : string)
| CComplex (repr : string) | CStr (s : string) | CBytes (s : string) | CEllipsis.

Inductive ast : Type :=
| Module (body : list ast)
| FunctionDef (name : string) (args : ast) (body : list ast)
    (decorator_list : list ast) (returns : option ast)
    (lineno : Z) (end_lineno : option Z)
| AsyncFunctionDef (name : string) (args : ast) (body : list ast)
    (decorator_list : list ast) (returns : option ast)
    (lineno : Z) (end_lineno : option Z)
| ClassDef (name : string) (bases : list ast) (keywords : list ast)
    (body : list ast) (decorator_list : list ast)
    (lineno : Z) (end_lineno : option Z)
| Return (value : option ast)
| Assign (targets : list ast) (value : ast) (lineno : Z)
| AugAssign (target : ast) (value : ast)
| AnnAssign (target : ast) (annotation : ast) (value : option ast) (lineno : Z)
| For (target : ast) (iter : ast) (body : list ast) (orelse : list ast)
| While (test : ast) (body : list ast) (orelse : list ast)
| If (test : ast) (body : list ast) (orelse : list ast)
| With (items : list ast) (body : list ast)
| Match (subject : ast) (cases : list ast)
| Raise (exc : option ast) (cause : option ast)
| Try (body : list ast) (handlers : list ast) (orelse : list ast)
    (finalbody : list ast)
| Assert (test : ast) (msg : option ast)
| Import (names : list ast) (lineno : Z)
| ImportFrom (module : option string) (names : list ast) (lineno : Z)
| Global (names : list string)
| Nonlocal (names : list string)
| BoolOp (values : list ast)
| IfExp (test : ast) (body : ast) (orelse : ast)
| Dict (keys : list (option ast)) (values : list ast)
| Set_ (elts : list ast)
| List_ (elts : list ast)
| Tuple (elts : list ast)
| Yield (value : option ast)
| YieldFrom (value : ast)
| Call (func : ast) (args : list ast) (keywords : list ast)
| Constant (value : constant)
| Attribute (value : ast) (attr : string)
| Subscript (value : ast) (slice : ast)
| Name (id : string)
| ExceptHandler (type : option ast) (name : option string) (body : list ast)
| arguments (posonlyargs : list ast) (args : list ast) (vararg : option ast)
    (kwonlyargs : list ast) (kw_defaults : list (option ast))
    (kwarg : option ast) (defaults : list ast)
| arg (arg_name : string) (annotation : option ast)
| alias (name : string) (asname : option string)
| Other (children : list ast).

(** A list field holding optional nodes yields only the nodes. *)
Definition some_nodes {A} (l : list (option A)) : list A :=
  flat_map option_list l.

(** [ast.iter_child_nodes]: the direct child nodes, field by field. *)
Definition iter_child_nodes (node : ast) : list ast :=
  match node with
  | Module body => body
  | FunctionDef _ a body decs ret _ _
  | AsyncFunctionDef _ a body decs ret _ _ =>
      a :: body ++ decs ++ option_list ret
  | ClassDef _ bases kws body decs _ _ => bases ++ kws ++ body ++ decs
  | Return v => option_list v
  | Assign targets v _ => targets ++ [v]
  | AugAssign t v => [t; v]
  | AnnAssign t a v _ => t :: a :: option_list v
  | For t i body orelse => t :: i :: body ++ orelse
  | While t body orelse => t :: body ++ orelse
  | If t body orelse => t :: body ++ orelse
  | With items body => items ++ body
  | Match s cases => s :: cases
  | Raise e c => option_list e ++ option_list c
  | Try body handlers orelse finalbody =>
      body ++ handlers ++ orelse ++ finalbody
  | Assert t m => t :: option_list m
  | Import names _ => names
  | ImportFrom _ names _ => names
  | Global _ | Nonlocal _ => []
  | BoolOp values => values
  | IfExp t b o => [t; b; o]
  | Dict keys values => some_nodes keys ++ values
  | Set_ elts | List_ elts | Tuple elts => elts
  | Yield v => option_list v
  | YieldFrom v => [v]
  | Call f args kws => f :: args ++ kws
  | Constant _ => []
  | Attribute v _ => [v]
  | Subscript v s => [v; s]
  | Name _ => []
  | ExceptHandler t _ body => option_list t ++ body
  | arguments pos args va kwo kwd kwa defs =>
      pos ++ args ++ option_list va ++ kwo ++ some_nodes kwd
          ++ option_list kwa ++ defs
  | arg _ ann => option_list ann
  | alias _ _ => []
  | Other children => children
  end.

(** *** Recursion over the tree

    The analyzer's recursive passes all have the shape "combine the results
    of the children"; [ast_fold] is that recursion scheme, written once so
    that the termination argument is structural; [ast_fold_eq] is its
    defining equation in terms of [iter_child_nodes]. *)

Section Fold.
Context {A : Type} (f : ast -> list A -> A).

Fixpoint ast_fold (node : ast) : A :=
  let go := map ast_fold in
  let opt (o : option ast) :=
    match o with Some x => [ast_fold x] | None => [] end in
  let opts :=
    flat_map (fun o : option ast =>
                match o with Some x => [ast_fold x] | None => [] end) in
  f node
    match node with
    | Module body => go body
    | FunctionDef _ a body decs ret _ _
    | AsyncFunctionDef _ a body decs ret _ _ =>
        ast_fold a :: go body ++ go decs ++ opt ret
    | ClassDef _ bases kws body decs _ _ =>
        go bases ++ go kws ++ go body ++ go decs
    | Return v => opt v
    | Assign targets v _ => go targets ++ [ast_fold v]
    | AugAssign t v => [ast_fold t; ast_fold v]
    | AnnAssign t a v _ => ast_fold t :: ast_fold a :: opt v
    | For t i body orelse =>
        ast_fold t :: ast_fold i :: go body ++ go orelse
    | While t body orelse => ast_fold t :: go body ++ go orelse
    | If t body orelse => ast_fold t :: go body ++ go orelse
    | With items body => go items ++ go body
    | Match s cases => ast_fold s :: go cases
    | Raise e c => opt e ++ opt c
    | Try body handlers orelse finalbody =>
        go body ++ go handlers ++ go orelse ++ go finalbody
    | Assert t m => ast_fold t :: opt m
    | Import names _ => go names
    | ImportFrom _ names _ => go names
    | Global _ | Nonlocal _ => []
    | BoolOp values => go values
    | IfExp t b o => [ast_fold t; ast_fold b; ast_fold o]
    | Dict keys values => opts keys ++ go values
    | Set_ elts | List_ elts | Tuple elts => go elts
    | Yield v => opt v
    | YieldFrom v => [ast_fold v]
    | Call fn args kws => ast_fold fn :: go args ++ go kws
    | Constant _ => []
    | Attribute v _ => [ast_fold v]
    | Subscript v s => [ast_fold v; ast_fold s]
    | Name _ => []
    | ExceptHandler t _ body => opt t ++ go body
    | arguments pos args va kwo kwd kwa defs =>
        go pos ++ go args ++ opt va ++ go kwo ++ opts kwd
           ++ opt kwa ++ go defs
    | arg _ ann => opt ann
    | alias _ _ => []
    | Other children => go children
    end.

End Fold.

(** Number of nodes of a tree, and the list of all its nodes (the node
    itself, then the nodes of each child in turn). *)
Definition ast_size : ast -> nat :=
  ast_fold (fun _ sizes => S (sum_list sizes)).

Definition subnodes : ast -> list ast :=
  ast_fold (fun node subs => node :: concat subs).

Definition queue_size (todo : list ast) : nat :=
  sum_list (map ast_size todo).

(** [ast.walk]: breadth-first traversal with a queue,
<<
    todo = deque([node])
    while todo:
        node = todo.popleft()
        todo.extend(iter_child_nodes(node))
        yield node
>>
    Each turn of the loop removes one node of the forest held by the queue,
    so the number of turns is the number of nodes; the loop counter below is
    started at that number; [walk_complete] shows it is never exhausted. *)
Fixpoint walk_queue (turns : nat) (todo : list ast) : list ast :=
  match turns, todo with
  | S turns', node :: rest =>
      node :: walk_queue turns' (rest ++ iter_child_nodes node)
  | _, _ => []
  end.

Definition walk (node : ast) : list ast :=
  walk_queue (ast_size node) [node].

(** ** Cyclomatic and cognitive complexity *)

Definition len {A} (l : list A) : Z := Z.of_nat (length l).

(** [_cyclomatic_complexity]: "Count decision points + 1". *)
Definition _cyclomatic_complexity (node : ast) : Z :=
  fold_left
    (fun count child =>
       match child with
       | If _ _ _ | IfExp _ _ _ => count + 1
       | For _ _ _ _ => count + 1
       | While _ _ _ => count + 1
       | ExceptHandler _ _ _ => count + 1
       | With _ _ => count + 1
       | Assert _ _ => count + 1
       | BoolOp values => count + (len values - 1)
       | Match _ cases => count + len cases
       | _ => count
       end)
    (walk node) 1.

(** One turn of the loop of [_cognitive_complexity] at nesting [depth]:
    [sub] is the recursive call on [child]. *)
Definition cognitive_step (depth : Z) (total : Z) (child : ast)
    (sub : Z -> Z) : Z :=
  match child with
  | If _ _ _ | For _ _ _ _ | While _ _ _ | ExceptHandler _ _ _ =>
      total + (1 + depth) + sub (depth + 1)
  | Match _ _ => total + (1 + depth) + sub (depth + 1)
  | BoolOp values => total + (len values - 1) + sub depth
  | _ => total + sub depth
  end.

Definition _cognitive_complexity : ast -> Z -> Z :=
  ast_fold (fun node subs depth =>
    fold_left (fun total cs => cognitive_step depth total cs.1 cs.2)
              (zip (iter_child_nodes node) subs) 0).

(** One turn of the loop of [_max_nesting_depth]. *)
Definition nesting_step (current : Z) (max_depth : Z) (child : ast)
    (sub : Z -> Z) : Z :=
  match child with
  | If _ _ _ | For _ _ _ _ | While _ _ _ | With _ _ | Try _ _ _ _
  | ExceptHandler _ _ _ | Match _ _ =>
      Z.max max_depth (sub (current + 1))
  | _ => Z.max max_depth (sub current)
  end.

Definition _max_nesting_depth : ast -> Z -> Z :=
  ast_fold (fun node subs current =>
    fold_left (fun max_depth cs => nesting_step current max_depth cs.1 cs.2)
              (zip (iter_child_nodes node) subs) current).

(** *** Decision points, counted on the tree

    The classes of decision point named by the specification, each counted
    over all nodes of the tree. *)

Definition count_nodes (p : ast -> bool) (node : ast) : Z :=
  len (filter p (subnodes node)).

Definition sum_nodes (w : ast -> Z) (node : ast) : Z :=
  foldr Z.add 0 (map w (subnodes node)).

Definition is_conditional (n : ast) : bool :=
  match n with If _ _ _ | IfExp _ _ _ => true | _ => false end.
Definition is_loop (n : ast) : bool :=
  match n with For _ _ _ _ | While _ _ _ => true | _ => false end.
Definition is_handler (n : ast) : bool :=
  match n with ExceptHandler _ _ _ => true | _ => false end.
Definition is_with (n : ast) : bool :=
  match n with With _ _ => true | _ => false end.
Definition is_assert (n : ast) : bool :=
  match n with Assert _ _ => true | _ => false end.
Definition boolop_extra (n : ast) : Z :=
  match n with BoolOp values => len values - 1 | _ => 0 end.
Definition match_arms (n : ast) : Z :=
  match n with Match _ cases => len cases | _ => 0 end.

Definition decision_points (node : ast) : Z :=
  count_nodes is_conditional node + count_nodes is_loop node
  + count_nodes is_handler node + count_nodes is_with node
  + count_nodes is_assert node
  + sum_nodes boolop_extra node + sum_nodes match_arms node.

(** What one node adds to the cyclomatic count. *)
Definition decision_weight (n : ast) : Z :=
  match n with
  | If _ _ _ | IfExp _ _ _ | For _ _ _ _ | While _ _ _
  | ExceptHandler _ _ _ | With _ _ | Assert _ _ => 1
  | BoolOp values => len values - 1
  | Match _ cases => len cases
  | _ => 0
  end.

(** ** Records of the report

    Each dataclass of the source is a record in a module of the same name, so
    that field names stay those of the source. *)

Module ParameterInfo.
Record t := mk {
  name : string;
  annotation : option string;
  default : option string;
  kind : string
}.
End ParameterInfo.

Module DocstringInfo.
Record t := mk {
  raw : option string;
  summary : option string;
  param_descriptions : list (string * string);
  return_description : option string;
  raised_exceptions : list string;
  examples : list string
}.
End DocstringInfo.

Module ComplexityMetrics.
Record t := mk {
  cyclomatic : Z;
  cognitive : Z;
  nesting_depth : Z;
  loc : Z
}.
End ComplexityMetrics.

Module ControlFlowInfo.
Record t := mk {
  branch_count : Z;
  exception_types_raised : list string;
  exception_types_caught : list string;
  has_finally : bool;
  is_generator : bool;
  is_async_generator : bool;
  is_coroutine : bool;
  has_match_case : bool;
  has_for_else : bool;
  has_while_else : bool
}.
End ControlFlowInfo.

Module DataFlowInfo.
Record t := mk {
  calls_made : list string;
  globals_read : list string;
  globals_written : list string;
  nonlocals : list string;
  args_mutated : list string;
  instance_attrs_read : list string;
  instance_attrs_written : list string;
  is_pure : bool
}.
End DataFlowInfo.

Module EdgeCaseHint.
Record t := mk {
  parameter : option string;
  category : string;
  description : string
}.
End EdgeCaseHint.

Module FunctionInfo.
Record t := mk {
  qualified_name : string;
  name : string;
  source : string;
  start_line : Z;
  end_line : Z;
  parameters : list ParameterInfo.t;
  return_annotation : option string;
  return_types_inferred : list string;
  docstring : DocstringInfo.t;
  decorators : list string;
  complexity : ComplexityMetrics.t;
  control_flow : ControlFlowInfo.t;
  data_flow : DataFlowInfo.t;
  edge_cases : list EdgeCaseHint.t;
  is_method : bool;
  is_staticmethod : bool;
  is_classmethod : bool;
  is_property : bool;
  is_abstractmethod : bool;
  nested_functions : list string
}.
End FunctionInfo.

(** An entry of [instance_attributes] or [class_attributes]: a dictionary
    with the keys [name], [type] and [value]. *)
Module Attr.
Record t := mk {
  name : string;
  type : option string;
  value : option string
}.
End Attr.

(** [ClassInfo.methods] is a dictionary from group name to methods; its
    keys are listed in insertion order. *)
Module ClassInfo.
Record t := mk {
  qualified_name : string;
  name : string;
  source : string;
  start_line : Z;
  end_line : Z;
  base_classes : list string;
  docstring : option string;
  init_parameters : list ParameterInfo.t;
  instance_attributes : list Attr.t;
  class_attributes : list Attr.t;
  methods : list (string * list FunctionInfo.t);
  abstract_methods : list string;
  decorators : list string;
  is_dataclass : bool;
  is_pydantic_model : bool
}.
End ClassInfo.

Module ImportInfo.
Record t := mk {
  name : string;
  alias : option string;
  category : string;
  is_conditional : bool;
  line : Z
}.
End ImportInfo.

Module ModuleVariable.
Record t := mk {
  name : string;
  type_annotation : option string;
  value_repr : option string;
  is_constant : bool;
  line : Z
}.
End ModuleVariable.

Module ModuleInfo.
Record t := mk {
  path : string;
  import_name : string;
  docstring : option string;
  imports : list ImportInfo.t;
  module_variables : list ModuleVariable.t;
  functions : list FunctionInfo.t;
  classes : list ClassInfo.t;
  all_exports : option (list string);
  has_main_block : bool;
  errors : list string
}.
End ModuleInfo.

(** An entry of [high_priority_targets]: a dictionary with the keys [name]
    and [reason]. *)
Module Target.
Record t := mk {
  name : string;
  reason : string
}.
End Target.

Module TestGenerationHints.
Record t := mk {
  suggested_test_order : list string;
  shared_fixtures_needed : list string;
  mocking_targets : list string;
  high_priority_targets : list Target.t
}.
End TestGenerationHints.

(** The report of [analyze_repo], without its [repository] dictionary of
    metadata. *)
Module Report.
Record t := mk {
  modules : list ModuleInfo.t;
  test_generation_hints : TestGenerationHints.t
}.
End Report.

(** The order in which one Python process iterates over a set of strings:
    [list(set(xs))] holds the distinct elements of [xs] in an order that
    depends on the hash seed of the process and on the insertions made, and
    on nothing that the analyzer controls.  A process started by [spawn] or
    [forkserver] has a seed of its own; a forked one inherits its parent's. *)
Record SetOrder := {
  iteration : list string -> list string;
  iteration_perm :
    forall xs, iteration xs ≡ₚ elements (list_to_set xs : gset string)
}.

(** [sorted(xs, key=key)]: Python's sort is stable, and a stable sort has
    one possible result; insertion from the right computes it. *)
Section Sorted.
Context {A K : Type} (leb : K -> K -> bool) (key : A -> K).

Fixpoint insert_sorted (x : A) (l : list A) : list A :=
  match l with
  | [] => [x]
  | y :: l' =>
      if leb (key x) (key y) then x :: l else y :: insert_sorted x l'
  end.

Definition sorted_by (l : list A) : list A := foldr insert_sorted [] l.

(** The order the result is sorted in. *)
Definition key_le (x y : A) : Prop := leb (key x) (key y) = true.
End Sorted.

(** [sorted(s)] for a set of strings. *)
Definition sorted_set (s : gset string) : list string :=
  sorted_by String.leb id (elements s).

(** [needle in hay] for strings. *)
Fixpoint contains (needle hay : string) : bool :=
  String.prefix needle hay
  || match hay with
     | EmptyString => false
     | String _ rest => contains needle rest
     end.

(** [any(needle in d for d in ds)]. *)
Definition any_contains (needle : string) (ds : list string) : bool :=
  existsb (contains needle) ds.

(** [s.startswith(p)] and [s.endswith(p)]. *)
Definition startswith (p s : string) : bool := String.prefix p s.

Definition endswith (p s : string) : bool :=
  String.prefix (String.rev p) (String.rev s).

(** [s[n:]] and [s[:-n]] for a string. *)
Definition drop_chars (n : nat) (s : string) : string :=
  substring n (String.length s - n) s.

Definition drop_last_chars (n : nat) (s : string) : string :=
  substring 0 (String.length s - n) s.

(** [s.split(sep)] for a one-character separator: the pieces between the
    separators, at least one piece. *)
Fixpoint split_on (sep : ascii) (s : string) : list string :=
  match s with
  | EmptyString => [EmptyString]
  | String c rest =>
      if Ascii.eqb c sep then EmptyString :: split_on sep rest
      else match split_on sep rest with
           | piece :: pieces => String c piece :: pieces
           | [] => [String c EmptyString]
           end
  end.

(** [s.replace(a, b)] for single characters. *)
Fixpoint replace_char (a b : ascii) (s : string) : string :=
  match s with
  | EmptyString => EmptyString
  | String c rest =>
      String (if Ascii.eqb c a then b else c) (replace_char a b rest)
  end.

(** [name.rfind('.')]. *)
Definition rfind_dot (name : string) : option nat :=
  match String.index 0 "." (String.rev name) with
  | Some j => Some (String.length name - 1 - j)%nat
  | None => None
  end.

(** [PurePath.stem] and [PurePath.suffix] of a final path component: the
    last dot splits the name unless it is its first or its last character. *)
Definition splits_at (name : string) : option nat :=
  match rfind_dot name with
  | Some i =>
      if Nat.ltb 0 i && Nat.ltb i (String.length name - 1) then Some i
      else None
  | None => None
  end.

Definition name_stem (name : string) : string :=
  match splits_at name with
  | Some i => substring 0 i name
  | None => name
  end.

Definition name_suffix (name : string) : string :=
  match splits_at name with
  | Some i => substring i (String.length name - i) name
  | None => ""
  end.

(** [Path(s).stem] for a path written with [/]: the stem of its last
    component. *)
Definition str_path_stem (s : string) : string :=
  match last (List.filter (fun p => negb (String.eqb p "")) (split_on "/" s)) with
  | Some name => name_stem name
  | None => ""
  end.

(** [s.strip(chars)]: the characters of the set are removed from both
    ends. *)
Fixpoint lstrip_chars (p : ascii -> bool) (s : string) : string :=
  match s with
  | EmptyString => EmptyString
  | String c rest => if p c then lstrip_chars p rest else s
  end.

Definition strip_chars (p : ascii -> bool) (s : string) : string :=
  String.rev (lstrip_chars p (String.rev (lstrip_chars p s))).

Definition is_hash_or_space (c : ascii) : bool :=
  Ascii.eqb c "#" || Ascii.eqb c " ".

(** White space in the ASCII range, as [str.strip()] removes it. *)
Definition is_space (c : ascii) : bool :=
  let n := nat_of_ascii c in
  (Nat.leb 9 n && Nat.leb n 13) || (Nat.leb 28 n && Nat.leb n 32).

(** [repr] of a list of identifiers. *)
Definition repr_names (l : list string) : string :=
  "[" +:+ String.concat ", " (map (fun s => "'" +:+ s +:+ "'") l) +:+ "]".

Definition newline : string := String (ascii_of_nat 10) EmptyString.

(** [l[start:stop]] with Python's treatment of negative and overlong
    indices; [stop = None] is the end of the list. *)
Definition clamp_index (n : Z) (i : Z) : nat :=
  Z.to_nat (Z.min n (Z.max 0 (if Z.ltb i 0 then i + n else i))).

Definition py_slice {A} (l : list A) (start : Z) (stop : option Z) : list A :=
  let n := Z.of_nat (length l) in
  let lo := clamp_index n start in
  let hi := match stop with Some e => clamp_index n e | None => length l end in
  take (hi - lo) (drop lo l).

(** [str(n)] for an integer. *)
Definition str_of_int (n : Z) : string :=
  DecimalString.NilZero.string_of_int (Z.to_int n).

(** Truth value of a list: non-empty. *)
Definition nonempty {A} (l : list A) : bool :=
  match l with [] => false | _ => true end.

(** ** Library routines

    The routines of the Python library that the analyzer calls and whose
    text is not part of the repository. *)
Record PyLib := {
  (** [ast.unparse]; [None] when it raises. *)
  unparse : ast -> option string;
  (** [str.lower] and [str.isupper]. *)
  str_lower : string -> string;
  str_isupper : string -> bool;
  (** [ast.get_docstring(node, clean=False)]. *)
  get_docstring : ast -> option string;
  (** The regular-expression scan that [_parse_docstring] runs over a
      non-empty docstring; it is kept abstract. *)
  parse_docstring_text : string -> DocstringInfo.t;
  (** The iteration order of sets in the process that runs the analyzer. *)
  set_order : SetOrder
}.

(** The library as a process with another hash seed sees it. *)
Definition with_set_order (o : SetOrder) (py : PyLib) : PyLib :=
  {| unparse := unparse py;
     str_lower := str_lower py;
     str_isupper := str_isupper py;
     get_docstring := get_docstring py;
     parse_docstring_text := parse_docstring_text py;
     set_order := o |}.

(** ** Function-level passes *)

Section Analyzer.

Context (py : PyLib).

(** [list(set(xs))]. *)
Definition list_set (xs : list string) : list string :=
  iteration (set_order py) xs.

Definition _safe_unparse (node : ast) : string :=
  match unparse py node with
  | Some s => s
  | None => "<unknown>"
  end.

Definition _get_annotation (node : option ast) : option string :=
  match node with
  | None => None
  | Some n => Some (_safe_unparse n)
  end.

(** *** Control flow *)

(** The local variables of [_analyze_control_flow] that its loop updates. *)
Record cf_locals := mk_cf {
  raised : list string;
  caught : list string;
  has_finally : bool;
  is_generator : bool;
  is_async_generator : bool;
  has_match : bool;
  has_for_else : bool;
  has_while_else : bool;
  branch_count : Z
}.

Definition append_raised (st : cf_locals) (x : string) : cf_locals :=
  mk_cf (raised st ++ [x]) (caught st) (has_finally st) (is_generator st)
    (is_async_generator st) (has_match st) (has_for_else st)
    (has_while_else st) (branch_count st).
Definition append_caught (st : cf_locals) (x : string) : cf_locals :=
  mk_cf (raised st) (caught st ++ [x]) (has_finally st) (is_generator st)
    (is_async_generator st) (has_match st) (has_for_else st)
    (has_while_else st) (branch_count st).
Definition set_has_finally (st : cf_locals) : cf_locals :=
  mk_cf (raised st) (caught st) true (is_generator st)
    (is_async_generator st) (has_match st) (has_for_else st)
    (has_while_else st) (branch_count st).
Definition set_is_generator (st : cf_locals) : cf_locals :=
  mk_cf (raised st) (caught st) (has_finally st) true
    (is_async_generator st) (has_match st) (has_for_else st)
    (has_while_else st) (branch_count st).
Definition set_is_async_generator (st : cf_locals) : cf_locals :=
  mk_cf (raised st) (caught st) (has_finally st) (is_generator st)
    true (has_match st) (has_for_else st)
    (has_while_else st) (branch_count st).
Definition set_has_match (st : cf_locals) : cf_locals :=
  mk_cf (raised st) (caught st) (has_finally st) (is_generator st)
    (is_async_generator st) true (has_for_else st)
    (has_while_else st) (branch_count st).
Definition set_has_for_else (st : cf_locals) : cf_locals :=
  mk_cf (raised st) (caught st) (has_finally st) (is_generator st)
    (is_async_generator st) (has_match st) true
    (has_while_else st) (branch_count st).
Definition set_has_while_else (st : cf_locals) : cf_locals :=
  mk_cf (raised st) (caught st) (has_finally st) (is_generator st)
    (is_async_generator st) (has_match st) (has_for_else st)
    true (branch_count st).
Definition add_branch_count (st : cf_locals) (n : Z) : cf_locals :=
  mk_cf (raised st) (caught st) (has_finally st) (is_generator st)
    (is_async_generator st) (has_match st) (has_for_else st)
    (has_while_else st) (branch_count st + n).

Definition is_AsyncFunctionDef (node : ast) : bool :=
  match node with AsyncFunctionDef _ _ _ _ _ _ _ => true | _ => false end.

(** Body of the loop [for child in ast.walk(node)]. *)
Definition control_flow_step (is_coroutine : bool) (st : cf_locals)
    (child : ast) : cf_locals :=
  match child with
  | Raise exc _ =>
      match exc with
      | Some (Call (Name id) _ _) => append_raised st id
      | Some (Call (Attribute _ _ as func) _ _) =>
          append_raised st (_safe_unparse func)
      | Some (Name id) => append_raised st id
      | Some e => append_raised st (_safe_unparse e)
      | None => st
      end
  | ExceptHandler type _ _ =>
      let st :=
        match type with
        | Some t => append_caught st (_safe_unparse t)
        | None => append_caught st "BaseException"
        end in
      add_branch_count st 1
  | Try _ _ _ finalbody =>
      if nonempty finalbody then set_has_finally st else st
  | If _ _ _ | IfExp _ _ _ => add_branch_count st 1
  | For _ _ _ orelse =>
      let st := add_branch_count st 1 in
      if nonempty orelse then set_has_for_else st else st
  | While _ _ orelse =>
      let st := add_branch_count st 1 in
      if nonempty orelse then set_has_while_else st else st
  | Match _ cases =>
      add_branch_count (set_has_match st) (len cases)
  | Yield _ =>
      let st := set_is_generator st in
      if is_coroutine then set_is_async_generator st else st
  | YieldFrom _ => set_is_generator st
  | _ => st
  end.

Definition _analyze_control_flow (node : ast) : ControlFlowInfo.t :=
  let is_coroutine := is_AsyncFunctionDef node in
  let st :=
    fold_left (control_flow_step is_coroutine) (walk node)
      (mk_cf [] [] false false false false false false 0) in
  ControlFlowInfo.mk
    (branch_count st)
    (list_set (raised st))
    (list_set (caught st))
    (has_finally st)
    (is_generator st)
    (is_async_generator st)
    is_coroutine
    (has_match st)
    (has_for_else st)
    (has_while_else st).

(** *** Data flow *)

Definition _MUTATION_METHODS : gset string :=
  list_to_set
    ["append"; "extend"; "insert"; "remove"; "pop"; "clear"; "sort";
     "reverse"; "update"; "setdefault"; "add"; "discard"].

(** Field access on nodes.  The analyzer only applies these to nodes of the
    expected class (a function definition, its [arguments], an [arg]); on
    any other node the Python attribute lookup would raise, and the
    embedding answers with the empty value. *)
Definition node_args (node : ast) : ast :=
  match node with
  | FunctionDef _ a _ _ _ _ _ | AsyncFunctionDef _ a _ _ _ _ _ => a
  | _ => arguments [] [] None [] [] None []
  end.
Definition args_posonlyargs (a : ast) : list ast :=
  match a with arguments pos _ _ _ _ _ _ => pos | _ => [] end.
Definition args_args (a : ast) : list ast :=
  match a with arguments _ args _ _ _ _ _ => args | _ => [] end.
Definition args_vararg (a : ast) : option ast :=
  match a with arguments _ _ va _ _ _ _ => va | _ => None end.
Definition args_kwonlyargs (a : ast) : list ast :=
  match a with arguments _ _ _ kwo _ _ _ => kwo | _ => [] end.
Definition args_kw_defaults (a : ast) : list (option ast) :=
  match a with arguments _ _ _ _ kwd _ _ => kwd | _ => [] end.
Definition args_kwarg (a : ast) : option ast :=
  match a with arguments _ _ _ _ _ kwa _ => kwa | _ => None end.
Definition args_defaults (a : ast) : list ast :=
  match a with arguments _ _ _ _ _ _ defs => defs | _ => [] end.
Definition arg_arg (a : ast) : string :=
  match a with arg n _ => n | _ => "" end.
Definition arg_annotation (a : ast) : option ast :=
  match a with arg _ ann => ann | _ => None end.

(** The local variables of [_analyze_data_flow] that its first loop
    updates. *)
Record df_locals := mk_df {
  calls : list string;
  globals_written : list string;
  nonlocals : list string;
  args_mutated : gset string;
  instance_attrs_read : gset string;
  instance_attrs_written : gset string;
  has_side_effects : bool;
  declared_globals : gset string;
  declared_nonlocals : gset string
}.

Definition param_names_of (node : ast) : gset string :=
  let a := node_args node in
  let s : gset string := list_to_set (map arg_arg (args_args a)) in
  let s := match args_vararg a with Some v => s ∪ {[arg_arg v]} | None => s end in
  let s := match args_kwarg a with Some v => s ∪ {[arg_arg v]} | None => s end in
  let s := s ∪ list_to_set (map arg_arg (args_kwonlyargs a)) in
  s ∪ list_to_set (map arg_arg (args_posonlyargs a)).

(** Body of [for target in child.targets] in the [Assign] branch. *)
Definition assign_target_step (param_names : gset string) (st : df_locals)
    (target : ast) : df_locals :=
  match target with
  | Attribute (Name id) attr =>
      if String.eqb id "self" then
        mk_df (calls st) (globals_written st) (nonlocals st) (args_mutated st)
          (instance_attrs_read st) (instance_attrs_written st ∪ {[attr]})
          true (declared_globals st) (declared_nonlocals st)
      else st
  | Name id =>
      if bool_decide (id ∈ declared_globals st) then
        mk_df (calls st) (globals_written st ++ [id]) (nonlocals st)
          (args_mutated st) (instance_attrs_read st)
          (instance_attrs_written st) (has_side_effects st)
          (declared_globals st) (declared_nonlocals st)
      else st
  | Subscript (Name id) _ =>
      if bool_decide (id ∈ param_names) then
        mk_df (calls st) (globals_written st) (nonlocals st)
          (args_mutated st ∪ {[id]}) (instance_attrs_read st)
          (instance_attrs_written st) true
          (declared_globals st) (declared_nonlocals st)
      else st
  | _ => st
  end.

(** [calls.append(call_name)]. *)
Definition record_call (st : df_locals) (call_name : string) : df_locals :=
  mk_df (calls st ++ [call_name]) (globals_written st) (nonlocals st)
    (args_mutated st) (instance_attrs_read st) (instance_attrs_written st)
    (has_side_effects st) (declared_globals st) (declared_nonlocals st).

(** "Check for mutation via method calls on params": the callee is
    [value.attr] with [value] the name of a parameter and [attr] a mutating
    method. *)
Definition method_mutation_step (param_names : gset string) (st : df_locals)
    (value : ast) (attr : string) : df_locals :=
  match value with
  | Name id =>
      if bool_decide (id ∈ param_names)
         && bool_decide (attr ∈ _MUTATION_METHODS)
      then
        mk_df (calls st) (globals_written st) (nonlocals st)
          (args_mutated st ∪ {[id]}) (instance_attrs_read st)
          (instance_attrs_written st) true
          (declared_globals st) (declared_nonlocals st)
      else st
  | _ => st
  end.

(** "Instance attribute access via method call": the callee is
    [self.x.method]. *)
Definition method_read_step (st : df_locals) (value : ast) : df_locals :=
  match value with
  | Attribute (Name id) vattr =>
      if String.eqb id "self" then
        mk_df (calls st) (globals_written st) (nonlocals st)
          (args_mutated st) (instance_attrs_read st ∪ {[vattr]})
          (instance_attrs_written st) (has_side_effects st)
          (declared_globals st) (declared_nonlocals st)
      else st
  | _ => st
  end.

(** The [AugAssign] branch. *)
Definition aug_assign_step (st : df_locals) (target : ast) : df_locals :=
  match target with
  | Attribute (Name id) attr =>
      if String.eqb id "self" then
        mk_df (calls st) (globals_written st) (nonlocals st)
          (args_mutated st) (instance_attrs_read st)
          (instance_attrs_written st ∪ {[attr]}) true
          (declared_globals st) (declared_nonlocals st)
      else st
  | Name id =>
      if bool_decide (id ∈ declared_globals st) then
        mk_df (calls st) (globals_written st ++ [id]) (nonlocals st)
          (args_mutated st) (instance_attrs_read st)
          (instance_attrs_written st) (has_side_effects st)
          (declared_globals st) (declared_nonlocals st)
      else st
  | _ => st
  end.

(** Body of the first loop [for child in ast.walk(node)]. *)
Definition data_flow_step (param_names : gset string) (st : df_locals)
    (child : ast) : df_locals :=
  match child with
  | Global names =>
      mk_df (calls st) (globals_written st) (nonlocals st) (args_mutated st)
        (instance_attrs_read st) (instance_attrs_written st) true
        (declared_globals st ∪ list_to_set names) (declared_nonlocals st)
  | Nonlocal names =>
      mk_df (calls st) (globals_written st) (nonlocals st ++ names)
        (args_mutated st) (instance_attrs_read st)
        (instance_attrs_written st) true
        (declared_globals st) (declared_nonlocals st ∪ list_to_set names)
  | Call func _ _ =>
      let st := record_call st (_safe_unparse func) in
      match func with
      | Attribute value attr =>
          method_read_step (method_mutation_step param_names st value attr)
            value
      | _ => st
      end
  | Attribute (Name id) attr =>
      if String.eqb id "self" then
        mk_df (calls st) (globals_written st) (nonlocals st) (args_mutated st)
          (instance_attrs_read st ∪ {[attr]}) (instance_attrs_written st)
          (has_side_effects st) (declared_globals st) (declared_nonlocals st)
      else st
  | Assign targets _ _ =>
      fold_left (assign_target_step param_names) targets st
  | AugAssign target _ => aug_assign_step st target
  | _ => st
  end.

(** Body of the second loop, which collects [globals_read]. *)
Definition globals_read_step (st : df_locals) (globals_read : list string)
    (child : ast) : list string :=
  match child with
  | Name id =>
      if bool_decide (id ∈ declared_globals st)
         && negb (bool_decide (id ∈ globals_written st))
      then globals_read ++ [id] else globals_read
  | _ => globals_read
  end.

Definition _analyze_data_flow (node : ast) : DataFlowInfo.t :=
  let param_names := param_names_of node in
  let st :=
    fold_left (data_flow_step param_names) (walk node)
      (mk_df [] [] [] ∅ ∅ ∅ false ∅ ∅) in
  let globals_read := fold_left (globals_read_step st) (walk node) [] in
  DataFlowInfo.mk
    (list_set (calls st))
    (list_set globals_read)
    (list_set (globals_written st))
    (list_set (nonlocals st))
    (sorted_set (args_mutated st))
    (sorted_set (instance_attrs_read st))
    (sorted_set (instance_attrs_written st))
    (negb (has_side_effects st) && negb (nonempty (calls st))).


(** *** Edge-case inference *)

(** Hints for one parameter: the body of the loop over
    [args.args + args.kwonlyargs + args.posonlyargs]. *)
Definition param_hints (a : ast) : list EdgeCaseHint.t :=
  let name := arg_arg a in
  if String.eqb name "self" || String.eqb name "cls" then []
  else
    let ann := _get_annotation (arg_annotation a) in
    [ EdgeCaseHint.mk (Some name) "none_input"
        ("Pass None for '" +:+ name +:+ "'");
      EdgeCaseHint.mk (Some name) "empty_input"
        ("Pass empty value for '" +:+ name
           +:+ "' (empty string, empty list, etc.)") ]
    ++ match ann with
       | Some (String _ _ as ann) =>
           let ann_lower := str_lower py ann in
           (if contains "int" ann_lower || contains "float" ann_lower then
              [EdgeCaseHint.mk (Some name) "boundary_value"
                 ("Pass 0, -1, very large number for '" +:+ name +:+ "'")]
            else [])
           ++ (if contains "str" ann_lower then
                 [EdgeCaseHint.mk (Some name) "boundary_value"
                    ("Pass empty string, very long string, unicode for '"
                       +:+ name +:+ "'")]
               else [])
           ++ (if contains "list" ann_lower || contains "set" ann_lower then
                 [EdgeCaseHint.mk (Some name) "boundary_value"
                    ("Pass empty collection, single element, "
                       +:+ "very large collection for '" +:+ name +:+ "'")]
               else [])
           ++ (if contains "bool" ann_lower then
                 [EdgeCaseHint.mk (Some name) "boolean_combo"
                    ("Test both True and False for '" +:+ name +:+ "'")]
               else [])
       | _ => []
       end
    ++ [ EdgeCaseHint.mk (Some name) "type_mismatch"
           ("Pass wrong type for '" +:+ name +:+ "'") ].

Definition raise_hint (exc_type : string) : EdgeCaseHint.t :=
  EdgeCaseHint.mk None "exception_path"
    ("Trigger " +:+ exc_type +:+ " raise path").

Definition caught_hint (exc_type : string) : EdgeCaseHint.t :=
  EdgeCaseHint.mk None "exception_path"
    ("Test " +:+ exc_type +:+ " exception handling path").

Definition _infer_edge_cases (func_node : ast)
    (control_flow : ControlFlowInfo.t) : list EdgeCaseHint.t :=
  let a := node_args func_node in
  flat_map param_hints (args_args a ++ args_kwonlyargs a ++ args_posonlyargs a)
  ++ map raise_hint (ControlFlowInfo.exception_types_raised control_flow)
  ++ map caught_hint (ControlFlowInfo.exception_types_caught control_flow).

(** *** The function analyzer *)

Definition _parse_docstring (raw : option string) : DocstringInfo.t :=
  match raw with
  | Some (String _ _ as text) => parse_docstring_text py text
  | _ => DocstringInfo.mk None None [] None [] []
  end.

Definition node_lineno (node : ast) : Z :=
  match node with
  | FunctionDef _ _ _ _ _ l _ | AsyncFunctionDef _ _ _ _ _ l _
  | ClassDef _ _ _ _ _ l _ => l
  | Assign _ _ l | AnnAssign _ _ _ l | Import _ l | ImportFrom _ _ l => l
  | _ => 1
  end.

Definition node_end_lineno (node : ast) : option Z :=
  match node with
  | FunctionDef _ _ _ _ _ _ e | AsyncFunctionDef _ _ _ _ _ _ e
  | ClassDef _ _ _ _ _ _ e => e
  | _ => None
  end.

Definition node_name (node : ast) : string :=
  match node with
  | FunctionDef n _ _ _ _ _ _ | AsyncFunctionDef n _ _ _ _ _ _
  | ClassDef n _ _ _ _ _ _ => n
  | _ => ""
  end.

Definition node_decorator_list (node : ast) : list ast :=
  match node with
  | FunctionDef _ _ _ d _ _ _ | AsyncFunctionDef _ _ _ d _ _ _
  | ClassDef _ _ _ _ d _ _ => d
  | _ => []
  end.

Definition node_returns (node : ast) : option ast :=
  match node with
  | FunctionDef _ _ _ _ r _ _ | AsyncFunctionDef _ _ _ _ r _ _ => r
  | _ => None
  end.

Definition is_function_def (node : ast) : bool :=
  match node with
  | FunctionDef _ _ _ _ _ _ _ | AsyncFunctionDef _ _ _ _ _ _ _ => true
  | _ => false
  end.

(** [x or y] on an optional integer: [None] and [0] are false. *)
Definition or_else (x : option Z) (y : Z) : Z :=
  match x with
  | Some v => if Z.eqb v 0 then y else v
  | None => y
  end.

Definition has_end_lineno (node : ast) : bool :=
  match node with
  | FunctionDef _ _ _ _ _ _ _ | AsyncFunctionDef _ _ _ _ _ _ _
  | ClassDef _ _ _ _ _ _ _ => true
  | _ => false
  end.

Definition _node_source (node : ast) (source_lines : list string) : string :=
  let start := node_lineno node - 1 in
  let stop :=
    if has_end_lineno node then node_end_lineno node else Some (start + 1) in
  String.concat newline (py_slice source_lines start stop).

Definition _decorator_name : ast -> string :=
  ast_fold (fun node subs =>
    match node with
    | Name id => id
    | Attribute _ attr => hd "" subs +:+ "." +:+ attr
    | Call _ args _ =>
        hd "" subs +:+ "("
          +:+ String.concat ", " (map _safe_unparse args) +:+ ")"
    | _ => _safe_unparse node
    end).

Definition type_name (c : constant) : string :=
  match c with
  | CNone => "NoneType"
  | CBool _ => "bool"
  | CInt _ => "int"
  | CFloat _ => "float"
  | CComplex _ => "complex"
  | CStr _ => "str"
  | CBytes _ => "bytes"
  | CEllipsis => "ellipsis"
  end.

(** Body of the loop that infers return types. *)
Definition return_type_step (acc : list string) (child : ast) : list string :=
  match child with
  | Return (Some value) =>
      let ret_repr := _safe_unparse value in
      match value with
      | Constant c => acc ++ [type_name c]
      | Dict _ _ => acc ++ ["dict"]
      | List_ _ => acc ++ ["list"]
      | Tuple _ => acc ++ ["tuple"]
      | Set_ _ => acc ++ ["set"]
      | Call func _ _ => acc ++ ["call:" +:+ _safe_unparse func]
      | Name id => acc ++ ["var:" +:+ id]
      | _ => acc ++ ["expr:" +:+ substring 0 50 ret_repr]
      end
  | _ => acc
  end.

Definition enumerate {A} (l : list A) : list (Z * A) :=
  imap (fun i x => (Z.of_nat i, x)) l.

(** [l[i]] for an index known to be non-negative. *)
Definition at_index {A} (l : list A) (i : Z) : option A := l !! Z.to_nat i.

Definition param_of (a : ast) (default : option string) (kind : string)
  : ParameterInfo.t :=
  ParameterInfo.mk (arg_arg a) (_get_annotation (arg_annotation a))
    default kind.

Definition function_parameters (all_args : ast) : list ParameterInfo.t :=
  let defaults := args_defaults all_args in
  let posonly :=
    map (fun ia : Z * ast =>
           let default_idx :=
             ia.1 - (len (args_posonlyargs all_args) - len defaults) in
           let default :=
             if Z.leb 0 default_idx && Z.ltb default_idx (len defaults)
             then _safe_unparse <$> at_index defaults default_idx
             else None in
           param_of ia.2 default "POSITIONAL_ONLY")
        (enumerate (args_posonlyargs all_args)) in
  let num_no_default := len (args_args all_args) - len defaults in
  let regular :=
    map (fun ia : Z * ast =>
           let default_idx := ia.1 - num_no_default in
           let default :=
             if Z.leb 0 default_idx
             then _safe_unparse <$> at_index defaults default_idx
             else None in
           param_of ia.2 default "POSITIONAL_OR_KEYWORD")
        (enumerate (args_args all_args)) in
  let vararg :=
    match args_vararg all_args with
    | Some v => [param_of v None "VAR_POSITIONAL"]
    | None => []
    end in
  let kwonly :=
    map (fun ia : Z * ast =>
           let default :=
             match at_index (args_kw_defaults all_args) ia.1 with
             | Some (Some kw_default) => Some (_safe_unparse kw_default)
             | _ => None
             end in
           param_of ia.2 default "KEYWORD_ONLY")
        (enumerate (args_kwonlyargs all_args)) in
  let kwarg :=
    match args_kwarg all_args with
    | Some v => [param_of v None "VAR_KEYWORD"]
    | None => []
    end in
  posonly ++ regular ++ vararg ++ kwonly ++ kwarg.

(** [".".join(parts)] for the qualified name; [if class_name:] holds for a
    non-empty name. *)
Definition qualified_name_of (module_name : string)
    (class_name : option string) (name : string) : string :=
  String.concat "."
    ([module_name]
       ++ match class_name with
          | Some (String _ _ as c) => [c]
          | _ => []
          end
       ++ [name]).

Definition _analyze_function (node : ast) (module_name : string)
    (class_name : option string) (source_lines : list string)
  : FunctionInfo.t :=
  let qualified_name := qualified_name_of module_name class_name (node_name node) in
  let parameters := function_parameters (node_args node) in
  let return_annotation := _get_annotation (node_returns node) in
  let return_types_inferred :=
    list_set (fold_left return_type_step (walk node) []) in
  let raw_docstring := get_docstring py node in
  let docstring := _parse_docstring raw_docstring in
  let decorators := map _decorator_name (node_decorator_list node) in
  let source := _node_source node source_lines in
  let start_line := node_lineno node in
  let end_line := or_else (node_end_lineno node) (node_lineno node) in
  let loc := end_line - start_line + 1 in
  let complexity :=
    ComplexityMetrics.mk (_cyclomatic_complexity node)
      (_cognitive_complexity node 0) (_max_nesting_depth node 0) loc in
  let control_flow := _analyze_control_flow node in
  let data_flow := _analyze_data_flow node in
  let edge_cases := _infer_edge_cases node control_flow in
  let nested :=
    map node_name (filter is_function_def (iter_child_nodes node)) in
  FunctionInfo.mk qualified_name (node_name node) source start_line end_line
    parameters return_annotation return_types_inferred docstring decorators
    complexity control_flow data_flow edge_cases
    (match class_name with Some _ => true | None => false end)
    (any_contains "staticmethod" decorators)
    (any_contains "classmethod" decorators)
    (any_contains "property" decorators)
    (any_contains "abstractmethod" decorators)
    nested.

(** *** The class analyzer *)

(** The local variables of [_analyze_class] that its loop updates. *)
Record class_locals := mk_class {
  class_attrs : list Attr.t;
  instance_attrs : list Attr.t;
  init_params : list ParameterInfo.t;
  methods : list (string * list FunctionInfo.t);
  abstract_methods : list string
}.

(** [methods[group].append(func_info)]. *)
Definition methods_append (group : string) (func_info : FunctionInfo.t)
    (methods : list (string * list FunctionInfo.t))
  : list (string * list FunctionInfo.t) :=
  map (fun kv : string * list FunctionInfo.t =>
         if String.eqb kv.1 group then (kv.1, kv.2 ++ [func_info]) else kv)
      methods.

(** Body of [for sub in ast.walk(child)] in the [__init__] branch. *)
Definition init_attr_step (instance_attrs : list Attr.t) (sub : ast)
  : list Attr.t :=
  match sub with
  | Assign targets value _ =>
      fold_left
        (fun acc target =>
           match target with
           | Attribute (Name id) attr =>
               if String.eqb id "self" then
                 acc ++ [Attr.mk attr None (Some (_safe_unparse value))]
               else acc
           | _ => acc
           end)
        targets instance_attrs
  | AnnAssign (Attribute (Name id) attr) annotation value _ =>
      if String.eqb id "self" then
        instance_attrs
          ++ [Attr.mk attr (_get_annotation (Some annotation))
                (_safe_unparse <$> value)]
      else instance_attrs
  | _ => instance_attrs
  end.

Definition method_group (func_info : FunctionInfo.t) (name : string)
  : string :=
  if FunctionInfo.is_staticmethod func_info then "static"
  else if FunctionInfo.is_classmethod func_info then "class_"
  else if FunctionInfo.is_property func_info then "property"
  else if startswith "__" name && endswith "__" name then "dunder"
  else if startswith "_" name then "private"
  else "public".

(** Body of [for child in ast.iter_child_nodes(node)]. *)
Definition class_step (module_name class_name : string)
    (source_lines : list string) (st : class_locals) (child : ast)
  : class_locals :=
  match child with
  | Assign targets value _ =>
      let attrs :=
        fold_left
          (fun acc target =>
             match target with
             | Name id => acc ++ [Attr.mk id None (Some (_safe_unparse value))]
             | _ => acc
             end)
          targets (class_attrs st) in
      mk_class attrs (instance_attrs st) (init_params st) (methods st)
        (abstract_methods st)
  | AnnAssign (Name id) annotation value _ =>
      mk_class
        (class_attrs st
           ++ [Attr.mk id (_get_annotation (Some annotation))
                 (_safe_unparse <$> value)])
        (instance_attrs st) (init_params st) (methods st)
        (abstract_methods st)
  | FunctionDef name _ _ _ _ _ _ | AsyncFunctionDef name _ _ _ _ _ _ =>
      let func_info :=
        _analyze_function child module_name (Some class_name) source_lines in
      let is_init := String.eqb name "__init__" in
      mk_class (class_attrs st)
        (if is_init then fold_left init_attr_step (walk child) (instance_attrs st)
         else instance_attrs st)
        (if is_init then FunctionInfo.parameters func_info else init_params st)
        (methods_append (method_group func_info name) func_info (methods st))
        (if FunctionInfo.is_abstractmethod func_info
         then abstract_methods st ++ [name] else abstract_methods st)
  | _ => st
  end.

Definition class_bases (node : ast) : list ast :=
  match node with ClassDef _ bases _ _ _ _ _ => bases | _ => [] end.

Definition _analyze_class (node : ast) (module_name : string)
    (source_lines : list string) : ClassInfo.t :=
  let qualified_name := module_name +:+ "." +:+ node_name node in
  let base_classes := map _safe_unparse (class_bases node) in
  let docstring := get_docstring py node in
  let decorators := map _decorator_name (node_decorator_list node) in
  let is_dataclass := any_contains "dataclass" decorators in
  let is_pydantic :=
    existsb (fun b => String.eqb b "BaseModel" || String.eqb b "BaseSettings")
            base_classes in
  let st :=
    fold_left (class_step module_name (node_name node) source_lines)
      (iter_child_nodes node)
      (mk_class [] [] []
         [("public", []); ("private", []); ("dunder", []);
          ("static", []); ("class_", []); ("property", [])]
         []) in
  ClassInfo.mk qualified_name (node_name node)
    (_node_source node source_lines)
    (node_lineno node)
    (or_else (node_end_lineno node) (node_lineno node))
    base_classes docstring (init_params st) (instance_attrs st)
    (class_attrs st) (methods st) (abstract_methods st) decorators
    is_dataclass is_pydantic.

(** *** Test-generation hints *)

(** Body of [for tf in test_files]. *)
Definition tested_step (tested_modules : gset string) (tf : string)
  : gset string :=
  let base := str_path_stem tf in
  if startswith "test_" base then tested_modules ∪ {[drop_chars 5 base]}
  else if endswith "_test" base then
    tested_modules ∪ {[drop_last_chars 5 base]}
  else tested_modules.

Definition tested_modules_of (test_files : list string) : gset string :=
  fold_left tested_step test_files ∅.

(** All methods of a class: [for group_funcs in cls.methods.values(): for
    func in group_funcs]. *)
Definition class_methods (cls : ClassInfo.t) : list FunctionInfo.t :=
  flat_map snd (ClassInfo.methods cls).

Definition cyclomatic_of (func : FunctionInfo.t) : Z :=
  ComplexityMetrics.cyclomatic (FunctionInfo.complexity func).

(** The triples [(qualified_name, complexity, has_test)] contributed by one
    module. *)
Definition module_funcs (tested_modules : gset string) (mod_ : ModuleInfo.t)
  : list (string * Z * bool) :=
  let mod_stem := str_path_stem (ModuleInfo.path mod_) in
  let mod_has_test := bool_decide (mod_stem ∈ tested_modules) in
  map (fun func =>
         (FunctionInfo.qualified_name func, cyclomatic_of func, mod_has_test))
      (ModuleInfo.functions mod_)
  ++ flat_map
       (fun cls =>
          map (fun func =>
                 (FunctionInfo.qualified_name func, cyclomatic_of func, false))
              (class_methods cls))
       (ModuleInfo.classes mod_).

Definition all_funcs_of (modules : list ModuleInfo.t)
    (test_files : list string) : list (string * Z * bool) :=
  flat_map (module_funcs (tested_modules_of test_files)) modules.

(** [sorted([... if not ht], key=lambda x: -x[1])[:20]]. *)
Definition high_priority_of (all_funcs : list (string * Z * bool))
  : list (string * Z * bool) :=
  take 20
    (sorted_by Z.leb (fun x : string * Z * bool => - x.1.2)
       (List.filter (fun x : string * Z * bool => negb x.2) all_funcs)).

(** The dictionary emitted for one high-priority triple. *)
Definition target_of (x : string * Z * bool) : Target.t :=
  Target.mk x.1.1
    ("cyclomatic_complexity=" +:+ str_of_int x.1.2 +:+ ", no existing tests").

Definition any_startswith (prefixes : list string) (s : string) : bool :=
  existsb (fun p => startswith p s) prefixes.

Definition function_mocks (func : FunctionInfo.t) : list string :=
  flat_map
    (fun call =>
       (if any_startswith
             ["httpx."; "requests."; "aiohttp."; "urllib."; "boto3.";
              "redis."; "smtp"] call
        then [call] else [])
       ++ (if contains "datetime.now" call || contains "datetime.utcnow" call
              || contains "time.time" call
           then [call] else [])
       ++ (if existsb (fun db_kw => contains db_kw (str_lower py call))
                ["session"; "execute"; "query"; "commit"; "scalar"]
           then [call] else []))
    (DataFlowInfo.calls_made (FunctionInfo.data_flow func)).

Definition method_mocks (func : FunctionInfo.t) : list string :=
  List.filter
    (any_startswith ["httpx."; "requests."; "aiohttp."; "boto3."])
    (DataFlowInfo.calls_made (FunctionInfo.data_flow func)).

Definition import_fixtures (imp : ImportInfo.t) : list string :=
  let lower := str_lower py (ImportInfo.name imp) in
  (if contains "database" lower || contains "db" lower
   then ["database_session"] else [])
  ++ (if contains "config" lower || contains "settings" lower
      then ["test_settings"] else [])
  ++ (if contains "client" lower || contains "httpx" lower
      then ["async_http_client"] else []).

Definition _generate_test_hints (modules : list ModuleInfo.t)
    (test_files : list string) : TestGenerationHints.t :=
  let all_funcs := all_funcs_of modules test_files in
  let high_priority := high_priority_of all_funcs in
  let mocking_targets : gset string :=
    list_to_set
      (flat_map
         (fun mod_ =>
            flat_map function_mocks (ModuleInfo.functions mod_)
            ++ flat_map (fun cls => flat_map method_mocks (class_methods cls))
                 (ModuleInfo.classes mod_))
         modules) in
  let fixtures : gset string :=
    list_to_set
      (flat_map
         (fun mod_ =>
            flat_map import_fixtures (ModuleInfo.imports mod_)
            ++ flat_map
                 (fun func =>
                    if ControlFlowInfo.is_coroutine
                         (FunctionInfo.control_flow func)
                    then ["event_loop"] else [])
                 (ModuleInfo.functions mod_))
         modules) in
  TestGenerationHints.mk
    (map (fun x : string * Z * bool => x.1.1) all_funcs)
    (sorted_set fixtures)
    (sorted_set mocking_targets)
    (map target_of high_priority).

End Analyzer.

(** ** Paths and the file system

    A [pathlib.Path] is the list of its components below the file-system
    root.  The root is its own parent. *)
Definition Path : Type := list string.

Definition parent (p : Path) : Path := removelast p.

(** [p / name]; joining the empty string leaves the path unchanged. *)
Definition joinpath (p : Path) (name : string) : Path :=
  if String.eqb name "" then p else p ++ [name].

Definition path_name (p : Path) : string := default "" (last p).

Definition path_stem (p : Path) : string := name_stem (path_name p).

(** [p.relative_to(root)]; [None] stands for the [ValueError] raised when
    [p] is not below [root]. *)
Fixpoint relative_to (p root : Path) : option Path :=
  match root, p with
  | [], _ => Some p
  | r :: root', x :: p' => if String.eqb r x then relative_to p' root' else None
  | _ :: _, [] => None
  end.

(** [rel.with_suffix("")]: the last component loses its suffix; [None]
    stands for the [ValueError] raised on a path with an empty name. *)
Definition without_suffix (rel : Path) : option Path :=
  match last rel with
  | Some name => Some (removelast rel ++ [name_stem name])
  | None => None
  end.

(** The outcome of [ast.parse]: a tree, a [SyntaxError], or any other
    exception; the messages are [str(e)]. *)
Inductive parse_result : Type :=
| Parsed (tree : ast)
| SyntaxError (msg : string)
| ParseRaised (msg : string).

(** The outcome of a call that may raise: [Raised msg] carries [str(e)]. *)
Inductive outcome (A : Type) : Type :=
| Returned (x : A)
| Raised (msg : string).
Arguments Returned {A} x.
Arguments Raised {A} msg.

(** What the analyzer observes of its environment. *)
Record World := {
  (** The set [_get_stdlib_modules()] returns
      ([sys.stdlib_module_names] from Python 3.10 on). *)
  stdlib_module_names : gset string;
  (** [Path.is_dir], [Path.is_file], [Path.exists]. *)
  is_dir : Path -> bool;
  is_file : Path -> bool;
  path_exists : Path -> bool;
  (** [Path.iterdir]: the names of the entries of a directory. *)
  iterdir : Path -> list string;
  (** [Path.read_text(encoding="utf-8", errors="replace")]. *)
  read_text : Path -> outcome string;
  (** [ast.parse]. *)
  ast_parse : string -> parse_result;
  (** [str.splitlines]. *)
  splitlines : string -> list string;
  (** [tokenize.generate_tokens] on a source text: [Returned] holds the
      [COMMENT] tokens [(line, text)] yielded up to the end of the text or
      up to a [TokenError]; [Raised] stands for any other exception of the
      tokenizer, such as the [IndentationError] of a dedent that matches no
      outer indentation level. *)
  comment_tokens : string -> outcome (list (Z * string));
  (** The names of the symbols that [symtable] reports as free in the scopes
      directly below the top level; empty when [symtable] raises. *)
  free_symbols : string -> list string;
  (** [os.sep]. *)
  os_sep : ascii
}.

(** [str(p)] for a relative path: the components joined by [os.sep]; the
    empty path prints as a dot. *)
Definition rel_str (sep : ascii) (rel : Path) : string :=
  match rel with
  | [] => "."
  | _ => String.concat (String sep EmptyString) rel
  end.

(** ** Import classification *)

Section Imports.
Context (w : World).

Definition exclude : gset string :=
  list_to_set
    ["node_modules"; ".venv"; "venv"; "__pycache__"; ".git"; ".tox";
     ".mypy_cache"; "env"; "dist"; "build"].

(** Body of [for sub in f.iterdir()]. *)
Definition nested_package_step (f : Path) (packages : gset string)
    (sub_name : string) : gset string :=
  let sub := joinpath f sub_name in
  if is_dir w sub && negb (bool_decide (sub_name ∈ exclude))
     && path_exists w (joinpath sub "__init__.py")
  then packages ∪ {[sub_name]} else packages.

(** Body of [for f in repo_root.iterdir()]. *)
Definition package_step (repo_root : Path) (packages : gset string)
    (f_name : string) : gset string :=
  let f := joinpath repo_root f_name in
  if String.eqb (name_suffix f_name) ".py" && is_file w f then
    packages ∪ {[name_stem f_name]}
  else if is_dir w f && negb (bool_decide (f_name ∈ exclude)) then
    let packages :=
      if path_exists w (joinpath f "__init__.py")
      then packages ∪ {[f_name]} else packages in
    fold_left (nested_package_step f) (iterdir w f) packages
  else packages.

(** The scan that [_get_local_packages] runs when the root is not in the
    cache. *)
Definition scan_local_packages (repo_root : Path) : gset string :=
  fold_left (package_step repo_root) (iterdir w repo_root) ∅.

(** [_get_local_packages], with the module-level dictionary
    [_local_package_cache] passed in and out; the dictionary is keyed by the
    root (by [str(repo_root)] in the source). *)
Definition _get_local_packages (cache : gmap Path (gset string))
    (repo_root : Path) : gset string * gmap Path (gset string) :=
  match cache !! repo_root with
  | Some packages => (packages, cache)
  | None =>
      let packages := scan_local_packages repo_root in
      (packages, <[repo_root := packages]> cache)
  end.

(** [(current / top).is_dir() or (current / f"{top}.py").is_file()]. *)
Definition found_under (current : Path) (top : string) : bool :=
  is_dir w (joinpath current top)
  || is_file w (joinpath current (top +:+ ".py")).

(** The loop
<<
    while current != repo_root and current != current.parent:
        if found: return "local"
        current = current.parent
>>
    Each turn shortens [current] by one component, so the loop takes no more
    turns than [current] has components; the counter is started at that
    number, and [probe_up_enough] shows that a larger one changes nothing. *)
Fixpoint probe_up (top : string) (repo_root : Path) (turns : nat)
    (current : Path) : bool :=
  match turns with
  | O => false
  | S turns' =>
      if bool_decide (current = repo_root)
         || bool_decide (current = parent current)
      then false
      else if found_under current top then true
      else probe_up top repo_root turns' (parent current)
  end.

Definition _classify_import (cache : gmap Path (gset string))
    (name : string) (repo_root module_path : Path)
  : string * gmap Path (gset string) :=
  let top := hd "" (split_on "." name) in
  if bool_decide (top ∈ stdlib_module_names w) then ("stdlib", cache)
  else
    let (packages, cache) := _get_local_packages cache repo_root in
    if bool_decide (top ∈ packages) then ("local", cache)
    else if found_under (parent module_path) top then ("local", cache)
    else if probe_up top repo_root (length (parent module_path))
              (parent module_path)
    then ("local", cache)
    else ("third_party", cache).



End Imports.

(** ** The module analyzer *)

Section Module.
Context (py : PyLib) (w : World).

Definition alias_name (a : ast) : string :=
  match a with alias n _ => n | _ => "" end.
Definition alias_asname (a : ast) : option string :=
  match a with alias _ a => a | _ => None end.

(** [_resolve_import_name]: the first root, longest first, below which the
    file lies and leaves a non-empty dotted name. *)
Definition dotted_name_under (file_path root : Path) : option string :=
  match relative_to file_path root with
  | Some rel =>
      match without_suffix rel with
      | Some parts =>
          let parts :=
            match last parts with
            | Some l => if String.eqb l "__init__" then removelast parts else parts
            | None => parts
            end in
          if nonempty parts then Some (String.concat "." parts) else None
      | None => None
      end
  | None => None
  end.

Definition _resolve_import_name (file_path : Path) (import_roots : list Path)
  : string :=
  let roots :=
    sorted_by Z.leb (fun r : Path => - (1 + len r)) import_roots in
  match omap (dotted_name_under file_path) roots with
  | name :: _ => name
  | [] => path_stem file_path
  end.

(** One import record; the classification threads the package cache. *)
Definition import_step (repo_root file_path : Path) (lineno : Z)
    (module : option string)
    (acc : list ImportInfo.t * gmap Path (gset string)) (a : ast)
  : list ImportInfo.t * gmap Path (gset string) :=
  let name := alias_name a in
  let (full_name, classified) :=
    match module with
    | Some (String _ _ as m) => (m +:+ "." +:+ name, m)
    | _ => (name, name)
    end in
  let (category, cache) :=
    _classify_import w acc.2 classified repo_root file_path in
  (acc.1 ++ [ImportInfo.mk full_name (alias_asname a) category false lineno],
   cache).

(** Body of the loop over [ast.walk(tree)] that collects the imports. *)
Definition imports_step (repo_root file_path : Path)
    (acc : list ImportInfo.t * gmap Path (gset string)) (node : ast)
  : list ImportInfo.t * gmap Path (gset string) :=
  match node with
  | Import names lineno =>
      fold_left (import_step repo_root file_path lineno None) names acc
  | ImportFrom module names lineno =>
      fold_left (import_step repo_root file_path lineno module) names acc
  | _ => acc
  end.

(** [imp.is_conditional = True] for every import on line [line]. *)
Definition mark_conditional (line : Z) (imports : list ImportInfo.t)
  : list ImportInfo.t :=
  map (fun imp =>
         if Z.eqb (ImportInfo.line imp) line then
           ImportInfo.mk (ImportInfo.name imp) (ImportInfo.alias imp)
             (ImportInfo.category imp) true (ImportInfo.line imp)
         else imp)
      imports.

Definition catches_import_error (handler : ast) : bool :=
  match handler with
  | ExceptHandler (Some t) _ _ =>
      let s := _safe_unparse py t in
      String.eqb s "ImportError" || String.eqb s "ModuleNotFoundError"
  | _ => false
  end.

(** Body of the loop over [ast.walk(tree)] that detects conditional
    imports. *)
Definition conditional_step (imports : list ImportInfo.t) (node : ast)
  : list ImportInfo.t :=
  match node with
  | Try _ handlers _ _ =>
      fold_left
        (fun imports handler =>
           if catches_import_error handler then
             fold_left
               (fun imports sub =>
                  match sub with
                  | Import _ lineno | ImportFrom _ _ lineno =>
                      mark_conditional lineno imports
                  | _ => imports
                  end)
               (walk node) imports
           else imports)
        handlers imports
  | _ => imports
  end.

Definition is_constant_name (id : string) : bool :=
  str_isupper py id
  || (startswith "_" id && str_isupper py (drop_chars 1 id)).

(** Body of the loop that collects the module-level variables. *)
Definition module_var_step (acc : list ModuleVariable.t) (node : ast)
  : list ModuleVariable.t :=
  match node with
  | Assign targets value lineno =>
      fold_left
        (fun acc target =>
           match target with
           | Name id =>
               acc ++ [ModuleVariable.mk id None
                         (Some (substring 0 200 (_safe_unparse py value)))
                         (is_constant_name id) lineno]
           | _ => acc
           end)
        targets acc
  | AnnAssign (Name id) annotation value lineno =>
      acc ++ [ModuleVariable.mk id (_get_annotation py (Some annotation))
                ((fun v => substring 0 200 (_safe_unparse py v)) <$> value)
                (str_isupper py id) lineno]
  | _ => acc
  end.

(** Body of the loop that looks for [__all__]. *)
Definition all_exports_step (all_exports : option (list string)) (node : ast)
  : option (list string) :=
  match node with
  | Assign targets value _ =>
      fold_left
        (fun all_exports target =>
           match target with
           | Name id =>
               if String.eqb id "__all__" then
                 match value with
                 | List_ elts | Tuple elts => Some (map (_safe_unparse py) elts)
                 | _ => all_exports
                 end
               else all_exports
           | _ => all_exports
           end)
        targets all_exports
  | _ => all_exports
  end.

Definition is_main_guard (node : ast) : bool :=
  match node with
  | If test _ _ =>
      let s := _safe_unparse py test in
      contains "__name__" s && contains "__main__" s
  | _ => false
  end.

Definition is_class_def (node : ast) : bool :=
  match node with ClassDef _ _ _ _ _ _ _ => true | _ => false end.

(** The [ModuleInfo] returned when the file cannot be read or parsed. *)
Definition failed_module (path import_name error : string) : ModuleInfo.t :=
  ModuleInfo.mk path import_name None [] [] [] [] None false [error].

Definition _analyze_module (cache : gmap Path (gset string))
    (file_path repo_root : Path) (import_roots : list Path)
  : outcome ModuleInfo.t * gmap Path (gset string) :=
  match relative_to file_path repo_root with
  | None => (Raised "path is not in the subpath of the root", cache)
  | Some rel_path =>
      let import_name : option string :=
        if nonempty import_roots
        then Some (_resolve_import_name file_path import_roots)
        else
          (fun p =>
             replace_char "/" "."
               (replace_char (os_sep w) "." (rel_str (os_sep w) p)))
            <$> without_suffix rel_path in
      match import_name with
      | None => (Raised "path has an empty name", cache)
      | Some import_name =>
          let module_name := import_name in
          match read_text w file_path with
          | Raised e =>
              (Returned
                 (failed_module (rel_str (os_sep w) rel_path) import_name
                    ("Could not read file: " +:+ e)),
               cache)
          | Returned source =>
              let source_lines := splitlines w source in
              match ast_parse w source with
              | SyntaxError e =>
                  (Returned
                     (failed_module (rel_str (os_sep w) rel_path) import_name
                        ("SyntaxError: " +:+ e)),
                   cache)
              | ParseRaised e => (Raised e, cache)
              | Parsed tree =>
                  let mod_docstring := get_docstring py tree in
                  let (imports, cache) :=
                    fold_left (imports_step repo_root file_path) (walk tree)
                      ([], cache) in
                  let imports := fold_left conditional_step (walk tree) imports in
                  let module_vars :=
                    fold_left module_var_step (iter_child_nodes tree) [] in
                  let all_exports :=
                    fold_left all_exports_step (iter_child_nodes tree) None in
                  let has_main := existsb is_main_guard (iter_child_nodes tree) in
                  let functions :=
                    map (fun node =>
                           _analyze_function py node module_name None
                             source_lines)
                        (List.filter is_function_def (iter_child_nodes tree)) in
                  let classes :=
                    map (fun node =>
                           _analyze_class py node module_name source_lines)
                        (List.filter is_class_def (iter_child_nodes tree)) in
                  (Returned
                     (ModuleInfo.mk
                        (replace_char "\" "/" (rel_str (os_sep w) rel_path))
                        import_name mod_docstring imports module_vars
                        functions classes all_exports has_main []),
                   cache)
              end
          end
      end
  end.

End Module.

(** ** Results crossing the process boundary

    A worker returns [asdict(module_info)], a tree of dictionaries, lists and
    scalars, and the parent rebuilds the records with
    [_module_info_from_dict].  [None] stands for an exception ([KeyError],
    [TypeError]).  A value of an unexpected type, which Python would store
    unchecked, is refused here; [asdict] never produces one. *)

Inductive pyvalue : Type :=
| PNone
| PBool (b : bool)
| PInt (z : Z)
| PStr (s : string)
| PList (items : list pyvalue)
| PDict (items : list (string * pyvalue)).

Fixpoint assoc (k : string) (items : list (string * pyvalue))
  : option pyvalue :=
  match items with
  | [] => None
  | (k', v) :: rest => if String.eqb k' k then Some v else assoc k rest
  end.

(** [d[k]] and [d.get(k, default)]. *)
Definition dget (d : pyvalue) (k : string) : option pyvalue :=
  match d with PDict items => assoc k items | _ => None end.

Definition dget_or (d : pyvalue) (k : string) (default : pyvalue) : pyvalue :=
  match dget d k with Some v => v | None => default end.

Definition as_str (v : pyvalue) : option string :=
  match v with PStr s => Some s | _ => None end.
Definition as_opt_str (v : pyvalue) : option (option string) :=
  match v with PStr s => Some (Some s) | PNone => Some None | _ => None end.
Definition as_bool (v : pyvalue) : option bool :=
  match v with PBool b => Some b | _ => None end.
Definition as_int (v : pyvalue) : option Z :=
  match v with PInt z => Some z | _ => None end.
Definition as_list {A} (f : pyvalue -> option A) (v : pyvalue)
  : option (list A) :=
  match v with PList items => mapM f items | _ => None end.
Definition as_str_pairs (v : pyvalue) : option (list (string * string)) :=
  match v with
  | PDict items => mapM (fun kv : string * pyvalue => pair kv.1 <$> as_str kv.2) items
  | _ => None
  end.

Definition of_opt_str (o : option string) : pyvalue :=
  match o with Some s => PStr s | None => PNone end.
Definition of_strs (l : list string) : pyvalue := PList (map PStr l).

(** [s.removesuffix(suffix)]. *)
Definition removesuffix (suffix s : string) : string :=
  if endswith suffix s then drop_last_chars (String.length suffix) s else s.

(** *** [asdict] *)

Definition asdict_ParameterInfo (p : ParameterInfo.t) : pyvalue :=
  PDict [("name", PStr (ParameterInfo.name p));
         ("annotation", of_opt_str (ParameterInfo.annotation p));
         ("default", of_opt_str (ParameterInfo.default p));
         ("kind", PStr (ParameterInfo.kind p))].

Definition asdict_DocstringInfo (x : DocstringInfo.t) : pyvalue :=
  PDict [("raw", of_opt_str (DocstringInfo.raw x));
         ("summary", of_opt_str (DocstringInfo.summary x));
         ("param_descriptions",
          PDict (map (fun kv : string * string => (kv.1, PStr kv.2))
                     (DocstringInfo.param_descriptions x)));
         ("return_description", of_opt_str (DocstringInfo.return_description x));
         ("raised_exceptions", of_strs (DocstringInfo.raised_exceptions x));
         ("examples", of_strs (DocstringInfo.examples x))].

Definition asdict_ComplexityMetrics (x : ComplexityMetrics.t) : pyvalue :=
  PDict [("cyclomatic", PInt (ComplexityMetrics.cyclomatic x));
         ("cognitive", PInt (ComplexityMetrics.cognitive x));
         ("nesting_depth", PInt (ComplexityMetrics.nesting_depth x));
         ("loc", PInt (ComplexityMetrics.loc x))].

Definition asdict_ControlFlowInfo (x : ControlFlowInfo.t) : pyvalue :=
  PDict [("branch_count", PInt (ControlFlowInfo.branch_count x));
         ("exception_types_raised",
          of_strs (ControlFlowInfo.exception_types_raised x));
         ("exception_types_caught",
          of_strs (ControlFlowInfo.exception_types_caught x));
         ("has_finally", PBool (ControlFlowInfo.has_finally x));
         ("is_generator", PBool (ControlFlowInfo.is_generator x));
         ("is_async_generator", PBool (ControlFlowInfo.is_async_generator x));
         ("is_coroutine", PBool (ControlFlowInfo.is_coroutine x));
         ("has_match_case", PBool (ControlFlowInfo.has_match_case x));
         ("has_for_else", PBool (ControlFlowInfo.has_for_else x));
         ("has_while_else", PBool (ControlFlowInfo.has_while_else x))].

Definition asdict_DataFlowInfo (x : DataFlowInfo.t) : pyvalue :=
  PDict [("calls_made", of_strs (DataFlowInfo.calls_made x));
         ("globals_read", of_strs (DataFlowInfo.globals_read x));
         ("globals_written", of_strs (DataFlowInfo.globals_written x));
         ("nonlocals", of_strs (DataFlowInfo.nonlocals x));
         ("args_mutated", of_strs (DataFlowInfo.args_mutated x));
         ("instance_attrs_read", of_strs (DataFlowInfo.instance_attrs_read x));
         ("instance_attrs_written",
          of_strs (DataFlowInfo.instance_attrs_written x));
         ("is_pure", PBool (DataFlowInfo.is_pure x))].

Definition asdict_EdgeCaseHint (x : EdgeCaseHint.t) : pyvalue :=
  PDict [("parameter", of_opt_str (EdgeCaseHint.parameter x));
         ("category", PStr (EdgeCaseHint.category x));
         ("description", PStr (EdgeCaseHint.description x))].

Definition asdict_FunctionInfo (x : FunctionInfo.t) : pyvalue :=
  PDict [("qualified_name", PStr (FunctionInfo.qualified_name x));
         ("name", PStr (FunctionInfo.name x));
         ("source", PStr (FunctionInfo.source x));
         ("start_line", PInt (FunctionInfo.start_line x));
         ("end_line", PInt (FunctionInfo.end_line x));
         ("parameters",
          PList (map asdict_ParameterInfo (FunctionInfo.parameters x)));
         ("return_annotation", of_opt_str (FunctionInfo.return_annotation x));
         ("return_types_inferred",
          of_strs (FunctionInfo.return_types_inferred x));
         ("docstring", asdict_DocstringInfo (FunctionInfo.docstring x));
         ("decorators", of_strs (FunctionInfo.decorators x));
         ("complexity", asdict_ComplexityMetrics (FunctionInfo.complexity x));
         ("control_flow", asdict_ControlFlowInfo (FunctionInfo.control_flow x));
         ("data_flow", asdict_DataFlowInfo (FunctionInfo.data_flow x));
         ("edge_cases",
          PList (map asdict_EdgeCaseHint (FunctionInfo.edge_cases x)));
         ("is_method", PBool (FunctionInfo.is_method x));
         ("is_staticmethod", PBool (FunctionInfo.is_staticmethod x));
         ("is_classmethod", PBool (FunctionInfo.is_classmethod x));
         ("is_property", PBool (FunctionInfo.is_property x));
         ("is_abstractmethod", PBool (FunctionInfo.is_abstractmethod x));
         ("nested_functions", of_strs (FunctionInfo.nested_functions x))].

Definition asdict_Attr (x : Attr.t) : pyvalue :=
  PDict [("name", PStr (Attr.name x));
         ("type", of_opt_str (Attr.type x));
         ("value", of_opt_str (Attr.value x))].

Definition asdict_ClassInfo (x : ClassInfo.t) : pyvalue :=
  PDict [("qualified_name", PStr (ClassInfo.qualified_name x));
         ("name", PStr (ClassInfo.name x));
         ("source", PStr (ClassInfo.source x));
         ("start_line", PInt (ClassInfo.start_line x));
         ("end_line", PInt (ClassInfo.end_line x));
         ("base_classes", of_strs (ClassInfo.base_classes x));
         ("docstring", of_opt_str (ClassInfo.docstring x));
         ("init_parameters",
          PList (map asdict_ParameterInfo (ClassInfo.init_parameters x)));
         ("instance_attributes",
          PList (map asdict_Attr (ClassInfo.instance_attributes x)));
         ("class_attributes",
          PList (map asdict_Attr (ClassInfo.class_attributes x)));
         ("methods",
          PDict (map (fun kv : string * list FunctionInfo.t =>
                        (kv.1, PList (map asdict_FunctionInfo kv.2)))
                     (ClassInfo.methods x)));
         ("abstract_methods", of_strs (ClassInfo.abstract_methods x));
         ("decorators", of_strs (ClassInfo.decorators x));
         ("is_dataclass", PBool (ClassInfo.is_dataclass x));
         ("is_pydantic_model", PBool (ClassInfo.is_pydantic_model x))].

Definition asdict_ImportInfo (x : ImportInfo.t) : pyvalue :=
  PDict [("name", PStr (ImportInfo.name x));
         ("alias", of_opt_str (ImportInfo.alias x));
         ("category", PStr (ImportInfo.category x));
         ("is_conditional", PBool (ImportInfo.is_conditional x));
         ("line", PInt (ImportInfo.line x))].

Definition asdict_ModuleVariable (x : ModuleVariable.t) : pyvalue :=
  PDict [("name", PStr (ModuleVariable.name x));
         ("type_annotation", of_opt_str (ModuleVariable.type_annotation x));
         ("value_repr", of_opt_str (ModuleVariable.value_repr x));
         ("is_constant", PBool (ModuleVariable.is_constant x));
         ("line", PInt (ModuleVariable.line x))].

Definition asdict_ModuleInfo (x : ModuleInfo.t) : pyvalue :=
  PDict [("path", PStr (ModuleInfo.path x));
         ("import_name", PStr (ModuleInfo.import_name x));
         ("docstring", of_opt_str (ModuleInfo.docstring x));
         ("imports", PList (map asdict_ImportInfo (ModuleInfo.imports x)));
         ("module_variables",
          PList (map asdict_ModuleVariable (ModuleInfo.module_variables x)));
         ("functions",
          PList (map asdict_FunctionInfo (ModuleInfo.functions x)));
         ("classes", PList (map asdict_ClassInfo (ModuleInfo.classes x)));
         ("all_exports",
          match ModuleInfo.all_exports x with
          | Some l => of_strs l
          | None => PNone
          end);
         ("has_main_block", PBool (ModuleInfo.has_main_block x));
         ("errors", of_strs (ModuleInfo.errors x))].

(** *** Rebuilding the records *)

Definition ParameterInfo_of (d : pyvalue) : option ParameterInfo.t :=
  name ← dget d "name" ≫= as_str;
  annotation ← dget d "annotation" ≫= as_opt_str;
  default ← dget d "default" ≫= as_opt_str;
  kind ← dget d "kind" ≫= as_str;
  Some (ParameterInfo.mk name annotation default kind).

Definition DocstringInfo_of (d : pyvalue) : option DocstringInfo.t :=
  raw ← dget d "raw" ≫= as_opt_str;
  summary ← dget d "summary" ≫= as_opt_str;
  param_descriptions ← dget d "param_descriptions" ≫= as_str_pairs;
  return_description ← dget d "return_description" ≫= as_opt_str;
  raised_exceptions ← dget d "raised_exceptions" ≫= as_list as_str;
  examples ← dget d "examples" ≫= as_list as_str;
  Some (DocstringInfo.mk raw summary param_descriptions return_description
          raised_exceptions examples).

Definition ComplexityMetrics_of (d : pyvalue) : option ComplexityMetrics.t :=
  cyclomatic ← dget d "cyclomatic" ≫= as_int;
  cognitive ← dget d "cognitive" ≫= as_int;
  nesting_depth ← dget d "nesting_depth" ≫= as_int;
  loc ← dget d "loc" ≫= as_int;
  Some (ComplexityMetrics.mk cyclomatic cognitive nesting_depth loc).

Definition ControlFlowInfo_of (d : pyvalue) : option ControlFlowInfo.t :=
  branch_count ← dget d "branch_count" ≫= as_int;
  raised ← dget d "exception_types_raised" ≫= as_list as_str;
  caught ← dget d "exception_types_caught" ≫= as_list as_str;
  has_finally ← dget d "has_finally" ≫= as_bool;
  is_generator ← dget d "is_generator" ≫= as_bool;
  is_async_generator ← dget d "is_async_generator" ≫= as_bool;
  is_coroutine ← dget d "is_coroutine" ≫= as_bool;
  has_match_case ← dget d "has_match_case" ≫= as_bool;
  has_for_else ← dget d "has_for_else" ≫= as_bool;
  has_while_else ← dget d "has_while_else" ≫= as_bool;
  Some (ControlFlowInfo.mk branch_count raised caught has_finally
          is_generator is_async_generator is_coroutine has_match_case
          has_for_else has_while_else).

Definition DataFlowInfo_of (d : pyvalue) : option DataFlowInfo.t :=
  calls_made ← dget d "calls_made" ≫= as_list as_str;
  globals_read ← dget d "globals_read" ≫= as_list as_str;
  globals_written ← dget d "globals_written" ≫= as_list as_str;
  nonlocals ← dget d "nonlocals" ≫= as_list as_str;
  args_mutated ← dget d "args_mutated" ≫= as_list as_str;
  instance_attrs_read ← dget d "instance_attrs_read" ≫= as_list as_str;
  instance_attrs_written ← dget d "instance_attrs_written" ≫= as_list as_str;
  is_pure ← dget d "is_pure" ≫= as_bool;
  Some (DataFlowInfo.mk calls_made globals_read globals_written nonlocals
          args_mutated instance_attrs_read instance_attrs_written is_pure).

Definition EdgeCaseHint_of (d : pyvalue) : option EdgeCaseHint.t :=
  parameter ← dget d "parameter" ≫= as_opt_str;
  category ← dget d "category" ≫= as_str;
  description ← dget d "description" ≫= as_str;
  Some (EdgeCaseHint.mk parameter category description).

Definition is_dict (v : pyvalue) : bool :=
  match v with PDict _ => true | _ => false end.

(** The record built from [d[k]] when [d.get(k)] is a dictionary, a default
    record otherwise. *)
Definition dict_or {A} (d : pyvalue) (k : string) (f : pyvalue -> option A)
    (default : A) : option A :=
  match dget d k with
  | Some (PDict _ as v) => f v
  | _ => Some default
  end.

Definition _func_info_from_dict (d : pyvalue) : option FunctionInfo.t :=
  qualified_name ← dget d "qualified_name" ≫= as_str;
  name ← dget d "name" ≫= as_str;
  source ← dget d "source" ≫= as_str;
  start_line ← dget d "start_line" ≫= as_int;
  end_line ← dget d "end_line" ≫= as_int;
  parameters ← as_list ParameterInfo_of (dget_or d "parameters" (PList []));
  return_annotation ← as_opt_str (dget_or d "return_annotation" PNone);
  return_types_inferred ←
    as_list as_str (dget_or d "return_types_inferred" (PList []));
  docstring ←
    dict_or d "docstring" DocstringInfo_of
      (DocstringInfo.mk None None [] None [] []);
  decorators ← as_list as_str (dget_or d "decorators" (PList []));
  complexity ←
    dict_or d "complexity" ComplexityMetrics_of (ComplexityMetrics.mk 0 0 0 0);
  control_flow ←
    dict_or d "control_flow" ControlFlowInfo_of
      (ControlFlowInfo.mk 0 [] [] false false false false false false false);
  data_flow ←
    dict_or d "data_flow" DataFlowInfo_of
      (DataFlowInfo.mk [] [] [] [] [] [] [] true);
  edge_cases ← as_list EdgeCaseHint_of (dget_or d "edge_cases" (PList []));
  is_method ← as_bool (dget_or d "is_method" (PBool false));
  is_staticmethod ← as_bool (dget_or d "is_staticmethod" (PBool false));
  is_classmethod ← as_bool (dget_or d "is_classmethod" (PBool false));
  is_property ← as_bool (dget_or d "is_property" (PBool false));
  is_abstractmethod ← as_bool (dget_or d "is_abstractmethod" (PBool false));
  nested_functions ← as_list as_str (dget_or d "nested_functions" (PList []));
  Some (FunctionInfo.mk qualified_name name source start_line end_line
          parameters return_annotation return_types_inferred docstring
          decorators complexity control_flow data_flow edge_cases is_method
          is_staticmethod is_classmethod is_property is_abstractmethod
          nested_functions).

Definition Attr_of (d : pyvalue) : option Attr.t :=
  name ← dget d "name" ≫= as_str;
  type ← dget d "type" ≫= as_opt_str;
  value ← dget d "value" ≫= as_opt_str;
  Some (Attr.mk name type value).

Definition as_methods (v : pyvalue)
  : option (list (string * list FunctionInfo.t)) :=
  match v with
  | PDict items =>
      mapM (fun kv : string * pyvalue =>
              pair kv.1 <$> as_list _func_info_from_dict kv.2)
           items
  | _ => None
  end.

Definition _class_info_from_dict (d : pyvalue) : option ClassInfo.t :=
  methods ← as_methods (dget_or d "methods" (PDict []));
  qualified_name ← dget d "qualified_name" ≫= as_str;
  name ← dget d "name" ≫= as_str;
  source ← dget d "source" ≫= as_str;
  start_line ← dget d "start_line" ≫= as_int;
  end_line ← dget d "end_line" ≫= as_int;
  base_classes ← as_list as_str (dget_or d "base_classes" (PList []));
  docstring ← as_opt_str (dget_or d "docstring" PNone);
  init_parameters ←
    as_list ParameterInfo_of (dget_or d "init_parameters" (PList []));
  instance_attributes ←
    as_list Attr_of (dget_or d "instance_attributes" (PList []));
  class_attributes ←
    as_list Attr_of (dget_or d "class_attributes" (PList []));
  abstract_methods ← as_list as_str (dget_or d "abstract_methods" (PList []));
  decorators ← as_list as_str (dget_or d "decorators" (PList []));
  is_dataclass ← as_bool (dget_or d "is_dataclass" (PBool false));
  is_pydantic_model ← as_bool (dget_or d "is_pydantic_model" (PBool false));
  Some (ClassInfo.mk qualified_name name source start_line end_line
          base_classes docstring init_parameters instance_attributes
          class_attributes methods abstract_methods decorators is_dataclass
          is_pydantic_model).

Definition ImportInfo_of (d : pyvalue) : option ImportInfo.t :=
  name ← dget d "name" ≫= as_str;
  alias ← dget d "alias" ≫= as_opt_str;
  category ← dget d "category" ≫= as_str;
  is_conditional ← as_bool (dget_or d "is_conditional" (PBool false));
  line ← as_int (dget_or d "line" (PInt 0));
  Some (ImportInfo.mk name alias category is_conditional line).

Definition ModuleVariable_of (d : pyvalue) : option ModuleVariable.t :=
  name ← dget d "name" ≫= as_str;
  type_annotation ← dget d "type_annotation" ≫= as_opt_str;
  value_repr ← dget d "value_repr" ≫= as_opt_str;
  is_constant ← dget d "is_constant" ≫= as_bool;
  line ← dget d "line" ≫= as_int;
  Some (ModuleVariable.mk name type_annotation value_repr is_constant line).

Definition as_opt_strs (v : pyvalue) : option (option (list string)) :=
  match v with
  | PNone => Some None
  | _ => Some <$> as_list as_str v
  end.

Definition _module_info_from_dict (d : pyvalue) : option ModuleInfo.t :=
  path ← dget d "path" ≫= as_str;
  import_name ←
    as_str (dget_or d "import_name"
              (PStr (removesuffix ".py" (replace_char "/" "." path))));
  docstring ← as_opt_str (dget_or d "docstring" PNone);
  imports ← as_list ImportInfo_of (dget_or d "imports" (PList []));
  module_variables ←
    as_list ModuleVariable_of (dget_or d "module_variables" (PList []));
  functions ← as_list _func_info_from_dict (dget_or d "functions" (PList []));
  classes ← as_list _class_info_from_dict (dget_or d "classes" (PList []));
  all_exports ← as_opt_strs (dget_or d "all_exports" PNone);
  has_main_block ← as_bool (dget_or d "has_main_block" (PBool false));
  errors ← as_list as_str (dget_or d "errors" (PList []));
  Some (ModuleInfo.mk path import_name docstring imports module_variables
          functions classes all_exports has_main_block errors).

(** ** The orchestrator

    [analyze_repo] from the point where the files, the import roots and the
    test files are known: [py_files] are the files found under the root,
    given by their paths relative to it, [import_roots] is what
    [_detect_import_roots] returned and [test_files] what [_find_test_files]
    returned. *)

(** How a parallel run unfolds: the order in which the futures complete,
    and, for the worker process that takes up a file, its package cache at
    that time and the order in which it iterates over sets. *)
Record Schedule := {
  completion_order : list Path;
  worker_cache : Path -> gmap Path (gset string);
  worker_order : Path -> SetOrder
}.

(** [f] on every element in turn, up to the first call that raises. *)
Fixpoint each {A B} (f : A -> outcome B) (l : list A) : outcome (list B) :=
  match l with
  | [] => Returned []
  | x :: rest =>
      match f x with
      | Raised e => Raised e
      | Returned y =>
          match each f rest with
          | Raised e => Raised e
          | Returned ys => Returned (y :: ys)
          end
      end
  end.

Section Worker.
Context (py : PyLib) (w : World).

(** The path string of a module entry, [str(rel).replace("\\", "/")]. *)
Definition rel_posix (rel : Path) : string :=
  replace_char "\" "/" (rel_str (os_sep w) rel).

(** The stub recorded when analysing a file raised. *)
Definition stub_module (rel : Path) (error : string) : ModuleInfo.t :=
  let path := rel_posix rel in
  failed_module path (removesuffix ".py" (replace_char "/" "." path)) error.

Definition _analyze_file_worker (cache : gmap Path (gset string))
    (file_path repo_root : Path) (import_roots : list Path)
  : outcome pyvalue :=
  match (_analyze_module py w cache file_path repo_root import_roots).1 with
  | Returned module_info => Returned (asdict_ModuleInfo module_info)
  | Raised e => Raised e
  end.

End Worker.

Section Orchestrator.
Context (py : PyLib) (w : World).

(** The library as the worker process that takes up [file_path] sees it. *)
Definition worker_lib (sched : Schedule) (file_path : Path) : PyLib :=
  with_set_order (worker_order sched file_path) py.

(** Body of [for future in as_completed(futures)]. *)
Definition parallel_step (sched : Schedule) (repo_root : Path)
    (import_roots : list Path) (modules : list ModuleInfo.t) (rel : Path)
  : list ModuleInfo.t :=
  let file_path := repo_root ++ rel in
  match _analyze_file_worker (worker_lib sched file_path) w
          (worker_cache sched file_path) file_path repo_root import_roots with
  | Returned mod_dict =>
      match _module_info_from_dict mod_dict with
      | Some module_info => modules ++ [module_info]
      | None => modules ++ [stub_module w rel "Worker error: malformed result"]
      end
  | Raised e => modules ++ [stub_module w rel ("Worker error: " +:+ e)]
  end.

(** Body of [for f in py_files] in the sequential branch. *)
Definition sequential_step (repo_root : Path) (import_roots : list Path)
    (acc : list ModuleInfo.t * gmap Path (gset string)) (rel : Path)
  : list ModuleInfo.t * gmap Path (gset string) :=
  let file_path := repo_root ++ rel in
  let (result, cache) :=
    _analyze_module py w acc.2 file_path repo_root import_roots in
  match result with
  | Returned module_info => (acc.1 ++ [module_info], cache)
  | Raised e => (acc.1 ++ [stub_module w rel ("Error: " +:+ e)], cache)
  end.

(** [_analyze_tokens(source)["todo_comments"]].  Only [TokenError] is
    caught, so another exception of the tokenizer leaves the function. *)
Definition todo_comments (source : string) : outcome (list (Z * string)) :=
  match comment_tokens w source with
  | Raised e => Raised e
  | Returned tokens =>
      Returned
        (omap (fun tok : Z * string =>
                 let comment := tok.2 in
                 if contains "TODO" comment || contains "FIXME" comment
                    || contains "HACK" comment || contains "XXX" comment
                 then Some (tok.1,
                            strip_chars is_space
                              (strip_chars is_hash_or_space comment))
                 else None)
              tokens)
  end.

(** The entries that the symbol-table and token passes append to
    [mod.errors]; both passes run before anything is appended. *)
Definition notes_of (source : string) : outcome (list string) :=
  let free_variables := free_symbols w source in
  match todo_comments source with
  | Raised e => Raised e
  | Returned todos =>
      Returned
        ((if nonempty free_variables
          then ["[info] Module uses closures. Free variables: "
                  +:+ repr_names free_variables]
          else [])
         ++ map (fun todo : Z * string =>
                   "[todo] Line " +:+ str_of_int todo.1 +:+ ": " +:+ todo.2)
                todos)
  end.

(** [repo_root / mod.path]. *)
Definition path_of_str (s : string) : Path :=
  List.filter (fun c => negb (String.eqb c "" || String.eqb c "."))
    (split_on "/" (replace_char (os_sep w) "/" s)).

(** [mod.errors.append(...)] for each note. *)
Definition with_notes (mod_ : ModuleInfo.t) (notes : list string)
  : ModuleInfo.t :=
  ModuleInfo.mk (ModuleInfo.path mod_) (ModuleInfo.import_name mod_)
    (ModuleInfo.docstring mod_) (ModuleInfo.imports mod_)
    (ModuleInfo.module_variables mod_) (ModuleInfo.functions mod_)
    (ModuleInfo.classes mod_) (ModuleInfo.all_exports mod_)
    (ModuleInfo.has_main_block mod_) (ModuleInfo.errors mod_ ++ notes).

(** Body of the enrichment loop [for mod in modules]: a file that is
    missing or cannot be read is skipped; an exception of the token pass is
    caught nowhere. *)
Definition enrich (repo_root : Path) (mod_ : ModuleInfo.t)
  : outcome ModuleInfo.t :=
  let file_path := repo_root ++ path_of_str (ModuleInfo.path mod_) in
  if negb (path_exists w file_path) then Returned mod_
  else
    match read_text w file_path with
    | Raised _ => Returned mod_
    | Returned source =>
        match notes_of source with
        | Raised e => Raised e
        | Returned notes => Returned (with_notes mod_ notes)
        end
    end.

(** The module list before sorting, with the cache the parent process is
    left with. *)
Definition collect_modules (parallel : bool) (sched : Schedule)
    (cache : gmap Path (gset string)) (repo_root : Path)
    (py_files import_roots : list Path)
  : list ModuleInfo.t * gmap Path (gset string) :=
  if parallel && Z.ltb 5 (len py_files) then
    (fold_left (parallel_step sched repo_root import_roots)
       (completion_order sched) [],
     cache)
  else
    fold_left (sequential_step repo_root import_roots) py_files ([], cache).

(** The passes between the enrichment loop and the report that are left
    out here (configuration files, testing framework, Python version, the
    optional [mypy] run, writing the report) guard their own file accesses;
    the report is reduced to the module list and the test hints. *)
Definition analyze_repo (parallel : bool) (sched : Schedule)
    (cache : gmap Path (gset string)) (repo_root : Path)
    (py_files import_roots : list Path) (test_files : list string)
  : outcome Report.t :=
  if negb (is_dir w repo_root) then Raised "Not a directory"
  else
    let modules :=
      (collect_modules parallel sched cache repo_root py_files import_roots).1 in
    let modules := sorted_by String.leb ModuleInfo.path modules in
    match each (enrich repo_root) modules with
    | Raised e => Raised e
    | Returned modules =>
        let test_hints := _generate_test_hints py modules test_files in
        Returned (Report.mk modules test_hints)
    end.

End Orchestrator.

(** ** Statements about files and reports *)






(** An entry appended by the symbol-table or token pass. *)
Definition is_note (entry : string) : bool :=
  startswith "[info] " entry || startswith "[todo] " entry.







(** The second entry is the first one with notes of the symbol-table and
    token passes appended to its error list. *)
Definition noted (m m' : ModuleInfo.t) : Prop :=
  exists notes,
    Forall (fun entry => is_note entry = true) notes
    /\ m' = with_notes m notes.







(** ** Trees produced by the parser

    [ast.parse] builds a boolean-operator chain only with two operands or
    more, and gives every definition an end line that is not before its first
    line.  The analyzer only ever sees such trees. *)
Definition node_ok (n : ast) : Prop :=
  match n with
  | BoolOp values => (2 <= length values)%nat
  | FunctionDef _ _ _ _ _ lineno (Some e)
  | AsyncFunctionDef _ _ _ _ _ lineno (Some e)
  | ClassDef _ _ _ _ _ lineno (Some e) => lineno <= e
  | _ => True
  end.

Definition parser_output (node : ast) : Prop :=
  Forall node_ok (subnodes node).

Definition is_yield (n : ast) : bool :=
  match n with Yield _ | YieldFrom _ => true | _ => false end.

Definition is_call (n : ast) : bool :=
  match n with Call _ _ _ => true | _ => false end.




(** ** Worked inputs *)

(** Two iteration orders, one the reverse of the other. *)
Definition base_order : SetOrder :=
  {| iteration := fun xs => elements (list_to_set xs : gset string);
     iteration_perm := fun xs => Permutation_refl _ |}.

Definition reversed_order : SetOrder :=
  {| iteration := fun xs => rev (elements (list_to_set xs : gset string));
     iteration_perm := fun xs => Permutation_sym (Permutation_rev _) |}.

(** [str.lower] on ASCII text. *)
Fixpoint ascii_lower (s : string) : string :=
  match s with
  | EmptyString => EmptyString
  | String c rest =>
      let n := nat_of_ascii c in
      String (if Nat.leb 65 n && Nat.leb n 90 then ascii_of_nat (n + 32) else c)
             (ascii_lower rest)
  end.

(** A renderer for the expressions that occur in the worked inputs: names,
    dotted names and integer literals print as [ast.unparse] prints them. *)
Definition render : ast -> option string :=
  ast_fold (fun node subs =>
    match node, subs with
    | Name id, _ => Some id
    | Attribute _ attr, [Some v] => Some (v +:+ "." +:+ attr)
    | Constant (CInt z), _ => Some (str_of_int z)
    | _, _ => None
    end).

(** [str.isupper] on ASCII text: some upper-case letter and no lower-case
    one. *)
Fixpoint has_letter_in (lo hi : nat) (s : string) : bool :=
  match s with
  | EmptyString => false
  | String c rest =>
      let n := nat_of_ascii c in
      (Nat.leb lo n && Nat.leb n hi) || has_letter_in lo hi rest
  end.

Definition ascii_isupper (s : string) : bool :=
  has_letter_in 65 90 s && negb (has_letter_in 97 122 s).

(** The library used in the worked inputs; their definitions carry no
    docstring. *)
Definition lib : PyLib :=
  {| unparse := render;
     str_lower := ascii_lower;
     str_isupper := ascii_isupper;
     get_docstring := fun _ => None;
     parse_docstring_text := fun _ => DocstringInfo.mk None None [] None [] [];
     set_order := base_order |}.

Definition no_arguments : ast := arguments [] [] None [] [] None [].

(** [def f(x): return x if x > 0 else -x] *)
Definition scenario_A : ast :=
  FunctionDef "f" (arguments [] [arg "x" None] None [] [] None [])
    [Return (Some (IfExp (Other [Name "x"; Constant (CInt 0)])
                         (Name "x")
                         (Other [Name "x"])))]
    [] None 1 (Some 1).

(** [async def agen(): yield 1] and [async def coro(): return 1] *)
Definition scenario_C_yield : ast :=
  AsyncFunctionDef "agen" no_arguments
    [Other [Yield (Some (Constant (CInt 1)))]] [] None 1 (Some 2).

Definition scenario_C_plain : ast :=
  AsyncFunctionDef "coro" no_arguments
    [Return (Some (Constant (CInt 1)))] [] None 1 (Some 2).

(** [def one(): return 1] and [def caller(): return g()] *)
Definition scenario_D_pure : ast :=
  FunctionDef "one" no_arguments
    [Return (Some (Constant (CInt 1)))] [] None 1 (Some 2).


(** A function whose only parameter is the variadic [*items], with body
    [pass]. *)
Definition variadic_fn : ast :=
  FunctionDef "total"
    (arguments [] [] (Some (arg "items" None)) [] [] None [])
    [Other []] [] None 1 (Some 1).

(** [def scale(x: int, *, by): raise ValueError(x)] *)
Definition raising_fn : ast :=
  FunctionDef "scale"
    (arguments [] [arg "x" (Some (Name "int"))] None [arg "by" None] [None]
       None [])
    [Raise (Some (Call (Name "ValueError") [Name "x"] [])) None]
    [] None 1 (Some 1).

(** ** Statements about edge-case hints *)

(** The hint list holds a hint of the given category for parameter [p]. *)
Definition hinted (hints : list EdgeCaseHint.t) (p category : string) : Prop :=
  exists h, In h hints /\ EdgeCaseHint.parameter h = Some p
            /\ EdgeCaseHint.category h = category.

(** "Every declared parameter, the implicit receiver apart, gets a
    none-input, an empty-input and a type-mismatch hint." *)
Definition every_parameter_hinted (fi : FunctionInfo.t) : Prop :=
  forall p, In p (FunctionInfo.parameters fi) ->
    ParameterInfo.name p <> "self" -> ParameterInfo.name p <> "cls" ->
    hinted (FunctionInfo.edge_cases fi) (ParameterInfo.name p) "none_input"
    /\ hinted (FunctionInfo.edge_cases fi) (ParameterInfo.name p) "empty_input"
    /\ hinted (FunctionInfo.edge_cases fi) (ParameterInfo.name p)
         "type_mismatch".

Definition is_exception_path (h : EdgeCaseHint.t) : bool :=
  String.eqb (EdgeCaseHint.category h) "exception_path".

(** A module [pkg/shapes.py] with a top-level function and a class,
<<
    class Shape:
        def area(self, w, h):
            if w and h:
                return w * h
            return 0
>>
    and a test file [tests/test_shapes.py] for it. *)
Definition shape_class : ast :=
  ClassDef "Shape" [] []
    [FunctionDef "area"
       (arguments [] [arg "self" None; arg "w" None; arg "h" None] None [] []
          None [])
       [If (BoolOp [Name "w"; Name "h"])
           [Return (Some (Other [Name "w"; Name "h"]))] [];
        Return (Some (Constant (CInt 0)))]
       [] None 2 (Some 5)]
    [] 1 (Some 5).

Definition shapes_module : ModuleInfo.t :=
  ModuleInfo.mk "pkg/shapes.py" "pkg.shapes" None [] []
    [_analyze_function lib scenario_D_pure "pkg.shapes" None []]
    [_analyze_class lib shape_class "pkg.shapes" []]
    None false [].

Definition shapes_tests : list string := ["tests/test_shapes.py"].

(** ** Statements about the high-priority list *)

(** The triple recorded for a function. *)
Definition untested_triple (func : FunctionInfo.t) : string * Z * bool :=
  (FunctionInfo.qualified_name func, cyclomatic_of func, false).

(** [x] is the triple of a top-level function of [mod_]. *)
Definition function_of (mod_ : ModuleInfo.t) (x : string * Z * bool) : Prop :=
  exists func, In func (ModuleInfo.functions mod_) /\ x = untested_triple func.

(** [x] is the triple of a method of a class of [mod_]. *)
Definition method_of (mod_ : ModuleInfo.t) (x : string * Z * bool) : Prop :=
  exists cls func,
    In cls (ModuleInfo.classes mod_) /\ In func (class_methods cls)
    /\ x = untested_triple func.

(** The module has an associated test file, by the name convention. *)
Definition has_test_file (test_files : list string) (mod_ : ModuleInfo.t)
  : Prop :=
  str_path_stem (ModuleInfo.path mod_) ∈ tested_modules_of test_files.

(** "The high-priority list contains only functions whose owning module has
    no associated test file." *)
Definition only_untested_modules (modules : list ModuleInfo.t)
    (test_files : list string) : Prop :=
  forall x, In x (high_priority_of (all_funcs_of modules test_files)) ->
    exists mod_, In mod_ modules
      /\ (function_of mod_ x \/ method_of mod_ x)
      /\ ~ has_test_file test_files mod_.

(** ** A small file system

    Four repositories: [repo] holds ten source files, nine that parse and
    one with a syntax error; [repo2] holds six, one of which makes the
    parser raise an exception that is not a [SyntaxError]; [repo3] holds one
    file whose last line is dedented to a level that matches no outer one;
    [repo4] holds six, one of which returns two different names. *)

Definition src_app : string :=
  "import os" +:+ newline +:+ "from mypkg.sub import x" +:+ newline
  +:+ "import requests" +:+ newline +:+ "def one(): return 1".

Definition src_todo : string :=
  "# TODO: tidy up" +:+ newline +:+ "x = 1".

Definition src_shapes : string := "class Shape: ...".
Definition src_one : string := "def one(): return 1".
Definition src_broken : string := "def (:".

(** [ast.parse] rejects it with an [IndentationError], a [SyntaxError];
    the tokenizer raises an [IndentationError] too, which is not a
    [TokenError]. *)
Definition src_dedent : string :=
  "if x:" +:+ newline +:+ "        a = 1" +:+ newline +:+ "    b = 2".

Definition src_pick : string :=
  "def pick(a, b):" +:+ newline +:+ "    if a: return a" +:+ newline
  +:+ "    return b".

Definition tree_pick : ast :=
  Module
    [FunctionDef "pick"
       (arguments [] [arg "a" None; arg "b" None] None [] [] None [])
       [If (Name "a") [Return (Some (Name "a"))] [];
        Return (Some (Name "b"))]
       [] None 1 (Some 3)].

(** A source with a null byte: [read_text] succeeds and, before Python
    3.12, [ast.parse] raises [ValueError], which is not a [SyntaxError].
    A [RecursionError] on a deeply nested expression takes the same path in
    every version. *)
Definition src_nul : string := "x = 1" +:+ String zero EmptyString.

Definition tree_app : ast :=
  Module [Import [alias "os" None] 1;
          ImportFrom (Some "mypkg.sub") [alias "x" None] 2;
          Import [alias "requests" None] 3;
          scenario_D_pure].

Definition tree_todo : ast :=
  Module [Assign [Name "x"] (Constant (CInt 1)) 2].

Definition toy_files : list (Path * string) :=
  [(["repo"; "app.py"], src_app);
   (["repo"; "mypkg"; "__init__.py"], "");
   (["repo"; "mypkg"; "sub.py"], src_todo);
   (["repo"; "mypkg"; "shapes.py"], src_shapes);
   (["repo"; "a.py"], src_one);
   (["repo"; "b.py"], src_one);
   (["repo"; "c.py"], src_one);
   (["repo"; "d.py"], src_one);
   (["repo"; "e.py"], src_one);
   (["repo"; "broken.py"], src_broken);
   (["repo2"; "a.py"], src_one);
   (["repo2"; "b.py"], src_one);
   (["repo2"; "c.py"], src_one);
   (["repo2"; "d.py"], src_one);
   (["repo2"; "e.py"], src_one);
   (["repo2"; "nul.py"], src_nul);
   (["repo3"; "bad.py"], src_dedent);
   (["repo4"; "a.py"], src_one);
   (["repo4"; "b.py"], src_one);
   (["repo4"; "c.py"], src_one);
   (["repo4"; "d.py"], src_one);
   (["repo4"; "e.py"], src_one);
   (["repo4"; "pick.py"], src_pick)].

Definition toy_dirs : list Path :=
  [["repo"]; ["repo"; "mypkg"]; ["repo2"]; ["repo3"]; ["repo4"]].

Definition toy_trees : list (string * parse_result) :=
  [(src_app, Parsed tree_app);
   ("", Parsed (Module []));
   (src_todo, Parsed tree_todo);
   (src_shapes, Parsed (Module [shape_class]));
   (src_one, Parsed (Module [scenario_D_pure]));
   (src_broken, SyntaxError "invalid syntax (<unknown>, line 1)");
   (src_nul, ParseRaised "source code string cannot contain null bytes");
   (src_dedent,
    SyntaxError "unindent does not match any outer indentation level");
   (src_pick, Parsed tree_pick)].

Fixpoint lookup_by {K V} (eqb : K -> K -> bool) (k : K) (l : list (K * V))
  : option V :=
  match l with
  | [] => None
  | (k', v) :: rest => if eqb k' k then Some v else lookup_by eqb k rest
  end.

Definition path_eqb (p q : Path) : bool := bool_decide (p = q).

Definition toy_world : World :=
  {| stdlib_module_names := list_to_set ["os"; "sys"; "json"];
     is_dir := fun p => existsb (path_eqb p) toy_dirs;
     is_file := fun p => existsb (path_eqb p) (map fst toy_files);
     path_exists := fun p =>
       existsb (path_eqb p) toy_dirs
       || existsb (path_eqb p) (map fst toy_files);
     iterdir := fun p =>
       map path_name
         (List.filter (fun q => path_eqb (parent q) p && nonempty q)
            (toy_dirs ++ map fst toy_files));
     read_text := fun p =>
       match lookup_by path_eqb p toy_files with
       | Some source => Returned source
       | None => Raised "[Errno 2] No such file or directory"
       end;
     ast_parse := fun source =>
       match lookup_by String.eqb source toy_trees with
       | Some r => r
       | None => SyntaxError "invalid syntax"
       end;
     splitlines := split_on (ascii_of_nat 10);
     comment_tokens := fun source =>
       if String.eqb source src_dedent then
         Raised "unindent does not match any outer indentation level"
       else if String.eqb source src_todo then
         Returned [(1, "# TODO: tidy up")]
       else Returned [];
     free_symbols := fun _ => [];
     os_sep := "/" |}.



Definition repo4_files : list Path :=
  [["a.py"]; ["b.py"]; ["c.py"]; ["d.py"]; ["e.py"]; ["pick.py"]].

(** Workers start from an empty package cache and finish in submission
    order, or in the reverse order. *)
Definition in_order (py_files : list Path) : Schedule :=
  {| completion_order := py_files;
     worker_cache := fun _ => ∅;
     worker_order := fun _ => base_order |}.


(** Spawned workers, whose sets come out in the other order. *)
Definition spawned (py_files : list Path) : Schedule :=
  {| completion_order := py_files;
     worker_cache := fun _ => ∅;
     worker_order := fun _ => reversed_order |}.




Definition modules_of (r : outcome Report.t) : list ModuleInfo.t :=
  match r with
  | Returned report => Report.modules report
  | Raised _ => []
  end.

(** ** Further statements about the function-level passes *)

(** The nodes below a node: every node of its tree but the node itself. *)
Definition descendants (node : ast) : list ast :=
  concat (map subnodes (iter_child_nodes node)).

(** The structures for which [_cognitive_complexity] raises the depth. *)
Definition is_cognitive_structure (n : ast) : bool :=
  match n with
  | If _ _ _ | For _ _ _ _ | While _ _ _ | ExceptHandler _ _ _ | Match _ _ =>
      true
  | _ => false
  end.

(** The structures for which [_max_nesting_depth] raises the level. *)
Definition is_nesting_structure (n : ast) : bool :=
  match n with
  | If _ _ _ | For _ _ _ _ | While _ _ _ | With _ _ | Try _ _ _ _
  | ExceptHandler _ _ _ | Match _ _ => true
  | _ => false
  end.

(** What one node adds to [branch_count]. *)
Definition branch_weight (n : ast) : Z :=
  match n with
  | If _ _ _ | IfExp _ _ _ | For _ _ _ _ | While _ _ _
  | ExceptHandler _ _ _ => 1
  | Match _ cases => len cases
  | _ => 0
  end.

(** The node tests behind the four structural flags of the control-flow
    record. *)
Definition is_try_finally (n : ast) : bool :=
  match n with Try _ _ _ finalbody => nonempty finalbody | _ => false end.
Definition is_for_else (n : ast) : bool :=
  match n with For _ _ _ orelse => nonempty orelse | _ => false end.
Definition is_while_else (n : ast) : bool :=
  match n with While _ _ orelse => nonempty orelse | _ => false end.
Definition is_match (n : ast) : bool :=
  match n with Match _ _ => true | _ => false end.

(** The names that one turn of the control-flow loop appends to [raised]
    and to [caught] when it visits a node. *)
Definition names_raised_by (py : PyLib) (n : ast) : list string :=
  raised (control_flow_step py false
            (mk_cf [] [] false false false false false false 0) n).

Definition names_caught_by (py : PyLib) (n : ast) : list string :=
  caught (control_flow_step py false
            (mk_cf [] [] false false false false false false 0) n).

(** Nothing collected by the data-flow loop is ever dropped: the relation
    between its locals at an earlier and at a later turn. *)
Definition df_extends (st st' : df_locals) : Prop :=
  (has_side_effects st = true -> has_side_effects st' = true)
  /\ args_mutated st ⊆ args_mutated st'
  /\ instance_attrs_read st ⊆ instance_attrs_read st'
  /\ instance_attrs_written st ⊆ instance_attrs_written st'
  /\ declared_globals st ⊆ declared_globals st'
  /\ (forall x, In x (nonlocals st) -> In x (nonlocals st'))
  /\ (forall x, In x (globals_written st) -> In x (globals_written st')).

(** What the data-flow loop maintains: only parameters are recorded as
    mutated, and only declared globals as written. *)
Definition df_invariant (params : gset string) (st : df_locals) : Prop :=
  args_mutated st ⊆ params
  /\ forall x, In x (globals_written st) -> x ∈ declared_globals st.

(** The names a [global] statement declares. *)
Definition declared_by (n : ast) : list string :=
  match n with Global names => names | _ => [] end.

(** The dotted name [base.a1.a2...] as an expression. *)
Definition dotted_expr (base : string) (attrs : list string) : ast :=
  fold_left Attribute attrs (Name base).

(** ** Further statements about the class and module analyzers *)

(** The six method groups, in the order [_analyze_class] creates them. *)
Definition method_groups : list string :=
  ["public"; "private"; "dunder"; "static"; "class_"; "property"].

(** The direct function definitions of a class body, analysed as methods
    of the class. *)
Definition analysed_methods (py : PyLib) (node : ast) (module_name : string)
    (source_lines : list string) : list FunctionInfo.t :=
  map (fun child =>
         _analyze_function py child module_name (Some (node_name node))
           source_lines)
      (List.filter is_function_def (iter_child_nodes node)).

(** The class body defines [__init__] directly. *)
Definition defines_init (node : ast) : bool :=
  existsb (fun child =>
             is_function_def child && String.eqb (node_name child) "__init__")
          (iter_child_nodes node).






(** ** Further statements about imports and the repository *)


(** [local_deps] of one module: the names of its imports of category
    [local], in order. *)
Definition local_deps (mod_ : ModuleInfo.t) : list string :=
  map ImportInfo.name
    (List.filter (fun imp => String.eqb (ImportInfo.category imp) "local")
       (ModuleInfo.imports mod_)).

(** [_build_dependency_graph]: the dictionary from module path to the sorted
    local dependencies of the module. *)
Definition _build_dependency_graph (modules : list ModuleInfo.t)
  : gmap string (list string) :=
  fold_left
    (fun graph mod_ =>
       <[ModuleInfo.path mod_ := sorted_set (list_to_set (local_deps mod_))]>
         graph)
    modules ∅.

(** [total_functions] and [total_classes] as [analyze_repo] computes them:
    the top-level functions of every module, then the methods of every
    group of every class. *)
Definition total_functions (modules : list ModuleInfo.t) : Z :=
  fold_left
    (fun total m =>
       fold_left
         (fun total c =>
            fold_left
              (fun total group_funcs => total + len group_funcs)
              (map snd (ClassInfo.methods c)) total)
         (ModuleInfo.classes m) total)
    modules
    (foldr Z.add 0 (map (fun m => len (ModuleInfo.functions m)) modules)).

Definition total_classes (modules : list ModuleInfo.t) : Z :=
  foldr Z.add 0 (map (fun m => len (ModuleInfo.classes m)) modules).

(** The module has a top-level coroutine function. *)
Definition has_coroutine (mod_ : ModuleInfo.t) : bool :=
  existsb (fun func =>
             ControlFlowInfo.is_coroutine (FunctionInfo.control_flow func))
          (ModuleInfo.functions mod_).

(** *** Import roots *)







(** ** Return values and module-level names *)

(** The label that [return value] adds to the inferred return types. *)
Definition return_label (py : PyLib) (value : ast) : string :=
  match value with
  | Constant c => type_name c
  | Dict _ _ => "dict"
  | List_ _ => "list"
  | Tuple _ => "tuple"
  | Set_ _ => "set"
  | Call func _ _ => "call:" +:+ _safe_unparse py func
  | Name id => "var:" +:+ id
  | _ => "expr:" +:+ substring 0 50 (_safe_unparse py value)
  end.




(** ** Further worked inputs *)

(** A method [def set(self): self.x = 1]. *)
Definition setter_fn : ast :=
  FunctionDef "set" (arguments [] [arg "self" None] None [] [] None [])
    [Assign [Attribute (Name "self") "x"] (Constant (CInt 1)) 2]
    [] None 1 (Some 2).

(** The parameters of [def f(a, b=1, *rest, key=2, **extra)]. *)
Definition sample_arguments : ast :=
  arguments [] ([arg "a" None] ++ [arg "b" None])
    (Some (arg "rest" None)) [arg "key" None] [Some (Constant (CInt 2))]
    (Some (arg "extra" None)) [Constant (CInt 1)].

(** * Properties *)

(** ** The recursion scheme and the traversal *)

Section FoldFacts.
Context {A : Type} (f : ast -> list A -> A).

Lemma map_option_list (o : option ast) :
  match o with Some x => [ast_fold f x] | None => [] end
  = map (ast_fold f) (option_list o).
Proof. now destruct o. Qed.

Lemma map_some_nodes (l : list (option ast)) :
  flat_map (fun o : option ast =>
              match o with Some x => [ast_fold f x] | None => [] end) l
  = map (ast_fold f) (some_nodes l).
Proof.
  unfold some_nodes.
  induction l as [|[x|] l IH]; simpl; [reflexivity | now f_equal | exact IH].
Qed.

Lemma ast_fold_eq (node : ast) :
  ast_fold f node = f node (map (ast_fold f) (iter_child_nodes node)).
Proof.
  destruct node; simpl; f_equal;
    rewrite ?map_option_list, ?map_some_nodes, ?map_app; reflexivity.
Qed.

End FoldFacts.

Lemma ast_size_eq (node : ast) :
  ast_size node = S (queue_size (iter_child_nodes node)).
Proof. unfold ast_size at 1. now rewrite ast_fold_eq. Qed.

Lemma subnodes_eq (node : ast) :
  subnodes node = node :: concat (map subnodes (iter_child_nodes node)).
Proof. unfold subnodes at 1. now rewrite ast_fold_eq. Qed.

Lemma queue_size_app (q1 q2 : list ast) :
  queue_size (q1 ++ q2) = (queue_size q1 + queue_size q2)%nat.
Proof.
  unfold queue_size. induction q1 as [|n q1 IH]; simpl; [reflexivity | lia].
Qed.

Lemma child_size_lt (node child : ast) :
  In child (iter_child_nodes node) -> (ast_size child < ast_size node)%nat.
Proof.
  rewrite (ast_size_eq node). unfold queue_size.
  induction (iter_child_nodes node) as [|c cs IH]; simpl; [tauto|].
  intros [->|Hin]; [lia | specialize (IH Hin); lia].
Qed.

(** Induction on a tree with the hypothesis available for every child. *)
Lemma ast_children_ind (P : ast -> Prop) :
  (forall node, Forall P (iter_child_nodes node) -> P node) ->
  forall node, P node.
Proof.
  intros step node.
  remember (ast_size node) as n eqn:Hn.
  revert node Hn.
  induction n as [n IH] using lt_wf_ind.
  intros node ->. apply step, Forall_forall.
  intros child Hin%list_elem_of_In.
  exact (IH _ (child_size_lt _ _ Hin) child eq_refl).
Qed.

(** The traversal visits every node of the tree exactly once: it is a
    rearrangement of [subnodes], whatever surplus the counter has. *)
Lemma walk_queue_complete (turns : nat) (todo : list ast) :
  (queue_size todo <= turns)%nat ->
  walk_queue turns todo ≡ₚ concat (map subnodes todo).
Proof.
  revert todo.
  induction turns as [|turns IH]; intros [|node rest] Hle; simpl; try reflexivity.
  - exfalso. unfold queue_size in Hle. simpl in Hle.
    rewrite ast_size_eq in Hle. lia.
  - rewrite subnodes_eq. simpl. constructor.
    rewrite IH.
    + rewrite map_app, concat_app. apply Permutation_app_comm.
    + unfold queue_size in Hle. simpl in Hle. rewrite ast_size_eq in Hle.
      rewrite queue_size_app. fold (queue_size rest) in Hle. lia.
Qed.

Lemma walk_complete (node : ast) : walk node ≡ₚ subnodes node.
Proof.
  unfold walk. rewrite walk_queue_complete.
  - simpl. now rewrite app_nil_r.
  - unfold queue_size. simpl. lia.
Qed.

Lemma walk_head (node : ast) :
  walk node = node :: walk_queue (queue_size (iter_child_nodes node))
                                 (iter_child_nodes node).
Proof. unfold walk. rewrite ast_size_eq. reflexivity. Qed.

Lemma in_walk_self (node : ast) : In node (walk node).
Proof. rewrite walk_head. now left. Qed.

Lemma fold_left_zip_map {A B C} (h : C -> A -> B -> C) (g : A -> B)
    (l : list A) (c : C) :
  fold_left (fun acc xr => h acc xr.1 xr.2) (zip l (map g l)) c
  = fold_left (fun acc x => h acc x (g x)) l c.
Proof. revert c. induction l as [|x l IH]; intros c; simpl; auto. Qed.

(** The recursive equations of the two passes, as the source writes them. *)
Lemma _cognitive_complexity_eq (node : ast) (depth : Z) :
  _cognitive_complexity node depth
  = fold_left (fun total child =>
                 cognitive_step depth total child (_cognitive_complexity child))
              (iter_child_nodes node) 0.
Proof.
  unfold _cognitive_complexity at 1. rewrite ast_fold_eq.
  apply (fold_left_zip_map (cognitive_step depth)).
Qed.

Lemma _max_nesting_depth_eq (node : ast) (current : Z) :
  _max_nesting_depth node current
  = fold_left (fun max_depth child =>
                 nesting_step current max_depth child (_max_nesting_depth child))
              (iter_child_nodes node) current.
Proof.
  unfold _max_nesting_depth at 1. rewrite ast_fold_eq.
  apply (fold_left_zip_map (nesting_step current)).
Qed.

Lemma cyclomatic_fold (l : list ast) (c : Z) :
  fold_left
    (fun count child =>
       match child with
       | If _ _ _ | IfExp _ _ _ => count + 1
       | For _ _ _ _ => count + 1
       | While _ _ _ => count + 1
       | ExceptHandler _ _ _ => count + 1
       | With _ _ => count + 1
       | Assert _ _ => count + 1
       | BoolOp values => count + (len values - 1)
       | Match _ cases => count + len cases
       | _ => count
       end) l c
  = c + foldr Z.add 0 (map decision_weight l).
Proof.
  revert c. induction l as [|n l IH]; intros c; simpl; [lia|].
  rewrite IH. destruct n; simpl; lia.
Qed.

Lemma sum_weights_perm (w : ast -> Z) (l1 l2 : list ast) :
  l1 ≡ₚ l2 -> foldr Z.add 0 (map w l1) = foldr Z.add 0 (map w l2).
Proof. induction 1; simpl; lia. Qed.

Lemma count_filter_sum (p : ast -> bool) (l : list ast) :
  len (filter p l) = foldr Z.add 0 (map (fun n => if p n then 1 else 0) l).
Proof.
  unfold len. induction l as [|n l IH]; simpl; [reflexivity|].
  destruct (p n) eqn:E.
  - rewrite filter_cons_True by (rewrite E; exact I). simpl length. lia.
  - rewrite filter_cons_False by (rewrite E; exact id). lia.
Qed.

Lemma decision_points_sum (node : ast) :
  decision_points node = foldr Z.add 0 (map decision_weight (subnodes node)).
Proof.
  unfold decision_points, count_nodes, sum_nodes.
  rewrite !count_filter_sum.
  induction (subnodes node) as [|n l IH]; simpl; [reflexivity|].
  rewrite <- IH. destruct n; simpl; lia.
Qed.

Lemma cyclomatic_decision_points (node : ast) :
  _cyclomatic_complexity node = 1 + decision_points node.
Proof.
  unfold _cyclomatic_complexity. rewrite cyclomatic_fold, decision_points_sum.
  f_equal. apply sum_weights_perm, walk_complete.
Qed.

(** ** Complexity metrics *)

Lemma subnodes_self (node : ast) : In node (subnodes node).
Proof. rewrite subnodes_eq. now left. Qed.

Lemma subnodes_child (node child x : ast) :
  In child (iter_child_nodes node) -> In x (subnodes child) ->
  In x (subnodes node).
Proof.
  intros Hc Hx. rewrite subnodes_eq. right.
  apply in_concat. exists (subnodes child). split; [|exact Hx].
  apply in_map_iff. now exists child.
Qed.

Lemma in_walk_subnodes (node x : ast) : In x (walk node) <-> In x (subnodes node).
Proof.
  split; intros H.
  - eapply Permutation_in; [apply walk_complete | exact H].
  - eapply Permutation_in; [symmetry; apply walk_complete | exact H].
Qed.

Lemma parser_output_child (node child : ast) :
  parser_output node -> In child (iter_child_nodes node) ->
  parser_output child.
Proof.
  unfold parser_output. rewrite !Forall_forall.
  intros H Hc x Hx%list_elem_of_In. apply H, list_elem_of_In.
  eapply subnodes_child; eassumption.
Qed.

Lemma parser_output_self (node : ast) : parser_output node -> node_ok node.
Proof.
  unfold parser_output. rewrite Forall_forall. intros H.
  apply H, list_elem_of_In, subnodes_self.
Qed.

Lemma decision_weight_nonneg (n : ast) : node_ok n -> 0 <= decision_weight n.
Proof. destruct n; simpl; unfold len; lia. Qed.

Lemma cyclomatic_ge_1 (node : ast) :
  parser_output node -> 1 <= _cyclomatic_complexity node.
Proof.
  intros Hwf. rewrite cyclomatic_decision_points, decision_points_sum.
  unfold parser_output in Hwf.
  induction Hwf as [|n l Hn _ IH]; simpl; [lia|].
  pose proof (decision_weight_nonneg n Hn). lia.
Qed.

Lemma cognitive_nonneg (node : ast) :
  parser_output node ->
  forall depth, 0 <= depth -> 0 <= _cognitive_complexity node depth.
Proof.
  induction node as [node IH] using ast_children_ind.
  intros Hwf depth Hd. rewrite _cognitive_complexity_eq.
  assert (Hch : forall c, In c (iter_child_nodes node) -> parser_output c)
    by (intros c Hc; eapply parser_output_child; eassumption).
  clear Hwf.
  assert (Hgen : forall acc, 0 <= acc ->
            0 <= fold_left
                   (fun total child =>
                      cognitive_step depth total child
                        (_cognitive_complexity child))
                   (iter_child_nodes node) acc); [|apply Hgen; lia].
  induction IH as [|c cs Hc _ IHcs]; intros acc Hacc; simpl; [exact Hacc|].
  apply IHcs.
  - intros c' Hc'. apply Hch. now right.
  - assert (Hok : parser_output c) by (apply Hch; now left).
    pose proof (parser_output_self _ Hok) as Hn.
    pose proof (Hc Hok depth Hd). pose proof (Hc Hok (depth + 1) ltac:(lia)).
    destruct c; simpl in *; unfold len; lia.
Qed.

Lemma nesting_ge_current (node : ast) :
  forall current, current <= _max_nesting_depth node current.
Proof.
  induction node as [node IH] using ast_children_ind.
  intros current. rewrite _max_nesting_depth_eq.
  assert (Hgen : forall acc, current <= acc ->
            current <= fold_left
                   (fun max_depth child =>
                      nesting_step current max_depth child
                        (_max_nesting_depth child))
                   (iter_child_nodes node) acc); [|apply Hgen; lia].
  induction IH as [|c cs Hc _ IHcs]; intros acc Hacc; simpl; [exact Hacc|].
  apply IHcs.
  pose proof (Hc current). pose proof (Hc (current + 1)).
  destruct c; simpl; lia.
Qed.

(** ** Sorting *)

Section SortedFacts.
Context {A K : Type} (leb : K -> K -> bool) (key : A -> K).
Hypothesis leb_total : forall a b, leb a b = true \/ leb b a = true.
Hypothesis leb_trans :
  forall a b c, leb a b = true -> leb b c = true -> leb a c = true.

Local Abbreviation key_le := (key_le leb key).

Lemma insert_sorted_perm (x : A) (l : list A) :
  insert_sorted leb key x l ≡ₚ x :: l.
Proof.
  induction l as [|y l IH]; simpl; [reflexivity|].
  destruct (leb (key x) (key y)); [reflexivity|].
  rewrite IH. apply perm_swap.
Qed.

Lemma sorted_by_perm (l : list A) : sorted_by leb key l ≡ₚ l.
Proof.
  induction l as [|x l IH]; simpl; [reflexivity|].
  now rewrite insert_sorted_perm, IH.
Qed.

Lemma insert_sorted_sorted (x : A) (l : list A) :
  StronglySorted key_le l -> StronglySorted key_le (insert_sorted leb key x l).
Proof.
  induction 1 as [|y l Hs IH Hall]; simpl.
  - repeat constructor.
  - destruct (leb (key x) (key y)) eqn:E.
    + constructor; [now constructor|].
      constructor; [exact E|].
      eapply Forall_impl; [exact Hall|].
      intros z Hz. unfold key_le in *. eauto.
    + constructor; [exact IH|].
      rewrite insert_sorted_perm. constructor; [|exact Hall].
      unfold key_le. destruct (leb_total (key x) (key y)); congruence.
Qed.

Lemma sorted_by_sorted (l : list A) : StronglySorted key_le (sorted_by leb key l).
Proof.
  induction l as [|x l IH]; simpl; [constructor|].
  now apply insert_sorted_sorted.
Qed.

Lemma StronglySorted_take (R : A -> A -> Prop) (n : nat) (l : list A) :
  StronglySorted R l -> StronglySorted R (take n l).
Proof.
  intros H. revert n.
  induction H as [|x l Hs IH Hall]; intros [|n]; simpl; try constructor.
  - apply IH.
  - apply Forall_take, Hall.
Qed.

Lemma StronglySorted_lookup (R : A -> A -> Prop) (l : list A) (i j : nat)
    (x y : A) :
  StronglySorted R l -> l !! i = Some x -> l !! j = Some y ->
  (i < j)%nat -> R x y.
Proof.
  intros H. revert i j.
  induction H as [|z l Hs IH Hall]; intros i j Hi Hj Hlt; [discriminate|].
  destruct j as [|j]; [lia|].
  destruct i as [|i]; simpl in *.
  - injection Hi as <-. rewrite Forall_forall in Hall.
    apply Hall. eapply list_elem_of_lookup_2, Hj.
  - eapply IH; eauto. lia.
Qed.


Hypothesis leb_antisym :
  forall a b : K, leb a b = true -> leb b a = true -> a = b.


Lemma StronglySorted_map_key (f : A -> A) (l : list A) :
  (forall x, key (f x) = key x) ->
  StronglySorted key_le l -> StronglySorted key_le (map f l).
Proof.
  intros Hf. induction 1 as [|x l Hs IH Hall]; simpl; constructor.
  - exact IH.
  - rewrite Forall_forall in *. intros y Hy.
    apply list_elem_of_In, in_map_iff in Hy. destruct Hy as (z & <- & Hz).
    specialize (Hall z (proj2 (list_elem_of_In _ _) Hz)).
    revert Hall. unfold key_le. now rewrite !Hf.
Qed.

End SortedFacts.

Section AnalyzerFacts.
Context (py : PyLib).

Local Abbreviation _safe_unparse := (_safe_unparse py).
Local Abbreviation _get_annotation := (_get_annotation py).
Local Abbreviation _decorator_name := (_decorator_name py).
Local Abbreviation _analyze_control_flow := (_analyze_control_flow py).
Local Abbreviation control_flow_step := (control_flow_step py).
Local Abbreviation _analyze_data_flow := (_analyze_data_flow py).
Local Abbreviation data_flow_step := (data_flow_step py).
Local Abbreviation param_hints := (param_hints py).
Local Abbreviation _infer_edge_cases := (_infer_edge_cases py).
Local Abbreviation _analyze_function := (_analyze_function py).

(** [list(set(xs))] holds the elements of [xs], each once, whatever the
    iteration order of the process. *)
Lemma list_set_perm (l : list string) :
  list_set py l ≡ₚ elements (list_to_set l : gset string).
Proof. unfold list_set. apply iteration_perm. Qed.

Lemma list_set_nil : list_set py [] = [].
Proof.
  apply Permutation_nil. symmetry. rewrite list_set_perm.
  change (list_to_set [] : gset string) with (∅ : gset string).
  now rewrite elements_empty.
Qed.

Lemma NoDup_list_set (l : list string) : NoDup (list_set py l).
Proof. rewrite list_set_perm. apply NoDup_elements. Qed.

Lemma in_list_set (x : string) (l : list string) :
  In x (list_set py l) <-> In x l.
Proof.
  rewrite <- !list_elem_of_In, list_set_perm, elem_of_elements.
  apply elem_of_list_to_set.
Qed.

Lemma _decorator_name_eq (node : ast) :
  _decorator_name node
  = match node with
    | Name id => id
    | Attribute value attr => _decorator_name value +:+ "." +:+ attr
    | Call func args _ =>
        _decorator_name func +:+ "("
          +:+ String.concat ", " (map _safe_unparse args) +:+ ")"
    | _ => _safe_unparse node
    end.
Proof.
  unfold _decorator_name at 1. rewrite ast_fold_eq. now destruct node.
Qed.

(** C1.  The function [def f(x): return x if x > 0 else -x] has cyclomatic
    complexity 2 and its control-flow record has no raised and no caught
    exception; for every function, the cyclomatic complexity is one more
    than its number of decision points: conditionals, loops, exception
    handlers, with-blocks and assertions count one each, a boolean-operator
    chain counts its operands minus one, a match statement its arms. *)
Theorem C1_cyclomatic_decision_points :
  ComplexityMetrics.cyclomatic
    (FunctionInfo.complexity (_analyze_function scenario_A "m" None [])) = 2
  /\ ControlFlowInfo.exception_types_raised
       (_analyze_control_flow scenario_A) = []
  /\ ControlFlowInfo.exception_types_caught
       (_analyze_control_flow scenario_A) = []
  /\ forall node module_name class_name source_lines,
       ComplexityMetrics.cyclomatic
         (FunctionInfo.complexity
            (_analyze_function node module_name class_name source_lines))
       = 1 + decision_points node.
Proof.
  split; [reflexivity|]. split; [apply list_set_nil|].
  split; [apply list_set_nil|].
  intros. apply cyclomatic_decision_points.
Qed.

(** C5.  For every analyzed function the metrics satisfy cyclomatic >= 1,
    cognitive >= 0, nesting depth >= 0 and loc >= 1. *)
Theorem C5_metric_bounds (node : ast) (module_name : string)
    (class_name : option string) (source_lines : list string) :
  parser_output node ->
  let m := FunctionInfo.complexity
             (_analyze_function node module_name class_name source_lines) in
  1 <= ComplexityMetrics.cyclomatic m
  /\ 0 <= ComplexityMetrics.cognitive m
  /\ 0 <= ComplexityMetrics.nesting_depth m
  /\ 1 <= ComplexityMetrics.loc m.
Proof.
  intros Hwf. simpl. repeat split.
  - now apply cyclomatic_ge_1.
  - apply cognitive_nonneg; [exact Hwf | lia].
  - apply nesting_ge_current.
  - pose proof (parser_output_self _ Hwf) as Hn.
    destruct node; simpl in *; try lia;
      (destruct end_lineno as [e|]; simpl; [destruct (Z.eqb_spec e 0)|]; lia).
Qed.

(** ** Control-flow flags *)

Ltac break_match :=
  repeat match goal with
         | |- context [match ?x with _ => _ end] => destruct x; simpl
         end.

Lemma async_generator_stable (co : bool) (l : list ast) (st : cf_locals) :
  is_async_generator st = true ->
  is_async_generator (fold_left (control_flow_step co) l st) = true.
Proof.
  revert st. induction l as [|c l IH]; intros st Hst; simpl; [exact Hst|].
  apply IH. destruct c; simpl; break_match; first [exact Hst | reflexivity].
Qed.

Lemma yield_sets_async_generator (l : list ast) (v : option ast)
    (st : cf_locals) :
  In (Yield v) l ->
  is_async_generator (fold_left (control_flow_step true) l st) = true.
Proof.
  revert st. induction l as [|c l IH]; intros st; simpl; [tauto|].
  intros [->|Hin]; [|now apply IH].
  now apply async_generator_stable.
Qed.

Lemma no_yield_keeps_generator (co : bool) (l : list ast) (st : cf_locals) :
  (forall n, In n l -> is_yield n = false) ->
  is_generator (fold_left (control_flow_step co) l st) = is_generator st.
Proof.
  revert st. induction l as [|c l IH]; intros st Hno; simpl; [reflexivity|].
  rewrite IH by (intros n Hn; apply Hno; now right).
  specialize (Hno c (or_introl eq_refl)).
  destruct c; simpl in *; break_match; try reflexivity; discriminate.
Qed.

(** C7.  An asynchronous function that contains a [yield] is flagged as a
    coroutine and as an asynchronous generator; an asynchronous function
    without any yield is not flagged as a generator. *)
Theorem C7_async_generator_flags (node : ast) :
  is_AsyncFunctionDef node = true ->
  let cf := _analyze_control_flow node in
  ((exists v, In (Yield v) (subnodes node)) ->
   ControlFlowInfo.is_coroutine cf = true
   /\ ControlFlowInfo.is_async_generator cf = true)
  /\ ((forall n, In n (subnodes node) -> is_yield n = false) ->
      ControlFlowInfo.is_coroutine cf = true
      /\ ControlFlowInfo.is_generator cf = false).
Proof.
  intros Hasync. simpl. unfold _analyze_control_flow. simpl. rewrite Hasync.
  split.
  - intros [v Hv]. split; [reflexivity|].
    apply (yield_sets_async_generator _ v), in_walk_subnodes, Hv.
  - intros Hno. split; [reflexivity|].
    rewrite no_yield_keeps_generator; [reflexivity|].
    intros n Hn. apply Hno, in_walk_subnodes, Hn.
Qed.

(** ** Purity *)












Lemma assign_targets_calls (params : gset string) (targets : list ast)
    (st : df_locals) :
  calls (fold_left (assign_target_step params) targets st) = calls st.
Proof.
  revert st. induction targets as [|t ts IH]; intros st; simpl; [reflexivity|].
  rewrite IH. destruct t; try reflexivity; cbn [assign_target_step].
  - destruct t; try reflexivity. now destruct (String.eqb id "self").
  - destruct t1; try reflexivity. now case_bool_decide.
  - now case_bool_decide.
Qed.

Lemma method_steps_calls (params : gset string) (st : df_locals)
    (value : ast) (attr : string) :
  calls (method_read_step (method_mutation_step params st value attr) value)
  = calls st.
Proof.
  destruct value; try reflexivity.
  - cbn [method_mutation_step method_read_step].
    destruct value; try reflexivity. now destruct (String.eqb id "self").
  - cbn [method_mutation_step method_read_step]. now destruct (_ && _).
Qed.

(** A step never forgets a call, and a [Call] node records one. *)
Lemma data_flow_step_calls (params : gset string) (st : df_locals)
    (child : ast) :
  exists more,
    calls (data_flow_step params st child) = calls st ++ more
    /\ (is_call child = true -> more <> []).
Proof.
  destruct child;
    try (exists []; split; [now rewrite app_nil_r | discriminate]);
    cbn [data_flow_step].
  - (* Assign *)
    exists []. rewrite assign_targets_calls, app_nil_r. now split.
  - (* AugAssign *)
    exists []. rewrite app_nil_r. split; [|discriminate].
    destruct child1; try reflexivity; cbn [aug_assign_step].
    + destruct child1; try reflexivity. now destruct (String.eqb id "self").
    + now case_bool_decide.
  - (* Call *)
    exists [_safe_unparse child]. split; [|discriminate].
    destruct child; try reflexivity.
    now rewrite method_steps_calls.
  - (* Attribute *)
    exists []. rewrite app_nil_r. split; [|discriminate].
    destruct child; try reflexivity. now destruct (String.eqb id "self").
Qed.

Lemma calls_grow (params : gset string) (l : list ast) (st : df_locals) :
  calls st <> [] -> calls (fold_left (data_flow_step params) l st) <> [].
Proof.
  revert st. induction l as [|c l IH]; intros st Hst; simpl; [exact Hst|].
  apply IH. destruct (data_flow_step_calls params st c) as (more & -> & _).
  now destruct (calls st).
Qed.

Lemma call_recorded (params : gset string) (l : list ast) (st : df_locals)
    (f : ast) (a k : list ast) :
  In (Call f a k) l -> calls (fold_left (data_flow_step params) l st) <> [].
Proof.
  revert st. induction l as [|c l IH]; intros st; simpl; [tauto|].
  intros [->|Hin]; [|now apply IH].
  apply calls_grow.
  destruct (data_flow_step_calls params st (Call f a k)) as (more & -> & Hm).
  specialize (Hm eq_refl). now destruct (calls st), more.
Qed.










(** ** Edge-case hints *)

Lemma param_hints_named (x : ast) :
  arg_arg x <> "self" -> arg_arg x <> "cls" ->
  hinted (param_hints x) (arg_arg x) "none_input"
  /\ hinted (param_hints x) (arg_arg x) "empty_input"
  /\ hinted (param_hints x) (arg_arg x) "type_mismatch".
Proof.
  intros Hs Hc. unfold param_hints.
  apply String.eqb_neq in Hs. apply String.eqb_neq in Hc.
  rewrite Hs, Hc. simpl. unfold hinted. split; [|split].
  - eexists. split; [left; reflexivity|]. now split.
  - eexists. split; [right; left; reflexivity|]. now split.
  - exists (EdgeCaseHint.mk (Some (arg_arg x)) "type_mismatch"
              ("Pass wrong type for '" +:+ arg_arg x +:+ "'")).
    split; [|now split].
    right. right. apply in_or_app. right. now left.
Qed.

Lemma param_hints_about (x : ast) (h : EdgeCaseHint.t) :
  In h (param_hints x) ->
  EdgeCaseHint.parameter h = Some (arg_arg x)
  /\ arg_arg x <> "self" /\ arg_arg x <> "cls"
  /\ is_exception_path h = false.
Proof.
  unfold param_hints.
  destruct (String.eqb_spec (arg_arg x) "self") as [|Hs]; [intros []|].
  destruct (String.eqb_spec (arg_arg x) "cls") as [|Hc]; [intros []|].
  simpl. intros H.
  repeat (destruct H as [<-|H]; [now repeat split|]).
  apply in_app_or in H. destruct H as [H|H].
  - destruct (_get_annotation (arg_annotation x)) as [[|c ann]|];
      try destruct H.
    repeat (apply in_app_or in H; destruct H as [H|H]);
      match type of H with
      | In _ (if ?b then _ else _) => destruct b
      end; simpl in H; try tauto; destruct H as [<-|[]]; now repeat split.
  - destruct H as [<-|[]]. now repeat split.
Qed.

Lemma filter_exception_params (l : list ast) :
  List.filter is_exception_path (flat_map param_hints l) = [].
Proof.
  induction l as [|x l IH]; simpl; [reflexivity|].
  rewrite List.filter_app, IH, app_nil_r.
  assert (H : forall h, In h (param_hints x) -> is_exception_path h = false)
    by (intros h Hh; now apply param_hints_about in Hh).
  induction (param_hints x) as [|h hs IHh]; simpl; [reflexivity|].
  rewrite (H h (or_introl eq_refl)). apply IHh. intros h' Hh'. apply H. now right.
Qed.

Lemma filter_exception_all {A} (f : A -> EdgeCaseHint.t) (l : list A) :
  (forall x, is_exception_path (f x) = true) ->
  List.filter is_exception_path (map f l) = map f l.
Proof.
  intros Hf. induction l as [|x l IH]; simpl; [reflexivity|].
  now rewrite Hf, IH.
Qed.


(** C8, as amended.  Every positional-only, positional-or-keyword and
    keyword-only parameter whose name is not [self] or [cls] gets a
    none-input, an empty-input and a type-mismatch hint whatever its
    annotation; hints about parameters are emitted for those parameters
    only (the [*args] and [**kwargs] parameters get none); and the
    exception-path hints are one "raise path" hint per distinct raised
    exception name followed by one "handling path" hint per distinct caught
    exception name. *)
Theorem C8_edge_case_hints (node : ast) (module_name : string)
    (class_name : option string) (source_lines : list string) :
  let fi := _analyze_function node module_name class_name source_lines in
  let a := node_args node in
  let hinted_args :=
    (args_args a ++ args_kwonlyargs a ++ args_posonlyargs a)%list in
  let cf := FunctionInfo.control_flow fi in
  (forall x, In x hinted_args ->
     arg_arg x <> "self" -> arg_arg x <> "cls" ->
     hinted (FunctionInfo.edge_cases fi) (arg_arg x) "none_input"
     /\ hinted (FunctionInfo.edge_cases fi) (arg_arg x) "empty_input"
     /\ hinted (FunctionInfo.edge_cases fi) (arg_arg x) "type_mismatch")
  /\ (forall h p, In h (FunctionInfo.edge_cases fi) ->
        EdgeCaseHint.parameter h = Some p ->
        p <> "self" /\ p <> "cls" /\ In p (map arg_arg hinted_args))
  /\ List.filter is_exception_path (FunctionInfo.edge_cases fi)
     = map raise_hint (ControlFlowInfo.exception_types_raised cf)
       ++ map caught_hint (ControlFlowInfo.exception_types_caught cf)
  /\ NoDup (ControlFlowInfo.exception_types_raised cf)
  /\ NoDup (ControlFlowInfo.exception_types_caught cf).
Proof.
  simpl. unfold _infer_edge_cases.
  set (hinted_args := (args_args _ ++ args_kwonlyargs _ ++ args_posonlyargs _)%list).
  set (cf := _analyze_control_flow node).
  split; [|split; [|split; [|split]]].
  - intros x Hx Hs Hc.
    destruct (param_hints_named x Hs Hc) as ((h1 & I1 & E1) & (h2 & I2 & E2) & (h3 & I3 & E3)).
    assert (Hsub : forall h, In h (param_hints x) ->
              In h (flat_map param_hints hinted_args
                      ++ map raise_hint (ControlFlowInfo.exception_types_raised cf)
                      ++ map caught_hint (ControlFlowInfo.exception_types_caught cf))).
    { intros h Hh. apply in_or_app. left. apply in_flat_map. now exists x. }
    split; [|split].
    + exists h1. split; [now apply Hsub | exact E1].
    + exists h2. split; [now apply Hsub | exact E2].
    + exists h3. split; [now apply Hsub | exact E3].
  - intros h p Hh Hp.
    apply in_app_or in Hh. destruct Hh as [Hh|Hh].
    + apply in_flat_map in Hh. destruct Hh as (x & Hx & Hh).
      apply param_hints_about in Hh. destruct Hh as (E & Hs & Hc & _).
      rewrite E in Hp. injection Hp as <-.
      repeat split; try assumption. apply in_map_iff. now exists x.
    + apply in_app_or in Hh.
      destruct Hh as [Hh|Hh]; apply in_map_iff in Hh;
        destruct Hh as (e & <- & _); discriminate.
  - rewrite !List.filter_app, filter_exception_params.
    now rewrite !filter_exception_all.
  - apply NoDup_list_set.
  - apply NoDup_list_set.
Qed.

End AnalyzerFacts.

(** ** Test-generation hints *)

Lemma Z_leb_total (a b : Z) : Z.leb a b = true \/ Z.leb b a = true.
Proof. destruct (Z.leb_spec a b); [now left | right; apply Z.leb_le; lia]. Qed.

Lemma Z_leb_trans (a b c : Z) :
  Z.leb a b = true -> Z.leb b c = true -> Z.leb a c = true.
Proof. rewrite !Z.leb_le. lia. Qed.

Lemma in_module_funcs (tested : gset string) (mod_ : ModuleInfo.t)
    (x : string * Z * bool) :
  In x (module_funcs tested mod_) ->
  (exists func, In func (ModuleInfo.functions mod_)
     /\ x = (FunctionInfo.qualified_name func, cyclomatic_of func,
             bool_decide (str_path_stem (ModuleInfo.path mod_) ∈ tested)))
  \/ method_of mod_ x.
Proof.
  unfold module_funcs. intros [H|H]%in_app_or.
  - left. apply in_map_iff in H. destruct H as (func & <- & Hf). now exists func.
  - right. apply in_flat_map in H. destruct H as (cls & Hc & H).
    apply in_map_iff in H. destruct H as (func & <- & Hf). now exists cls, func.
Qed.

Lemma method_in_module_funcs (tested : gset string) (mod_ : ModuleInfo.t)
    (cls : ClassInfo.t) (func : FunctionInfo.t) :
  In cls (ModuleInfo.classes mod_) -> In func (class_methods cls) ->
  In (untested_triple func) (module_funcs tested mod_).
Proof.
  intros Hc Hf. unfold module_funcs. apply in_or_app. right.
  apply in_flat_map. exists cls. split; [exact Hc|].
  apply in_map_iff. now exists func.
Qed.

Section HintFacts.
Context (py : PyLib).

Local Abbreviation _generate_test_hints := (_generate_test_hints py).

Lemma high_priority_in (l : list (string * Z * bool)) (x : string * Z * bool) :
  In x (high_priority_of l) -> In x l /\ x.2 = false.
Proof.
  unfold high_priority_of. intros H.
  apply list_elem_of_In, elem_of_take in H. destruct H as (i & H & _).
  apply list_elem_of_lookup_2, list_elem_of_In in H.
  eapply Permutation_in in H; [|apply sorted_by_perm].
  apply filter_In in H. destruct H as [H Hx]. split; [exact H|].
  now apply negb_true_iff.
Qed.

(** C9, as amended.  The high-priority target list is made of the first 20
    candidates in order of non-increasing cyclomatic complexity, where the
    candidates are the top-level functions of the modules without an
    associated test file together with every class method: it holds 20
    candidates, or all of them when there are fewer, and no candidate that
    is left out is more complex than one that is listed.  In particular a
    candidate of complexity 10 is ranked strictly before a candidate of
    complexity 2, and two untested functions of complexity 10 and 2 are
    listed in that order. *)
Theorem C9_high_priority (modules : list ModuleInfo.t)
    (test_files : list string) :
  let candidates :=
    List.filter (fun x : string * Z * bool => negb x.2)
                (all_funcs_of modules test_files) in
  let hp := high_priority_of (all_funcs_of modules test_files) in
  TestGenerationHints.high_priority_targets
    (_generate_test_hints modules test_files) = map target_of hp
  /\ (forall x, In x hp ->
        exists mod_, In mod_ modules
          /\ ((function_of mod_ x /\ ~ has_test_file test_files mod_)
              \/ method_of mod_ x))
  /\ (length hp <= 20)%nat
  /\ length hp = Nat.min 20 (length candidates)
  /\ (exists rest,
        hp ++ rest ≡ₚ candidates
        /\ forall x y, In x hp -> In y rest -> y.1.2 <= x.1.2)
  /\ ((length candidates <= 20)%nat -> hp ≡ₚ candidates)
  /\ (forall i j x y, hp !! i = Some x -> hp !! j = Some y ->
        (i < j)%nat -> y.1.2 <= x.1.2)
  /\ (forall i j x y, hp !! i = Some x -> hp !! j = Some y ->
        y.1.2 < x.1.2 -> (i < j)%nat)
  /\ (forall f g : string,
        high_priority_of [(f, 10, false); (g, 2, false)]
        = [(f, 10, false); (g, 2, false)]
        /\ high_priority_of [(g, 2, false); (f, 10, false)]
           = [(f, 10, false); (g, 2, false)]).
Proof.
  simpl.
  set (all := all_funcs_of modules test_files).
  assert (Hsorted : StronglySorted (key_le Z.leb (fun x : string * Z * bool => - x.1.2))
                      (high_priority_of all)).
  { unfold high_priority_of. apply StronglySorted_take, sorted_by_sorted.
    - intros; apply Z_leb_total.
    - intros a b c; apply Z_leb_trans. }
  assert (Hmono : forall i j x y,
             high_priority_of all !! i = Some x ->
             high_priority_of all !! j = Some y ->
             (i < j)%nat -> y.1.2 <= x.1.2).
  { intros i j x y Hi Hj Hlt.
    pose proof (StronglySorted_lookup _ _ _ _ _ _ Hsorted Hi Hj Hlt) as H.
    unfold key_le in H. apply Z.leb_le in H. lia. }
  split; [reflexivity|].
  split; [|split; [|split; [|split; [|split; [|split; [|split]]]]]].
  - intros x Hx. apply high_priority_in in Hx. destruct Hx as [Hx Hfalse].
    unfold all, all_funcs_of in Hx. apply in_flat_map in Hx.
    destruct Hx as (mod_ & Hmod & Hx). exists mod_. split; [exact Hmod|].
    apply in_module_funcs in Hx. destruct Hx as [(func & Hf & ->)|Hm].
    + left. simpl in Hfalse. split.
      * exists func. split; [exact Hf|].
        unfold untested_triple. now rewrite Hfalse.
      * now apply bool_decide_eq_false in Hfalse.
    + now right.
  - unfold high_priority_of. rewrite length_take. lia.
  - unfold high_priority_of.
    now rewrite length_take, (Permutation_length (sorted_by_perm _ _ _)).
  - unfold high_priority_of.
    set (s := sorted_by Z.leb (fun x : string * Z * bool => - x.1.2)
                (List.filter (fun x : string * Z * bool => negb x.2) all)).
    assert (Hs : StronglySorted
                   (key_le Z.leb (fun x : string * Z * bool => - x.1.2)) s).
    { apply sorted_by_sorted.
      - intros; apply Z_leb_total.
      - intros a b c; apply Z_leb_trans. }
    exists (drop 20 s). split.
    + rewrite take_drop. apply sorted_by_perm.
    + intros x y Hx Hy.
      apply list_elem_of_In, elem_of_take in Hx. destruct Hx as (i & Hi & Hlt).
      apply list_elem_of_In, list_elem_of_lookup in Hy. destruct Hy as (j & Hj).
      rewrite lookup_drop in Hj.
      assert (Hij : (i < 20 + j)%nat) by lia.
      pose proof (StronglySorted_lookup _ _ _ _ _ _ Hs Hi Hj Hij) as H.
      unfold key_le in H. apply Z.leb_le in H. lia.
  - intros Hlen. unfold high_priority_of.
    rewrite take_ge.
    + apply sorted_by_perm.
    + rewrite (Permutation_length (sorted_by_perm _ _ _)). exact Hlen.
  - exact Hmono.
  - intros i j x y Hi Hj Hlt.
    destruct (Nat.lt_trichotomy i j) as [H|[->|H]]; [exact H| |].
    + rewrite Hi in Hj. injection Hj as ->. lia.
    + pose proof (Hmono _ _ _ _ Hj Hi H). lia.
  - intros f g. split; reflexivity.
Qed.

(** C10.  Every class method is recorded with has-test false, whatever the
    test files are, while a top-level function is recorded with the
    test-file association of its module; so every class method is a
    candidate for the high-priority list, and is listed in it whenever there
    are no more than 20 candidates, even when its module has a matching test
    file. *)
Theorem C10_methods_always_eligible (modules : list ModuleInfo.t)
    (test_files : list string) (mod_ : ModuleInfo.t) (cls : ClassInfo.t)
    (func : FunctionInfo.t) :
  In mod_ modules -> In cls (ModuleInfo.classes mod_) ->
  In func (class_methods cls) ->
  let all_funcs := all_funcs_of modules test_files in
  let candidates :=
    List.filter (fun x : string * Z * bool => negb x.2) all_funcs in
  In (FunctionInfo.qualified_name func, cyclomatic_of func, false) all_funcs
  /\ In (FunctionInfo.qualified_name func, cyclomatic_of func, false)
        candidates
  /\ ((length candidates <= 20)%nat ->
      In (target_of (untested_triple func))
         (TestGenerationHints.high_priority_targets
            (_generate_test_hints modules test_files)))
  /\ (forall f, In f (ModuleInfo.functions mod_) ->
        In (FunctionInfo.qualified_name f, cyclomatic_of f,
            bool_decide (str_path_stem (ModuleInfo.path mod_)
                           ∈ tested_modules_of test_files))
           all_funcs).
Proof.
  intros Hmod Hcls Hfunc. simpl.
  assert (Hall : In (untested_triple func) (all_funcs_of modules test_files)).
  { unfold all_funcs_of. apply in_flat_map. exists mod_. split; [exact Hmod|].
    eapply method_in_module_funcs; eassumption. }
  assert (Hcand : In (untested_triple func)
                     (List.filter (fun x : string * Z * bool => negb x.2)
                        (all_funcs_of modules test_files))).
  { apply filter_In. now split. }
  split; [exact Hall|]. split; [exact Hcand|]. split.
  - intros Hlen. apply in_map. unfold high_priority_of.
    rewrite take_ge.
    + eapply Permutation_in; [symmetry; apply sorted_by_perm | exact Hcand].
    + rewrite (Permutation_length (sorted_by_perm _ _ _)). exact Hlen.
  - intros f Hf. unfold all_funcs_of. apply in_flat_map.
    exists mod_. split; [exact Hmod|].
    unfold module_funcs. apply in_or_app. left.
    apply in_map_iff. now exists f.
Qed.

End HintFacts.

(** ** Rebuilding a record from [asdict] gives the record back *)

Lemma as_list_map {A} (f : pyvalue -> option A) (g : A -> pyvalue)
    (l : list A) :
  (forall x, f (g x) = Some x) -> as_list f (PList (map g l)) = Some l.
Proof. intros H. simpl. now apply mapM_fmap_Some. Qed.

Lemma as_strs_of_strs (l : list string) : as_list as_str (of_strs l) = Some l.
Proof. now apply as_list_map. Qed.

Lemma as_opt_str_of (o : option string) : as_opt_str (of_opt_str o) = Some o.
Proof. now destruct o. Qed.

Lemma ParameterInfo_of_asdict (x : ParameterInfo.t) :
  ParameterInfo_of (asdict_ParameterInfo x) = Some x.
Proof. destruct x as [n a d k]. cbn. rewrite !as_opt_str_of. reflexivity. Qed.

Lemma DocstringInfo_of_asdict (x : DocstringInfo.t) :
  DocstringInfo_of (asdict_DocstringInfo x) = Some x.
Proof.
  destruct x as [r s pd rd re ex]. cbn.
  rewrite !as_opt_str_of. cbn.
  assert (Hpd : mapM (fun kv : string * pyvalue => pair kv.1 <$> as_str kv.2)
                  (map (fun kv : string * string => (kv.1, PStr kv.2)) pd)
                = Some pd).
  { apply mapM_fmap_Some. now intros [k v]. }
  rewrite Hpd. cbn.
  change (mapM as_str (map PStr re)) with (as_list as_str (of_strs re)).
  change (mapM as_str (map PStr ex)) with (as_list as_str (of_strs ex)).
  rewrite !as_strs_of_strs. reflexivity.
Qed.

Lemma ComplexityMetrics_of_asdict (x : ComplexityMetrics.t) :
  ComplexityMetrics_of (asdict_ComplexityMetrics x) = Some x.
Proof. now destruct x. Qed.

Ltac fold_strs :=
  repeat match goal with
         | |- context [mapM as_str (map PStr ?l)] =>
             change (mapM as_str (map PStr l)) with (as_list as_str (of_strs l));
             rewrite as_strs_of_strs; cbn
         end.

Lemma ControlFlowInfo_of_asdict (x : ControlFlowInfo.t) :
  ControlFlowInfo_of (asdict_ControlFlowInfo x) = Some x.
Proof. destruct x. cbn. fold_strs. reflexivity. Qed.

Lemma DataFlowInfo_of_asdict (x : DataFlowInfo.t) :
  DataFlowInfo_of (asdict_DataFlowInfo x) = Some x.
Proof. destruct x. cbn. fold_strs. reflexivity. Qed.

Lemma EdgeCaseHint_of_asdict (x : EdgeCaseHint.t) :
  EdgeCaseHint_of (asdict_EdgeCaseHint x) = Some x.
Proof. destruct x as [p c d]. cbn. rewrite as_opt_str_of. reflexivity. Qed.

Lemma Attr_of_asdict (x : Attr.t) : Attr_of (asdict_Attr x) = Some x.
Proof. destruct x as [n t v]. cbn. rewrite !as_opt_str_of. reflexivity. Qed.

Lemma ImportInfo_of_asdict (x : ImportInfo.t) :
  ImportInfo_of (asdict_ImportInfo x) = Some x.
Proof. destruct x as [n a c i l]. cbn. rewrite as_opt_str_of. reflexivity. Qed.

Lemma ModuleVariable_of_asdict (x : ModuleVariable.t) :
  ModuleVariable_of (asdict_ModuleVariable x) = Some x.
Proof. destruct x as [n t v c l]. cbn. rewrite !as_opt_str_of. reflexivity. Qed.

Lemma FunctionInfo_of_asdict (x : FunctionInfo.t) :
  _func_info_from_dict (asdict_FunctionInfo x) = Some x.
Proof.
  destruct x. unfold _func_info_from_dict, asdict_FunctionInfo, dict_or, dget_or.
  cbn [dget assoc String.eqb Ascii.eqb Bool.eqb mbind option_bind as_str as_int
       as_bool FunctionInfo.qualified_name FunctionInfo.name
       FunctionInfo.source FunctionInfo.start_line FunctionInfo.end_line
       FunctionInfo.parameters FunctionInfo.return_annotation
       FunctionInfo.return_types_inferred FunctionInfo.docstring
       FunctionInfo.decorators FunctionInfo.complexity
       FunctionInfo.control_flow FunctionInfo.data_flow
       FunctionInfo.edge_cases FunctionInfo.is_method
       FunctionInfo.is_staticmethod FunctionInfo.is_classmethod
       FunctionInfo.is_property FunctionInfo.is_abstractmethod
       FunctionInfo.nested_functions].
  rewrite (as_list_map _ _ _ ParameterInfo_of_asdict).
  rewrite as_opt_str_of, !as_strs_of_strs.
  rewrite DocstringInfo_of_asdict, ComplexityMetrics_of_asdict,
    ControlFlowInfo_of_asdict, DataFlowInfo_of_asdict.
  rewrite (as_list_map _ _ _ EdgeCaseHint_of_asdict).
  reflexivity.
Qed.

Lemma as_methods_asdict (l : list (string * list FunctionInfo.t)) :
  as_methods
    (PDict (map (fun kv : string * list FunctionInfo.t =>
                   (kv.1, PList (map asdict_FunctionInfo kv.2))) l))
  = Some l.
Proof.
  unfold as_methods. apply mapM_fmap_Some. intros [k fs].
  cbn [fst snd].
  now rewrite (as_list_map _ _ _ FunctionInfo_of_asdict).
Qed.

Lemma ClassInfo_of_asdict (x : ClassInfo.t) :
  _class_info_from_dict (asdict_ClassInfo x) = Some x.
Proof.
  destruct x. unfold _class_info_from_dict, asdict_ClassInfo, dget_or.
  cbn [dget assoc String.eqb Ascii.eqb Bool.eqb mbind option_bind as_str as_int
       as_bool ClassInfo.qualified_name ClassInfo.name ClassInfo.source
       ClassInfo.start_line ClassInfo.end_line ClassInfo.base_classes
       ClassInfo.docstring ClassInfo.init_parameters
       ClassInfo.instance_attributes ClassInfo.class_attributes
       ClassInfo.methods ClassInfo.abstract_methods ClassInfo.decorators
       ClassInfo.is_dataclass ClassInfo.is_pydantic_model].
  rewrite as_methods_asdict.
  rewrite (as_list_map _ _ _ ParameterInfo_of_asdict).
  rewrite !(as_list_map _ _ _ Attr_of_asdict).
  rewrite as_opt_str_of, !as_strs_of_strs.
  reflexivity.
Qed.

Lemma ModuleInfo_of_asdict (x : ModuleInfo.t) :
  _module_info_from_dict (asdict_ModuleInfo x) = Some x.
Proof.
  destruct x as [path import_name docstring imports vars functions classes
                   all_exports has_main errors].
  unfold _module_info_from_dict, asdict_ModuleInfo, dget_or.
  cbn [dget assoc String.eqb Ascii.eqb Bool.eqb mbind option_bind as_str as_int
       as_bool ModuleInfo.path ModuleInfo.import_name ModuleInfo.docstring
       ModuleInfo.imports ModuleInfo.module_variables ModuleInfo.functions
       ModuleInfo.classes ModuleInfo.all_exports ModuleInfo.has_main_block
       ModuleInfo.errors].
  rewrite as_opt_str_of.
  rewrite (as_list_map _ _ _ ImportInfo_of_asdict).
  rewrite (as_list_map _ _ _ ModuleVariable_of_asdict).
  rewrite (as_list_map _ _ _ FunctionInfo_of_asdict).
  rewrite (as_list_map _ _ _ ClassInfo_of_asdict).
  rewrite as_strs_of_strs.
  destruct all_exports as [l|]; cbn [as_opt_strs of_strs].
  - change (PList (map PStr l)) with (of_strs l).
    unfold as_opt_strs. cbn [of_strs]. 
    change (as_list as_str (PList (map PStr l))) with (as_list as_str (of_strs l)).
    rewrite as_strs_of_strs. reflexivity.
  - reflexivity.
Qed.

(** ** Import classification *)

Lemma string_leb_trans (s1 s2 s3 : string) :
  String.leb s1 s2 = true -> String.leb s2 s3 = true ->
  String.leb s1 s3 = true.
Proof.
  unfold String.leb. revert s2 s3.
  induction s1 as [|c1 s1 IH]; intros [|c2 s2] [|c3 s3]; simpl; try congruence.
  unfold Ascii.compare.
  destruct (N.compare_spec (N_of_ascii c1) (N_of_ascii c2)) as [E12|L12|G12];
    destruct (N.compare_spec (N_of_ascii c2) (N_of_ascii c3)) as [E23|L23|G23];
    destruct (N.compare_spec (N_of_ascii c1) (N_of_ascii c3)) as [E13|L13|G13];
    try congruence; try lia.
  apply IH.
Qed.

Section ImportFacts.
Context (w : World).






Lemma parent_length (current : Path) :
  length (parent current) = Nat.pred (length current).
Proof.
  unfold parent. induction current as [|x [|y l] IH]; simpl in *; auto.
Qed.

(** The counter of [probe_up] is never exhausted before the loop ends. *)
Lemma probe_up_enough (top : string) (repo_root : Path) (turns : nat)
    (current : Path) :
  (length current <= turns)%nat ->
  probe_up w top repo_root turns current
  = probe_up w top repo_root (length current) current.
Proof.
  revert current. induction turns as [|turns IH]; intros current Hle.
  - now destruct current.
  - destruct current as [|x l].
    + cbn [probe_up length].
      rewrite orb_true_intro; [reflexivity|].
      right. now apply bool_decide_eq_true_2.
    + cbn [probe_up length].
      destruct (_ || _); [reflexivity|].
      destruct (found_under w (x :: l) top); [reflexivity|].
      rewrite IH by (rewrite parent_length; simpl in *; lia).
      now rewrite parent_length.
Qed.








End ImportFacts.

(** ** The module analyzer and the orchestrator *)

Lemma relative_to_app (repo_root rel : Path) :
  relative_to (repo_root ++ rel) repo_root = Some rel.
Proof.
  induction repo_root as [|r root IH]; simpl; [now destruct rel|].
  now rewrite String.eqb_refl.
Qed.


Section ModuleAnalyzerFacts.
Context (py : PyLib) (w : World).

Local Abbreviation _analyze_module := (_analyze_module py w).










End ModuleAnalyzerFacts.



Section RepositoryFacts.
Context (py : PyLib) (w : World).















(** *** The enrichment loop *)

Lemma notes_are_notes (source : string) (notes : list string) :
  notes_of w source = Returned notes ->
  Forall (fun entry => is_note entry = true) notes.
Proof.
  unfold notes_of. destruct (todo_comments w source) as [todos|e];
    [|discriminate].
  intros [= <-]. apply Forall_app. split.
  - destruct (nonempty _); repeat constructor.
  - apply Forall_forall. intros entry Hin.
    apply list_elem_of_In, in_map_iff in Hin. now destruct Hin as (todo & <- & _).
Qed.

Lemma with_notes_nil (m : ModuleInfo.t) : with_notes m [] = m.
Proof. unfold with_notes. rewrite app_nil_r. now destruct m. Qed.

(** The enrichment pass leaves a module entry as it is, except that it may
    append notes to the error list. *)
Lemma enrich_noted (repo_root : Path) (m m' : ModuleInfo.t) :
  enrich w repo_root m = Returned m' -> noted m m'.
Proof.
  unfold enrich, noted.
  destruct (negb (path_exists w _)).
  - intros [= <-]. exists []. split; [constructor|].
    now rewrite with_notes_nil.
  - destruct (read_text w _) as [source|e].
    + destruct (notes_of w source) as [notes|e] eqn:E; [|discriminate].
      intros [= <-]. exists notes. split; [|reflexivity].
      now apply (notes_are_notes source).
    + intros [= <-]. exists []. split; [constructor|].
      now rewrite with_notes_nil.
Qed.


Lemma each_noted (repo_root : Path) (ms ms' : list ModuleInfo.t) :
  each (enrich w repo_root) ms = Returned ms' -> Forall2 noted ms ms'.
Proof.
  revert ms'. induction ms as [|m ms IH]; intros ms'; cbn [each].
  - intros [= <-]. constructor.
  - destruct (enrich w repo_root m) as [m1|e] eqn:E; [|discriminate].
    destruct (each (enrich w repo_root) ms) as [ms1|e]; [|discriminate].
    intros [= <-]. constructor; [now apply (enrich_noted repo_root) | now apply IH].
Qed.




(** *** The report *)







End RepositoryFacts.

(** * Worked inputs *)

Abbreviation analyze_fn := (_analyze_function lib).

Lemma scenario_A_parser_output : parser_output scenario_A.
Proof.
  unfold parser_output.
  repeat (apply Forall_cons; split; [simpl; first [exact I | lia]|]).
  apply Forall_nil_2.
Qed.

(** The metric bounds at [def f(x): return x if x > 0 else -x]. *)
Lemma C5_metric_bounds_witness :
  parser_output scenario_A
  /\ let m := FunctionInfo.complexity (analyze_fn scenario_A "m" None []) in
     1 <= ComplexityMetrics.cyclomatic m
     /\ 0 <= ComplexityMetrics.cognitive m
     /\ 0 <= ComplexityMetrics.nesting_depth m
     /\ 1 <= ComplexityMetrics.loc m.
Proof.
  split; [exact scenario_A_parser_output|].
  apply (C5_metric_bounds lib scenario_A "m" None []
           scenario_A_parser_output).
Defined.


(** The flags of [async def agen(): yield 1]. *)
Lemma C7_async_generator_flags_witness :
  is_AsyncFunctionDef scenario_C_yield = true
  /\ ControlFlowInfo.is_coroutine
       (_analyze_control_flow lib scenario_C_yield) = true
  /\ ControlFlowInfo.is_async_generator
       (_analyze_control_flow lib scenario_C_yield) = true.
Proof.
  split; [reflexivity|].
  apply (C7_async_generator_flags lib scenario_C_yield eq_refl).
  exists (Some (Constant (CInt 1))). vm_compute. tauto.
Defined.

(** [def scale(x: int, *, by): raise ValueError(x)] gets the three
    unconditional hints for [x]. *)
Lemma C8_edge_case_hints_witness :
  In (arg "x" (Some (Name "int")))
     (args_args (node_args raising_fn) ++ args_kwonlyargs (node_args raising_fn)
        ++ args_posonlyargs (node_args raising_fn))
  /\ hinted (FunctionInfo.edge_cases (analyze_fn raising_fn "m" None []))
       "x" "none_input"
  /\ hinted (FunctionInfo.edge_cases (analyze_fn raising_fn "m" None []))
       "x" "empty_input"
  /\ hinted (FunctionInfo.edge_cases (analyze_fn raising_fn "m" None []))
       "x" "type_mismatch".
Proof.
  split; [now left|].
  destruct (C8_edge_case_hints lib raising_fn "m" None []) as [H _].
  apply (H (arg "x" (Some (Name "int")))); [now left | discriminate | discriminate].
Defined.

(** C8 as stated fails: the variadic parameter [items] of [variadic_fn] is
    a declared parameter of the function, and no hint is emitted for it. *)
Lemma C8_counterexample :
  ~ every_parameter_hinted (analyze_fn variadic_fn "m" None []).
Proof.
  intros H.
  destruct (H (ParameterInfo.mk "items" None None "VAR_POSITIONAL"))
    as [(h & Hin & _) _]; [now left | discriminate | discriminate |].
  vm_compute in Hin. exact Hin.
Qed.

(** ** The high-priority list *)

Lemma shapes_high_priority :
  high_priority_of (all_funcs_of [shapes_module] shapes_tests)
  = [("pkg.shapes.Shape.area", 3, false)].
Proof. vm_compute. reflexivity. Qed.

Lemma shapes_has_test_file : has_test_file shapes_tests shapes_module.
Proof.
  unfold has_test_file. apply (bool_decide_unpack _). vm_compute. exact I.
Qed.

(** C9 as stated fails: [pkg/shapes.py] has the test file
    [tests/test_shapes.py], and its method [Shape.area] is in the
    high-priority list all the same. *)
Lemma C9_counterexample : ~ only_untested_modules [shapes_module] shapes_tests.
Proof.
  intros H.
  destruct (H ("pkg.shapes.Shape.area", 3, false)) as (mod_ & Hin & _ & Hno).
  - rewrite shapes_high_priority. now left.
  - destruct Hin as [<-|[]]. apply Hno, shapes_has_test_file.
Qed.

(** The ranking at the high-priority list of [pkg/shapes.py] without its
    test file: the method of complexity 3 is listed before the function of
    complexity 1. *)
Lemma C9_high_priority_witness :
  high_priority_of (all_funcs_of [shapes_module] [])
    !! 0%nat = Some ("pkg.shapes.Shape.area", 3, false)
  /\ high_priority_of (all_funcs_of [shapes_module] [])
       !! 1%nat = Some ("pkg.shapes.one", 1, false)
  /\ (0 < 1)%nat.
Proof.
  assert (H0 : high_priority_of (all_funcs_of [shapes_module] []) !! 0%nat
               = Some ("pkg.shapes.Shape.area", 3, false))
    by (vm_compute; reflexivity).
  assert (H1 : high_priority_of (all_funcs_of [shapes_module] []) !! 1%nat
               = Some ("pkg.shapes.one", 1, false))
    by (vm_compute; reflexivity).
  split; [exact H0|]. split; [exact H1|].
  destruct (C9_high_priority lib [shapes_module] [])
    as (_ & _ & _ & _ & _ & _ & _ & Hrank & _).
  apply (Hrank _ _ _ _ H0 H1). simpl. lia.
Defined.

(** The method [Shape.area] of the tested module [pkg/shapes.py] is
    recorded as untested and listed as a high-priority target. *)
Lemma C10_methods_always_eligible_witness :
  has_test_file shapes_tests shapes_module
  /\ In (target_of ("pkg.shapes.Shape.area", 3, false))
        (TestGenerationHints.high_priority_targets
           (_generate_test_hints lib [shapes_module] shapes_tests)).
Proof.
  split; [exact shapes_has_test_file|].
  assert (Hcls : In (_analyze_class lib shape_class "pkg.shapes" [])
                    (ModuleInfo.classes shapes_module)) by now left.
  assert (Hfunc : In (_analyze_function lib
                        (FunctionDef "area"
                           (arguments []
                              [arg "self" None; arg "w" None; arg "h" None]
                              None [] [] None [])
                           [If (BoolOp [Name "w"; Name "h"])
                               [Return (Some (Other [Name "w"; Name "h"]))] [];
                            Return (Some (Constant (CInt 0)))]
                           [] None 2 (Some 5))
                        "pkg.shapes" (Some "Shape") [])
                     (class_methods
                        (_analyze_class lib shape_class "pkg.shapes" [])))
    by (vm_compute; now left).
  destruct (C10_methods_always_eligible lib [shapes_module] shapes_tests
              shapes_module _ _ (or_introl eq_refl) Hcls Hfunc)
    as (_ & _ & Hlisted & _).
  apply Hlisted. vm_compute. lia.
Defined.

(** ** Import classification in the small file system *)







(** ** Reports of the small repositories *)










(** The file [bad.py] of [repo3] is rejected by the parser with a syntax
    error, which the Module Analyzer contains; the tokenizer rejects it
    with an exception that is not a [TokenError], which leaves the
    enrichment loop and [analyze_repo]. *)
Lemma tokenizer_error_escapes :
  (_analyze_module lib toy_world ∅ ["repo3"; "bad.py"] ["repo3"] [["repo3"]]).1
  = Returned
      (failed_module "bad.py" "bad"
         "SyntaxError: unindent does not match any outer indentation level")
  /\ forall parallel,
       analyze_repo lib toy_world parallel (in_order [["bad.py"]]) ∅
         ["repo3"] [["bad.py"]] [["repo3"]] []
       = Raised "unindent does not match any outer indentation level".
Proof. split; [|intros []]; vm_compute; reflexivity. Qed.



(** The function [pick] of [repo4] returns two names.  Workers that iterate
    over sets in another order than the parent list its inferred return
    types in another order, so the parallel run and the sequential run give
    different module lists. *)
Lemma spawned_workers_differ :
  map (fun m => map FunctionInfo.return_types_inferred (ModuleInfo.functions m))
      (modules_of
         (analyze_repo lib toy_world true (spawned repo4_files) ∅ ["repo4"]
            repo4_files [["repo4"]] []))
  = [[["int"]]; [["int"]]; [["int"]]; [["int"]]; [["int"]];
     [["var:b"; "var:a"]]]
  /\ map (fun m =>
            map FunctionInfo.return_types_inferred (ModuleInfo.functions m))
         (modules_of
            (analyze_repo lib toy_world false (spawned repo4_files) ∅
               ["repo4"] repo4_files [["repo4"]] []))
     = [[["int"]]; [["int"]]; [["int"]]; [["int"]]; [["int"]];
        [["var:a"; "var:b"]]].
Proof. split; vm_compute; reflexivity. Qed.


#[local] Set Warnings "-clear-no-such-hyp".

(** * Further properties of the analyzer *)

(** ** Complexity metrics *)

Lemma descendants_subnodes (node : ast) :
  subnodes node = node :: descendants node.
Proof. apply subnodes_eq. Qed.

Lemma count_structures_app (p : ast -> bool) (l1 l2 : list ast) :
  len (List.filter p (l1 ++ l2)) = len (List.filter p l1) + len (List.filter p l2).
Proof. unfold len. rewrite List.filter_app, length_app. lia. Qed.

Lemma cognitive_fold_depth (depth : Z) (cs : list ast) :
  Forall (fun c => forall d,
            _cognitive_complexity c d
            = _cognitive_complexity c 0
              + d * len (List.filter is_cognitive_structure (descendants c))) cs ->
  forall acc0 accd,
    fold_left (fun total child =>
                 cognitive_step depth total child (_cognitive_complexity child))
              cs accd
    = fold_left (fun total child =>
                   cognitive_step 0 total child (_cognitive_complexity child))
                cs acc0
      + (accd - acc0)
      + depth * len (List.filter is_cognitive_structure
                       (concat (map subnodes cs))).
Proof.
  induction 1 as [|c cs Hc _ IH]; intros acc0 accd;
    cbn [fold_left map concat].
  - unfold len. simpl. lia.
  - rewrite (IH (cognitive_step 0 acc0 c (_cognitive_complexity c))
                (cognitive_step depth accd c (_cognitive_complexity c))).
    rewrite count_structures_app, descendants_subnodes.
    pose proof (Hc depth) as Hd. pose proof (Hc (depth + 1)) as Hd1.
    pose proof (Hc (0 + 1)) as H1.
    set (k := len (List.filter is_cognitive_structure (descendants c))) in *.
    set (r := len (List.filter is_cognitive_structure
                     (concat (map subnodes cs)))).
    destruct c; cbn [cognitive_step List.filter is_cognitive_structure];
      unfold len in *; cbn [length]; nia.
Qed.

(** X1.  The cognitive complexity computed from a starting depth is the one
    computed from depth 0 plus the starting depth times the number of
    [if], [for], [while], [except] and [match] structures below the node:
    each of them is charged its nesting level. *)
Theorem cognitive_complexity_linear_in_depth (node : ast) (depth : Z) :
  _cognitive_complexity node depth
  = _cognitive_complexity node 0
    + depth * len (List.filter is_cognitive_structure (descendants node)).
Proof.
  revert depth.
  induction node as [node IH] using ast_children_ind.
  intros depth. rewrite !_cognitive_complexity_eq.
  rewrite (cognitive_fold_depth depth _ IH 0 0). unfold descendants. lia.
Qed.

Lemma nesting_fold_shift (current : Z) (cs : list ast) :
  Forall (fun c => forall cur,
            _max_nesting_depth c cur = cur + _max_nesting_depth c 0) cs ->
  forall acc,
    fold_left (fun max_depth child =>
                 nesting_step current max_depth child (_max_nesting_depth child))
              cs acc
    = current
      + fold_left (fun max_depth child =>
                     nesting_step 0 max_depth child (_max_nesting_depth child))
                  cs (acc - current).
Proof.
  induction 1 as [|c cs Hc _ IH]; intros acc; cbn [fold_left]; [lia|].
  rewrite IH. do 2 f_equal.
  pose proof (Hc current) as H0. pose proof (Hc (current + 1)) as H1.
  pose proof (Hc (0 + 1)) as H2.
  destruct c; cbn [nesting_step]; lia.
Qed.

Lemma nesting_shift (node : ast) (current : Z) :
  _max_nesting_depth node current = current + _max_nesting_depth node 0.
Proof.
  revert current.
  induction node as [node IH] using ast_children_ind.
  intros current. rewrite !_max_nesting_depth_eq.
  rewrite (nesting_fold_shift current _ IH). now rewrite Z.sub_diag.
Qed.

Lemma nesting_fold_bound (cs : list ast) :
  Forall (fun c =>
            _max_nesting_depth c 0
            <= len (List.filter is_nesting_structure (descendants c))) cs ->
  forall acc,
    fold_left (fun max_depth child =>
                 nesting_step 0 max_depth child (_max_nesting_depth child))
              cs acc
    <= Z.max acc (len (List.filter is_nesting_structure
                         (concat (map subnodes cs)))).
Proof.
  induction 1 as [|c cs Hc _ IH]; intros acc; cbn [fold_left map concat].
  - lia.
  - etransitivity; [apply IH|].
    rewrite count_structures_app, descendants_subnodes.
    pose proof (nesting_shift c (0 + 1)) as H1.
    set (k := len (List.filter is_nesting_structure (descendants c))) in *.
    set (r := len (List.filter is_nesting_structure
                     (concat (map subnodes cs)))).
    assert (0 <= r) by (unfold r, len; lia).
    assert (0 <= k) by (unfold k, len; lia).
    destruct c; cbn [nesting_step List.filter is_nesting_structure];
      unfold len in *; cbn [length]; lia.
Qed.

(** X2.  The nesting depth computed from a starting level is the starting
    level plus the depth computed from level 0, and the depth of a tree is
    at most the number of [if], [for], [while], [with], [try], [except] and
    [match] structures below its root. *)
Theorem max_nesting_depth_shift_and_bound (node : ast) (current : Z) :
  _max_nesting_depth node current = current + _max_nesting_depth node 0
  /\ 0 <= _max_nesting_depth node 0
     <= len (List.filter is_nesting_structure (descendants node)).
Proof.
  split; [apply nesting_shift|]. split; [apply nesting_ge_current|].
  induction node as [node IH] using ast_children_ind.
  rewrite _max_nesting_depth_eq.
  etransitivity; [apply nesting_fold_bound, IH|].
  unfold descendants, len. lia.
Qed.

Lemma branch_count_fold (co : bool) (py : PyLib) (l : list ast)
    (st : cf_locals) :
  branch_count (fold_left (control_flow_step py co) l st)
  = branch_count st + foldr Z.add 0 (map branch_weight l).
Proof.
  revert st. induction l as [|n l IH]; intros st; cbn [fold_left map foldr].
  - lia.
  - rewrite IH.
    destruct n; cbn [control_flow_step branch_weight]; try lia;
      repeat match goal with
             | |- context [match ?x with _ => _ end] => destruct x
             | |- context [if ?x then _ else _] => destruct x
             end; cbn; lia.
Qed.

(** X3.  The cyclomatic complexity of a function and the branch count of
    its control-flow record come from two separate passes over the tree and
    satisfy: cyclomatic = 1 + branch count + number of [with] statements +
    number of [assert] statements + (operands - 1) of every
    boolean-operator chain. *)
Theorem cyclomatic_and_branch_count (py : PyLib) (node : ast)
    (module_name : string) (class_name : option string)
    (source_lines : list string) :
  let fi := _analyze_function py node module_name class_name source_lines in
  ComplexityMetrics.cyclomatic (FunctionInfo.complexity fi)
  = 1 + ControlFlowInfo.branch_count (FunctionInfo.control_flow fi)
    + count_nodes is_with node + count_nodes is_assert node
    + sum_nodes boolop_extra node.
Proof.
  cbn. unfold _cyclomatic_complexity. rewrite cyclomatic_fold, branch_count_fold.
  cbn [branch_count]. unfold count_nodes, sum_nodes.
  rewrite !count_filter_sum.
  rewrite <- !(sum_weights_perm _ _ _ (walk_complete node)).
  induction (walk node) as [|n l IH]; cbn [map foldr]; [lia|].
  destruct n; cbn [decision_weight branch_weight is_with is_assert boolop_extra];
    lia.
Qed.

(** ** Control-flow record *)

Ltac split_matches :=
  repeat match goal with
         | |- context [match ?x with _ => _ end] => destruct x
         | |- context [if ?x then _ else _] => destruct x
         end.

Section ControlFlowFacts.
Context (py : PyLib).

Lemma has_finally_fold (co : bool) (l : list ast) (st : cf_locals) :
  has_finally (fold_left (control_flow_step py co) l st)
  = has_finally st || existsb is_try_finally l.
Proof.
  revert st. induction l as [|n l IH]; intros st; cbn [fold_left existsb].
  - now rewrite orb_false_r.
  - rewrite IH, orb_assoc. f_equal.
    destruct n; cbn [control_flow_step is_try_finally];
      rewrite ?orb_false_r; try reflexivity;
      split_matches; cbn; rewrite ?orb_false_r, ?orb_true_r; reflexivity.
Qed.

Lemma has_for_else_fold (co : bool) (l : list ast) (st : cf_locals) :
  has_for_else (fold_left (control_flow_step py co) l st)
  = has_for_else st || existsb is_for_else l.
Proof.
  revert st. induction l as [|n l IH]; intros st; cbn [fold_left existsb].
  - now rewrite orb_false_r.
  - rewrite IH, orb_assoc. f_equal.
    destruct n; cbn [control_flow_step is_for_else];
      rewrite ?orb_false_r; try reflexivity;
      split_matches; cbn; rewrite ?orb_false_r, ?orb_true_r; reflexivity.
Qed.

Lemma has_while_else_fold (co : bool) (l : list ast) (st : cf_locals) :
  has_while_else (fold_left (control_flow_step py co) l st)
  = has_while_else st || existsb is_while_else l.
Proof.
  revert st. induction l as [|n l IH]; intros st; cbn [fold_left existsb].
  - now rewrite orb_false_r.
  - rewrite IH, orb_assoc. f_equal.
    destruct n; cbn [control_flow_step is_while_else];
      rewrite ?orb_false_r; try reflexivity;
      split_matches; cbn; rewrite ?orb_false_r, ?orb_true_r; reflexivity.
Qed.

Lemma has_match_fold (co : bool) (l : list ast) (st : cf_locals) :
  has_match (fold_left (control_flow_step py co) l st)
  = has_match st || existsb is_match l.
Proof.
  revert st. induction l as [|n l IH]; intros st; cbn [fold_left existsb].
  - now rewrite orb_false_r.
  - rewrite IH, orb_assoc. f_equal.
    destruct n; cbn [control_flow_step is_match];
      rewrite ?orb_false_r; try reflexivity;
      split_matches; cbn; rewrite ?orb_false_r, ?orb_true_r; reflexivity.
Qed.

Lemma exists_in_walk (p : ast -> bool) (node : ast) :
  existsb p (walk node) = true
  <-> exists n, In n (subnodes node) /\ p n = true.
Proof.
  rewrite existsb_exists. split; intros (n & Hn & Hp); exists n; split;
    try exact Hp; now apply in_walk_subnodes.
Qed.

(** X4.  The four structural flags of the control-flow record are exact:
    [has_finally] holds exactly when the function contains a [try] with a
    non-empty [finally] block, [has_for_else] and [has_while_else] exactly
    when it contains a [for] or [while] loop with an [else] block, and
    [has_match_case] exactly when it contains a [match] statement. *)
Theorem control_flow_flags_exact (node : ast) :
  let cf := _analyze_control_flow py node in
  (ControlFlowInfo.has_finally cf = true
   <-> exists n, In n (subnodes node) /\ is_try_finally n = true)
  /\ (ControlFlowInfo.has_for_else cf = true
      <-> exists n, In n (subnodes node) /\ is_for_else n = true)
  /\ (ControlFlowInfo.has_while_else cf = true
      <-> exists n, In n (subnodes node) /\ is_while_else n = true)
  /\ (ControlFlowInfo.has_match_case cf = true
      <-> exists n, In n (subnodes node) /\ is_match n = true).
Proof.
  cbn. rewrite has_finally_fold, has_for_else_fold, has_while_else_fold,
    has_match_fold. cbn [has_finally has_for_else has_while_else has_match orb].
  repeat split; try apply exists_in_walk; apply exists_in_walk.
Qed.



Lemma raised_fold (co : bool) (l : list ast) (st : cf_locals) :
  raised (fold_left (control_flow_step py co) l st)
  = raised st ++ flat_map (names_raised_by py) l.
Proof.
  revert st. induction l as [|n l IH]; intros st; cbn [fold_left flat_map].
  - now rewrite app_nil_r.
  - rewrite IH, app_assoc. f_equal. unfold names_raised_by.
    destruct n; cbn [control_flow_step]; rewrite ?app_nil_r; try reflexivity;
      split_matches; cbn; rewrite ?app_nil_r; reflexivity.
Qed.

Lemma caught_fold (co : bool) (l : list ast) (st : cf_locals) :
  caught (fold_left (control_flow_step py co) l st)
  = caught st ++ flat_map (names_caught_by py) l.
Proof.
  revert st. induction l as [|n l IH]; intros st; cbn [fold_left flat_map].
  - now rewrite app_nil_r.
  - rewrite IH, app_assoc. f_equal. unfold names_caught_by.
    destruct n; cbn [control_flow_step]; rewrite ?app_nil_r; try reflexivity;
      split_matches; cbn; rewrite ?app_nil_r; reflexivity.
Qed.

Lemma flat_map_nil {A B} (f : A -> list B) (l : list A) :
  (forall x, In x l -> f x = []) -> flat_map f l = [].
Proof.
  induction l as [|x l IH]; intros H; cbn; [reflexivity|].
  rewrite (H x) by now left. apply IH. intros y Hy. apply H. now right.
Qed.

(** X5.  Exception names of the control-flow record: [raise Name(...)] and
    [raise Name] contribute the bare name; a handler without a type is
    recorded as [BaseException]; a function whose [raise] statements are all
    bare re-raises has no raised name, and one without handlers no caught
    name; neither list repeats a name. *)
Theorem control_flow_exception_names (node : ast) :
  let cf := _analyze_control_flow py node in
  (forall id args kws cause,
      In (Raise (Some (Call (Name id) args kws)) cause) (subnodes node) ->
      In id (ControlFlowInfo.exception_types_raised cf))
  /\ (forall id cause,
        In (Raise (Some (Name id)) cause) (subnodes node) ->
        In id (ControlFlowInfo.exception_types_raised cf))
  /\ (forall name body,
        In (ExceptHandler None name body) (subnodes node) ->
        In "BaseException" (ControlFlowInfo.exception_types_caught cf))
  /\ ((forall exc cause, In (Raise exc cause) (subnodes node) -> exc = None) ->
      ControlFlowInfo.exception_types_raised cf = [])
  /\ ((forall n, In n (subnodes node) -> is_handler n = false) ->
      ControlFlowInfo.exception_types_caught cf = [])
  /\ NoDup (ControlFlowInfo.exception_types_raised cf)
  /\ NoDup (ControlFlowInfo.exception_types_caught cf).
Proof.
  cbn. rewrite raised_fold, caught_fold. cbn [raised caught app].
  assert (Hr : forall n x, In n (subnodes node) ->
                 In x (names_raised_by py n) ->
                 In x (list_set py (flat_map (names_raised_by py) (walk node)))).
  { intros n x Hn Hx. apply in_list_set, in_flat_map. exists n.
    split; [now apply in_walk_subnodes | exact Hx]. }
  assert (Hc : forall n x, In n (subnodes node) ->
                 In x (names_caught_by py n) ->
                 In x (list_set py (flat_map (names_caught_by py) (walk node)))).
  { intros n x Hn Hx. apply in_list_set, in_flat_map. exists n.
    split; [now apply in_walk_subnodes | exact Hx]. }
  split; [|split; [|split; [|split; [|split; [|split]]]]].
  - intros id args kws cause Hn. apply (Hr _ _ Hn). now left.
  - intros id cause Hn. apply (Hr _ _ Hn). now left.
  - intros name body Hn. apply (Hc _ _ Hn). now left.
  - intros Hbare. rewrite flat_map_nil; [apply list_set_nil|].
    intros n Hn%in_walk_subnodes. unfold names_raised_by.
    destruct n; cbn [control_flow_step];
      try (rewrite (Hbare _ _ Hn)); split_matches; reflexivity.
  - intros Hno. rewrite flat_map_nil; [apply list_set_nil|].
    intros n Hn%in_walk_subnodes. specialize (Hno n Hn).
    unfold names_caught_by.
    destruct n; try discriminate; cbn [control_flow_step];
      split_matches; reflexivity.
  - apply NoDup_list_set.
  - apply NoDup_list_set.
Qed.

End ControlFlowFacts.

(** ** Data-flow record *)

Section DataFlowFacts.
Context (py : PyLib).

Lemma df_extends_refl (st : df_locals) : df_extends st st.
Proof. unfold df_extends. repeat split; auto. Qed.

Lemma df_extends_trans (st1 st2 st3 : df_locals) :
  df_extends st1 st2 -> df_extends st2 st3 -> df_extends st1 st3.
Proof.
  unfold df_extends.
  intros (A1 & A2 & A3 & A4 & A5 & A6 & A7) (B1 & B2 & B3 & B4 & B5 & B6 & B7).
  repeat split; auto; set_solver.
Qed.

Ltac solve_extends :=
  unfold df_extends; cbn; repeat split; intros;
  rewrite ?in_app_iff; first [assumption | reflexivity | tauto | set_solver].

Lemma assign_target_step_extends (params : gset string) (st : df_locals)
    (target : ast) :
  df_extends st (assign_target_step params st target).
Proof.
  destruct target; try apply df_extends_refl; cbn [assign_target_step];
    split_matches; try apply df_extends_refl; solve_extends.
Qed.

Lemma fold_extends {A} (step : df_locals -> A -> df_locals) (l : list A)
    (st : df_locals) :
  (forall st x, df_extends st (step st x)) ->
  df_extends st (fold_left step l st).
Proof.
  intros Hstep. revert st.
  induction l as [|x l IH]; intros st; cbn [fold_left];
    [apply df_extends_refl|].
  eapply df_extends_trans; [apply Hstep | apply IH].
Qed.

Lemma data_flow_step_extends (params : gset string) (st : df_locals)
    (child : ast) :
  df_extends st (data_flow_step py params st child).
Proof.
  destruct child; try apply df_extends_refl; cbn [data_flow_step].
  - apply fold_extends, assign_target_step_extends.
  - unfold aug_assign_step. split_matches; try apply df_extends_refl;
      solve_extends.
  - solve_extends.
  - solve_extends.
  - unfold method_read_step, method_mutation_step, record_call.
    split_matches; solve_extends.
  - split_matches; try apply df_extends_refl; solve_extends.
Qed.

Lemma data_flow_extends (params : gset string) (l : list ast)
    (st : df_locals) :
  df_extends st (fold_left (data_flow_step py params) l st).
Proof. apply fold_extends, data_flow_step_extends. Qed.

Lemma in_sorted_set (x : string) (s : gset string) :
  In x (sorted_set s) <-> x ∈ s.
Proof.
  unfold sorted_set. rewrite <- list_elem_of_In, sorted_by_perm.
  apply elem_of_elements.
Qed.

Lemma sorted_set_sorted (s : gset string) :
  StronglySorted (fun a b => String.leb a b = true) (sorted_set s).
Proof.
  apply (sorted_by_sorted String.leb id String.leb_total string_leb_trans).
Qed.

Lemma sorted_set_NoDup (s : gset string) : NoDup (sorted_set s).
Proof.
  unfold sorted_set. rewrite sorted_by_perm. apply NoDup_elements.
Qed.

Ltac split_cases :=
  repeat match goal with
         | |- context [if ?x then _ else _] => destruct x eqn:?
         | |- context [match ?x with _ => _ end] => destruct x eqn:?
         end;
  repeat match goal with
         | H : _ && _ = true |- _ => apply andb_prop in H; destruct H
         end;
  repeat match goal with
         | H : bool_decide _ = true |- _ => apply bool_decide_eq_true_1 in H
         | H : bool_decide _ = false |- _ => apply bool_decide_eq_false_1 in H
         end.

Ltac invariant_goal :=
  split; cbn [args_mutated globals_written declared_globals].

Lemma assign_target_step_invariant (params : gset string) (st : df_locals)
    (target : ast) :
  df_invariant params st ->
  df_invariant params (assign_target_step params st target).
Proof.
  intros (Ha & Hg).
  destruct target; try (now split); cbn [assign_target_step];
    split_cases; try (now split); invariant_goal; try assumption.
  - set_solver.
  - intros x. rewrite in_app_iff. intros [Hx|[<-|[]]]; auto.
Qed.

Lemma fold_invariant {A} (P : df_locals -> Prop)
    (step : df_locals -> A -> df_locals) (l : list A) (st : df_locals) :
  (forall st x, P st -> P (step st x)) -> P st -> P (fold_left step l st).
Proof.
  intros Hstep. revert st.
  induction l as [|x l IH]; intros st Hst; cbn [fold_left]; auto.
Qed.

Lemma data_flow_step_invariant (params : gset string) (st : df_locals)
    (child : ast) :
  df_invariant params st ->
  df_invariant params (data_flow_step py params st child).
Proof.
  intros Hinv. pose proof Hinv as (Ha & Hg).
  destruct child; try exact Hinv; cbn [data_flow_step].
  - apply fold_invariant; [apply assign_target_step_invariant | exact Hinv].
  - unfold aug_assign_step. split_cases; try exact Hinv; invariant_goal;
      try assumption.
    intros x. rewrite in_app_iff. intros [Hx|[<-|[]]]; auto.
  - invariant_goal; [assumption|].
    intros x Hx. specialize (Hg x Hx). set_solver.
  - unfold method_read_step, method_mutation_step, record_call.
    split_cases; invariant_goal; auto; set_solver.
  - split_cases; try exact Hinv; invariant_goal; auto.
Qed.

Lemma data_flow_invariant (node : ast) :
  df_invariant (param_names_of node)
    (fold_left (data_flow_step py (param_names_of node)) (walk node)
       (mk_df [] [] [] ∅ ∅ ∅ false ∅ ∅)).
Proof.
  apply fold_invariant; [apply data_flow_step_invariant|].
  split; cbn; [set_solver | tauto].
Qed.

Lemma map_imap_snd {A B C} (g : B -> C) (g' : A -> C) (l : list A) :
  forall f : nat -> A -> B,
    (forall i x, g (f i x) = g' x) -> map g (imap f l) = map g' l.
Proof.
  induction l as [|x l IH]; intros f Hf; cbn; [reflexivity|].
  rewrite Hf. f_equal. apply IH. intros i y. apply Hf.
Qed.

Lemma function_parameter_names (all_args : ast) :
  map ParameterInfo.name (function_parameters py all_args)
  = map arg_arg
      (args_posonlyargs all_args ++ args_args all_args
         ++ option_list (args_vararg all_args)
         ++ args_kwonlyargs all_args ++ option_list (args_kwarg all_args)).
Proof.
  unfold function_parameters, enumerate.
  rewrite !map_app, !map_map.
  rewrite !(map_imap_snd _ arg_arg) by reflexivity.
  repeat f_equal.
  - now destruct (args_vararg all_args).
  - now destruct (args_kwarg all_args).
Qed.

Lemma param_names_reported (node : ast) (x : string) :
  x ∈ param_names_of node
  <-> In x (map ParameterInfo.name
              (function_parameters py (node_args node))).
Proof.
  rewrite function_parameter_names. unfold param_names_of.
  rewrite !map_app, !in_app_iff, <- !list_elem_of_In.
  destruct (args_vararg (node_args node)), (args_kwarg (node_args node));
    cbn [option_list map]; rewrite ?list_elem_of_In; cbn [In];
    rewrite <- ?list_elem_of_In; set_solver.
Qed.

(** X6.  Every name the data-flow record lists in [args_mutated] is the
    name of a parameter reported for the same function, and the list is
    sorted and free of duplicates. *)
Theorem args_mutated_are_parameters (node : ast) (module_name : string)
    (class_name : option string) (source_lines : list string) :
  let fi := _analyze_function py node module_name class_name source_lines in
  let mutated := DataFlowInfo.args_mutated (FunctionInfo.data_flow fi) in
  (forall x, In x mutated ->
     In x (map ParameterInfo.name (FunctionInfo.parameters fi)))
  /\ StronglySorted (fun a b => String.leb a b = true) mutated
  /\ NoDup mutated.
Proof.
  cbn. split; [|split; [apply sorted_set_sorted | apply sorted_set_NoDup]].
  intros x Hx%in_sorted_set. apply param_names_reported.
  pose proof (data_flow_invariant node) as (Ha & _). set_solver.
Qed.

Lemma assign_targets_declared (params : gset string) (targets : list ast)
    (st : df_locals) :
  declared_globals (fold_left (assign_target_step params) targets st)
  = declared_globals st.
Proof.
  revert st. induction targets as [|t ts IH]; intros st; cbn [fold_left];
    [reflexivity|].
  rewrite IH. destruct t; try reflexivity; cbn [assign_target_step];
    split_matches; reflexivity.
Qed.

Lemma data_flow_step_declared (params : gset string) (st : df_locals)
    (child : ast) (x : string) :
  x ∈ declared_globals (data_flow_step py params st child)
  <-> x ∈ declared_globals st \/ In x (declared_by child).
Proof.
  destruct child; cbn [data_flow_step declared_by In];
    try (now intuition).
  - rewrite assign_targets_declared. now intuition.
  - unfold aug_assign_step. split_matches; cbn; now intuition.
  - cbn. rewrite elem_of_union, elem_of_list_to_set, list_elem_of_In.
    reflexivity.
  - unfold method_read_step, method_mutation_step, record_call.
    split_matches; cbn; now intuition.
  - split_matches; cbn; now intuition.
Qed.

Lemma data_flow_declared (params : gset string) (l : list ast)
    (st : df_locals) (x : string) :
  x ∈ declared_globals (fold_left (data_flow_step py params) l st)
  <-> x ∈ declared_globals st \/ exists n, In n l /\ In x (declared_by n).
Proof.
  revert st. induction l as [|n l IH]; intros st; cbn [fold_left].
  - split; [now left | intros [H|(n & [] & _)]; exact H].
  - rewrite IH, data_flow_step_declared. split.
    + intros [[H|H]|(m & Hm & Hx)]; [now left | |].
      * right. exists n. split; [now left | exact H].
      * right. exists m. split; [now right | exact Hx].
    + intros [H|(m & [<-|Hm] & Hx)]; [now left; left | now left; right |].
      right. now exists m.
Qed.

Lemma globals_read_fold (st : df_locals) (l : list ast) (acc : list string)
    (x : string) :
  In x (fold_left (globals_read_step st) l acc) ->
  In x acc
  \/ (x ∈ declared_globals st /\ ~ In x (globals_written st)
      /\ In (Name x) l).
Proof.
  revert acc. induction l as [|n l IH]; intros acc; cbn [fold_left];
    [now left|].
  intros [H|(H1 & H2 & H3)]%IH; [|right; repeat split; auto; now right].
  destruct n; try (now left).
  cbn [globals_read_step] in H.
  destruct (bool_decide (id ∈ declared_globals st)) eqn:E1; [|now left].
  destruct (bool_decide (id ∈ globals_written st)) eqn:E2; [now left|].
  cbn in H. apply in_app_iff in H. destruct H as [H|[<-|[]]]; [now left|].
  right. apply bool_decide_eq_true_1 in E1. apply bool_decide_eq_false_1 in E2.
  repeat split; [exact E1 | now rewrite <- list_elem_of_In | now left].
Qed.

(** X7.  Global names of the data-flow record: a name listed in
    [globals_written] or in [globals_read] is declared by a [global]
    statement of the function; a name listed in [globals_read] occurs as a
    name in the function, and no name is listed as both read and
    written. *)
Theorem globals_read_and_written (node : ast) :
  let df := _analyze_data_flow py node in
  let declared (x : string) :=
    exists names, In (Global names) (subnodes node) /\ In x names in
  (forall x, In x (DataFlowInfo.globals_written df) -> declared x)
  /\ (forall x, In x (DataFlowInfo.globals_read df) ->
        declared x /\ In (Name x) (subnodes node)
        /\ ~ In x (DataFlowInfo.globals_written df)).
Proof.
  cbn.
  set (st := fold_left (data_flow_step py (param_names_of node)) (walk node)
               (mk_df [] [] [] ∅ ∅ ∅ false ∅ ∅)).
  assert (Hdecl : forall x, x ∈ declared_globals st ->
            exists names, In (Global names) (subnodes node) /\ In x names).
  { intros x Hx. apply data_flow_declared in Hx.
    destruct Hx as [Hx|(n & Hn & Hx)]; [cbn in Hx; set_solver|].
    destruct n; try destruct Hx. exists names.
    split; [now apply in_walk_subnodes | exact Hx]. }
  pose proof (data_flow_invariant node) as (_ & Hg). fold st in Hg.
  split.
  - intros x Hx. apply (proj1 (in_list_set py _ _)) in Hx. auto.
  - intros x Hx. apply (proj1 (in_list_set py _ _)) in Hx.
    apply globals_read_fold in Hx.
    destruct Hx as [[]|(H1 & H2 & H3)].
    split; [auto|]. split; [now apply in_walk_subnodes|].
    now rewrite in_list_set.
Qed.

Lemma fold_reaches {A} (step : df_locals -> A -> df_locals) (l : list A)
    (st : df_locals) (n : A) (Q : df_locals -> Prop) :
  (forall st x, df_extends st (step st x)) ->
  (forall st st', df_extends st st' -> Q st -> Q st') ->
  In n l -> (forall st, Q (step st n)) -> Q (fold_left step l st).
Proof.
  intros Hext Hmono Hin Hn. revert st.
  induction l as [|x l IH]; intros st; [destruct Hin|]. cbn [fold_left].
  destruct Hin as [->|Hin]; [|now apply IH].
  eapply Hmono; [apply fold_extends, Hext | apply Hn].
Qed.

(** What is known once the data-flow loop has met a side effect on
    attribute [attr] of [self], or a mutation of parameter [id]. *)
Lemma self_write_recorded (params : gset string) (targets : list ast)
    (st : df_locals) (attr : string) :
  In (Attribute (Name "self") attr) targets ->
  let st' := fold_left (assign_target_step params) targets st in
  has_side_effects st' = true /\ attr ∈ instance_attrs_written st'.
Proof.
  intros Hin.
  apply (fold_reaches _ _ _ (Attribute (Name "self") attr)
           (fun s => has_side_effects s = true
                     /\ attr ∈ instance_attrs_written s)
           (assign_target_step_extends params)); [| exact Hin |].
  - intros s s' (H1 & _ & _ & H4 & _) (Hs & Ha). split; [auto | set_solver].
  - intros s. cbn. split; [reflexivity | set_solver].
Qed.

Lemma subscript_write_recorded (params : gset string) (targets : list ast)
    (st : df_locals) (id : string) (slice : ast) :
  In (Subscript (Name id) slice) targets -> id ∈ params ->
  let st' := fold_left (assign_target_step params) targets st in
  has_side_effects st' = true /\ id ∈ args_mutated st'.
Proof.
  intros Hin Hid.
  apply (fold_reaches _ _ _ (Subscript (Name id) slice)
           (fun s => has_side_effects s = true /\ id ∈ args_mutated s)
           (assign_target_step_extends params)); [| exact Hin |].
  - intros s s' (H1 & H2 & _) (Hs & Ha). split; [auto | set_solver].
  - intros s. cbn. rewrite bool_decide_eq_true_2 by exact Hid.
    cbn. split; [reflexivity | set_solver].
Qed.

Lemma impure_if_side_effects (node : ast) :
  has_side_effects
    (fold_left (data_flow_step py (param_names_of node)) (walk node)
       (mk_df [] [] [] ∅ ∅ ∅ false ∅ ∅)) = true ->
  DataFlowInfo.is_pure (_analyze_data_flow py node) = false.
Proof. intros H. cbn. now rewrite H. Qed.

(** X8.  Side effects found by the data-flow pass.  A [global] or
    [nonlocal] statement makes the function impure, and the names of a
    [nonlocal] statement are listed; an assignment or augmented assignment
    to [self.attr] makes it impure and lists [attr] among the written
    instance attributes; an assignment to [p[...]] for a parameter [p], or a
    call of a mutating method on [p], lists [p] among the mutated
    arguments. *)
Theorem side_effects_recorded (node : ast) :
  let df := _analyze_data_flow py node in
  (forall names, In (Global names) (subnodes node) ->
     DataFlowInfo.is_pure df = false)
  /\ (forall names, In (Nonlocal names) (subnodes node) ->
        DataFlowInfo.is_pure df = false
        /\ forall x, In x names -> In x (DataFlowInfo.nonlocals df))
  /\ (forall targets value lineno attr,
        In (Assign targets value lineno) (subnodes node) ->
        In (Attribute (Name "self") attr) targets ->
        DataFlowInfo.is_pure df = false
        /\ In attr (DataFlowInfo.instance_attrs_written df))
  /\ (forall attr value,
        In (AugAssign (Attribute (Name "self") attr) value) (subnodes node) ->
        DataFlowInfo.is_pure df = false
        /\ In attr (DataFlowInfo.instance_attrs_written df))
  /\ (forall targets value lineno id slice,
        In (Assign targets value lineno) (subnodes node) ->
        In (Subscript (Name id) slice) targets ->
        id ∈ param_names_of node ->
        DataFlowInfo.is_pure df = false
        /\ In id (DataFlowInfo.args_mutated df))
  /\ (forall id method args keywords,
        In (Call (Attribute (Name id) method) args keywords)
           (subnodes node) ->
        id ∈ param_names_of node -> method ∈ _MUTATION_METHODS ->
        DataFlowInfo.is_pure df = false
        /\ In id (DataFlowInfo.args_mutated df)).
Proof.
  set (params := param_names_of node).
  set (st0 := mk_df [] [] [] ∅ ∅ ∅ false ∅ ∅).
  assert (Hreach : forall n (Q : df_locals -> Prop),
            (forall st st', df_extends st st' -> Q st -> Q st') ->
            In n (subnodes node) ->
            (forall st, Q (data_flow_step py params st n)) ->
            Q (fold_left (data_flow_step py params) (walk node) st0)).
  { intros n Q Hmono Hn Hq.
    apply (fold_reaches _ _ _ n Q (data_flow_step_extends params) Hmono);
      [now apply in_walk_subnodes | exact Hq]. }
  cbn zeta. split; [|split; [|split; [|split; [|split]]]].
  - intros names Hn. apply impure_if_side_effects.
    apply (Hreach (Global names) (fun s => has_side_effects s = true)); [|exact Hn|].
    + intros s s' (H1 & _). exact H1.
    + reflexivity.
  - intros names Hn.
    enough (H : has_side_effects
                  (fold_left (data_flow_step py params) (walk node) st0) = true
                /\ forall x, In x names ->
                     In x (nonlocals
                             (fold_left (data_flow_step py params) (walk node)
                                st0))).
    { destruct H as [H1 H2]. split; [now apply impure_if_side_effects|].
      intros x Hx. apply in_list_set. auto. }
    apply (Hreach (Nonlocal names) (fun s => has_side_effects s = true
                              /\ forall x, In x names -> In x (nonlocals s)));
      [|exact Hn|].
    + intros s s' (H1 & _ & _ & _ & _ & H6 & _) (Hs & Hx). split; auto.
    + intros s. cbn. split; [reflexivity|].
      intros x Hx. apply in_app_iff. now right.
  - intros targets value lineno attr Hn Ht.
    enough (H : has_side_effects
                  (fold_left (data_flow_step py params) (walk node) st0) = true
                /\ attr ∈ instance_attrs_written
                     (fold_left (data_flow_step py params) (walk node) st0)).
    { destruct H as [H1 H2]. split; [now apply impure_if_side_effects|].
      now apply in_sorted_set. }
    apply (Hreach (Assign targets value lineno) (fun s => has_side_effects s = true
                              /\ attr ∈ instance_attrs_written s));
      [|exact Hn|].
    + intros s s' (H1 & _ & _ & H4 & _) (Hs & Ha). split; [auto | set_solver].
    + intros s. cbn [data_flow_step]. now apply self_write_recorded.
  - intros attr value Hn.
    enough (H : has_side_effects
                  (fold_left (data_flow_step py params) (walk node) st0) = true
                /\ attr ∈ instance_attrs_written
                     (fold_left (data_flow_step py params) (walk node) st0)).
    { destruct H as [H1 H2]. split; [now apply impure_if_side_effects|].
      now apply in_sorted_set. }
    apply (Hreach (AugAssign (Attribute (Name "self") attr) value) (fun s => has_side_effects s = true
                              /\ attr ∈ instance_attrs_written s));
      [|exact Hn|].
    + intros s s' (H1 & _ & _ & H4 & _) (Hs & Ha). split; [auto | set_solver].
    + intros s. cbn. split; [reflexivity | set_solver].
  - intros targets value lineno id slice Hn Ht Hid.
    enough (H : has_side_effects
                  (fold_left (data_flow_step py params) (walk node) st0) = true
                /\ id ∈ args_mutated
                     (fold_left (data_flow_step py params) (walk node) st0)).
    { destruct H as [H1 H2]. split; [now apply impure_if_side_effects|].
      now apply in_sorted_set. }
    apply (Hreach (Assign targets value lineno) (fun s => has_side_effects s = true
                              /\ id ∈ args_mutated s));
      [|exact Hn|].
    + intros s s' (H1 & H2 & _) (Hs & Ha). split; [auto | set_solver].
    + intros s. cbn [data_flow_step].
      now apply (subscript_write_recorded _ _ _ id slice).
  - intros id method args keywords Hn Hid Hm.
    enough (H : has_side_effects
                  (fold_left (data_flow_step py params) (walk node) st0) = true
                /\ id ∈ args_mutated
                     (fold_left (data_flow_step py params) (walk node) st0)).
    { destruct H as [H1 H2]. split; [now apply impure_if_side_effects|].
      now apply in_sorted_set. }
    apply (Hreach (Call (Attribute (Name id) method) args keywords) (fun s => has_side_effects s = true
                              /\ id ∈ args_mutated s));
      [|exact Hn|].
    + intros s s' (H1 & H2 & _) (Hs & Ha). split; [auto | set_solver].
    + intros s. cbn [data_flow_step method_mutation_step method_read_step].
      rewrite !bool_decide_eq_true_2 by assumption.
      cbn. split; [reflexivity | set_solver].
Qed.

Lemma assign_targets_written (params : gset string) (targets : list ast)
    (st : df_locals) (x : string) :
  x ∈ instance_attrs_written (fold_left (assign_target_step params) targets st)
  -> x ∈ instance_attrs_written st \/ In (Attribute (Name "self") x) targets.
Proof.
  revert st. induction targets as [|t ts IH]; intros st; cbn [fold_left];
    [now left|].
  intros [H|H]%IH; [|right; now right].
  destruct t; try (now left); cbn [assign_target_step] in H;
    revert H; split_cases; cbn; try (now left).
  rewrite elem_of_union, elem_of_singleton. intros [H| ->]; [now left|].
  right. left. f_equal. f_equal. now apply String.eqb_eq.
Qed.

Lemma data_flow_step_written (params : gset string) (st : df_locals)
    (child : ast) (x : string) :
  x ∈ instance_attrs_written (data_flow_step py params st child) ->
  x ∈ instance_attrs_written st
  \/ In (Attribute (Name "self") x) (iter_child_nodes child).
Proof.
  destruct child; try (now left); cbn [data_flow_step iter_child_nodes].
  - intros [H|H]%assign_targets_written; [now left|].
    right. apply in_app_iff. now left.
  - unfold aug_assign_step. split_cases; cbn; try (now left).
    rewrite elem_of_union, elem_of_singleton. intros [H| ->]; [now left|].
    right. left. f_equal. f_equal. now apply String.eqb_eq.
  - unfold method_read_step, method_mutation_step, record_call.
    split_cases; cbn; now left.
  - split_cases; cbn; now left.
Qed.

Lemma data_flow_written (params : gset string) (l : list ast)
    (st : df_locals) (x : string) :
  x ∈ instance_attrs_written (fold_left (data_flow_step py params) l st) ->
  x ∈ instance_attrs_written st
  \/ exists n, In n l /\ In (Attribute (Name "self") x) (iter_child_nodes n).
Proof.
  revert st. induction l as [|n l IH]; intros st; cbn [fold_left];
    [now left|].
  intros [H|(m & Hm & Hx)]%IH.
  - apply data_flow_step_written in H. destruct H as [H|H]; [now left|].
    right. exists n. split; [now left | exact H].
  - right. exists m. split; [now right | exact Hx].
Qed.

Lemma subnodes_trans (node n x : ast) :
  In n (subnodes node) -> In x (subnodes n) -> In x (subnodes node).
Proof.
  induction node as [node IH] using ast_children_ind.
  rewrite (subnodes_eq node). intros [<-|Hn] Hx.
  - now rewrite subnodes_eq in Hx.
  - right. apply in_concat in Hn. destruct Hn as (sub & Hsub & Hn).
    apply in_map_iff in Hsub. destruct Hsub as (c & <- & Hc).
    apply in_concat. exists (subnodes c). split; [now apply in_map|].
    rewrite Forall_forall in IH. apply (IH c); auto.
    now apply list_elem_of_In.
Qed.

(** X9.  Every instance attribute that the data-flow record lists as
    written is also listed as read: the target [self.attr] of an assignment
    is itself an attribute access that the pass visits. *)
Theorem written_attributes_are_read (node : ast) :
  let df := _analyze_data_flow py node in
  forall x, In x (DataFlowInfo.instance_attrs_written df) ->
            In x (DataFlowInfo.instance_attrs_read df).
Proof.
  cbn. intros x Hx. apply (proj1 (in_sorted_set _ _)) in Hx.
  apply in_sorted_set.
  apply data_flow_written in Hx.
  destruct Hx as [Hx|(n & Hn & Hx)]; [cbn in Hx; set_solver|].
  apply (fold_reaches _ _ _ (Attribute (Name "self") x)
           (fun s => x ∈ instance_attrs_read s)
           (data_flow_step_extends (param_names_of node))).
  - intros s s' (_ & _ & H3 & _) Hs. set_solver.
  - apply in_walk_subnodes. apply in_walk_subnodes in Hn.
    apply (subnodes_trans node n); [exact Hn|].
    eapply subnodes_child; [exact Hx | apply subnodes_self].
  - intros s. cbn. set_solver.
Qed.

End DataFlowFacts.

(** ** The function analyzer *)

Section FunctionFacts.
Context (py : PyLib).

Lemma default_of_param (a : ast) (d : option string) (k : string) :
  ParameterInfo.default (param_of py a d k) = d.
Proof. reflexivity. Qed.

Lemma regular_defaults (early late defaults : list ast) (kind : string) :
  length late = length defaults ->
  map ParameterInfo.default
    (map (fun ia : Z * ast =>
            let default_idx :=
              ia.1 - (len (early ++ late) - len defaults) in
            let default :=
              if Z.leb 0 default_idx
              then _safe_unparse py <$> at_index defaults default_idx
              else None in
            param_of py ia.2 default kind)
         (enumerate (early ++ late)))
  = map (fun _ => None) early
    ++ map (fun d => Some (_safe_unparse py d)) defaults.
Proof.
  intros Hlen. unfold enumerate. rewrite !map_map.
  apply list_eq. intros i.
  rewrite list_lookup_fmap, list_lookup_imap. cbn [fst snd].
  unfold len. rewrite length_app, Hlen.
  destruct (decide (i < length early)%nat) as [Hi|Hi].
  - rewrite !lookup_app_l by (rewrite ?length_map; lia).
    rewrite list_lookup_fmap.
    destruct (early !! i) eqn:E; [|reflexivity]. cbn.
    destruct (Z.leb_spec 0 (Z.of_nat i
                - (Z.of_nat (length early + length defaults)
                   - Z.of_nat (length defaults)))); [lia | reflexivity].
  - rewrite !lookup_app_r by (rewrite ?length_map; lia).
    rewrite length_map, list_lookup_fmap.
    set (j := (i - length early)%nat).
    assert (Hidx : Z.of_nat i
                   - (Z.of_nat (length early + length defaults)
                      - Z.of_nat (length defaults)) = Z.of_nat j)
      by (unfold j; lia).
    destruct (late !! j) eqn:E; cbn.
    + rewrite Hidx. cbn. unfold at_index. rewrite Nat2Z.id.
      destruct (Z.leb_spec 0 (Z.of_nat j)); [|lia].
      destruct (defaults !! j) eqn:E'; [reflexivity|].
      exfalso. apply lookup_ge_None in E'. apply lookup_lt_Some in E. lia.
    + apply lookup_ge_None in E. rewrite Hlen in E.
      now rewrite (proj2 (lookup_ge_None _ _) E).
Qed.

Lemma keyword_defaults (kwonly : list ast) (kw_defaults : list (option ast)) :
  length kwonly = length kw_defaults ->
  map ParameterInfo.default
    (map (fun ia : Z * ast =>
            let default :=
              match at_index kw_defaults ia.1 with
              | Some (Some kw_default) => Some (_safe_unparse py kw_default)
              | _ => None
              end in
            param_of py ia.2 default "KEYWORD_ONLY")
         (enumerate kwonly))
  = map (fmap (_safe_unparse py)) kw_defaults.
Proof.
  intros Hlen. unfold enumerate. rewrite !map_map.
  apply list_eq. intros i.
  rewrite list_lookup_fmap, list_lookup_imap, list_lookup_fmap. cbn [fst snd].
  unfold at_index.
  destruct (kwonly !! i) eqn:E; cbn; rewrite ?Nat2Z.id.
  - destruct (kw_defaults !! i) as [[d|]|] eqn:E'; cbn; try reflexivity.
    exfalso. apply lookup_ge_None in E'. apply lookup_lt_Some in E. lia.
  - apply lookup_ge_None in E. rewrite Hlen in E.
    now rewrite (proj2 (lookup_ge_None _ _) E).
Qed.

(** X10.  Parameters are reported in the order positional-only, regular,
    [*args], keyword-only, [**kwargs]; and for a function without
    positional-only parameters whose defaults belong to its last regular
    parameters, the regular parameters before them have no default, the last
    ones have the defaults in order, [*args] and [**kwargs] have none and
    each keyword-only parameter has its own default or none. *)
Theorem parameters_and_defaults (posonly early late kwonly defaults : list ast)
    (vararg kwarg : option ast) (kw_defaults : list (option ast)) :
  length late = length defaults ->
  length kwonly = length kw_defaults ->
  map ParameterInfo.name
    (function_parameters py
       (arguments posonly (early ++ late) vararg kwonly kw_defaults kwarg
          defaults))
  = map arg_arg (posonly ++ (early ++ late) ++ option_list vararg
                   ++ kwonly ++ option_list kwarg)
  /\ map ParameterInfo.default
       (function_parameters py
          (arguments [] (early ++ late) vararg kwonly kw_defaults kwarg
             defaults))
     = map (fun _ => None) early
       ++ map (fun d => Some (_safe_unparse py d)) defaults
       ++ map (fun _ => None) (option_list vararg)
       ++ map (fmap (_safe_unparse py)) kw_defaults
       ++ map (fun _ => None) (option_list kwarg).
Proof.
  intros Hlate Hkw. split; [apply function_parameter_names|].
  unfold function_parameters.
  cbn [args_defaults args_posonlyargs args_args args_vararg args_kwonlyargs
       args_kw_defaults args_kwarg].
  unfold enumerate at 1. cbn [imap map app].
  rewrite !map_app.
  pose proof (regular_defaults early late defaults "POSITIONAL_OR_KEYWORD"
                Hlate) as Hr.
  pose proof (keyword_defaults kwonly kw_defaults Hkw) as Hk.
  cbv zeta in Hr, Hk |- *. rewrite Hr, Hk.
  rewrite <- !app_assoc. repeat f_equal.
  - now destruct vararg.
  - now destruct kwarg.
Qed.


Lemma py_slice_in_range {A} (l : list A) (start stop : Z) :
  0 <= start -> start <= stop -> stop <= len l ->
  py_slice l start (Some stop)
  = take (Z.to_nat (stop - start)) (drop (Z.to_nat start) l).
Proof.
  unfold py_slice, clamp_index, len. intros H0 H1 H2.
  destruct (Z.ltb_spec start 0); [lia|].
  destruct (Z.ltb_spec stop 0); [lia|].
  f_equal; [|f_equal]; lia.
Qed.

Lemma py_slice_past_end {A} (l : list A) (start : Z) (stop : option Z) :
  len l <= start -> py_slice l start stop = [].
Proof.
  unfold py_slice, clamp_index, len. intros H.
  destruct (Z.ltb_spec start 0); [lia|].
  replace (Z.to_nat (Z.min (Z.of_nat (length l)) (Z.max 0 start)))
    with (length l) by lia.
  rewrite drop_all. now rewrite take_nil.
Qed.

(** X11.  The source text of a function whose lines lie within the file
    is made of the lines [lineno] to [end_lineno] of the file, exactly as
    many as its [loc] metric says; the source text of a definition that
    starts past the last line is empty. *)
Theorem function_source_and_loc (node : ast) (lineno end_lineno : Z)
    (module_name : string) (class_name : option string)
    (source_lines : list string) :
  is_function_def node = true ->
  node_lineno node = lineno -> node_end_lineno node = Some end_lineno ->
  1 <= lineno ->
  let fi := _analyze_function py node module_name class_name source_lines in
  (lineno <= end_lineno -> end_lineno <= len source_lines ->
   let lines :=
     take (Z.to_nat (end_lineno - lineno + 1))
          (drop (Z.to_nat (lineno - 1)) source_lines) in
   FunctionInfo.source fi = String.concat newline lines
   /\ len lines = ComplexityMetrics.loc (FunctionInfo.complexity fi))
  /\ (len source_lines < lineno -> FunctionInfo.source fi = "").
Proof.
  intros Hdef Hl He H1. cbn zeta. split.
  - intros H2 H3. cbn. unfold _node_source.
    assert (Hend : has_end_lineno node = true) by (now destruct node).
    rewrite Hend, Hl, He. cbn [or_else].
    destruct (Z.eqb_spec end_lineno 0); [lia|].
    rewrite py_slice_in_range by lia.
    replace (end_lineno - (lineno - 1)) with (end_lineno - lineno + 1) by lia.
    split; [reflexivity|].
    unfold len in *. rewrite length_take, length_drop. lia.
  - intros H2. cbn. unfold _node_source. rewrite Hl.
    now rewrite py_slice_past_end by lia.
Qed.

Lemma append_assoc (s1 s2 s3 : string) :
  (s1 +:+ s2) +:+ s3 = s1 +:+ (s2 +:+ s3).
Proof.
  induction s1 as [|c s1 IH]; [reflexivity|].
  change (String c ((s1 +:+ s2) +:+ s3) = String c (s1 +:+ (s2 +:+ s3))).
  now f_equal.
Qed.

Lemma concat_dot_cons (b : string) (a : string) (rest : list string) :
  String.concat "." ((b +:+ "." +:+ a) :: rest)
  = b +:+ "." +:+ String.concat "." (a :: rest).
Proof.
  destruct rest as [|r rest]; cbn [String.concat]; [reflexivity|].
  now rewrite !append_assoc.
Qed.

Lemma decorator_name_dotted_from (e : ast) (attrs : list string) :
  _decorator_name py (fold_left Attribute attrs e)
  = String.concat "." (_decorator_name py e :: attrs).
Proof.
  revert e. induction attrs as [|a attrs IH]; intros e; cbn [fold_left].
  - reflexivity.
  - rewrite IH, (_decorator_name_eq py (Attribute e a)).
    apply concat_dot_cons.
Qed.

Lemma any_contains_in (needle d : string) (ds : list string) :
  In d ds -> contains needle d = true -> any_contains needle ds = true.
Proof.
  intros Hin Hc. unfold any_contains. apply existsb_exists. eauto.
Qed.

(** X12.  The name recorded for a decorator that is a dotted name is the
    dotted name itself, whatever [ast.unparse] does; for a call of a dotted
    name it is the name followed by the positional arguments, the keyword
    arguments being left out.  A function is flagged as a property (static
    method, class method, abstract method) as soon as the name of one of its
    decorators contains the word. *)
Theorem decorator_names (base : string) (attrs : list string)
    (args keywords : list ast) :
  _decorator_name py (dotted_expr base attrs)
  = String.concat "." (base :: attrs)
  /\ _decorator_name py (Call (dotted_expr base attrs) args keywords)
     = String.concat "." (base :: attrs) +:+ "("
         +:+ String.concat ", " (map (_safe_unparse py) args) +:+ ")"
  /\ forall node module_name class_name source_lines,
       In (dotted_expr base attrs) (node_decorator_list node) ->
       let fi :=
         _analyze_function py node module_name class_name source_lines in
       let name := String.concat "." (base :: attrs) in
       In name (FunctionInfo.decorators fi)
       /\ (contains "property" name = true ->
           FunctionInfo.is_property fi = true)
       /\ (contains "staticmethod" name = true ->
           FunctionInfo.is_staticmethod fi = true)
       /\ (contains "classmethod" name = true ->
           FunctionInfo.is_classmethod fi = true)
       /\ (contains "abstractmethod" name = true ->
           FunctionInfo.is_abstractmethod fi = true).
Proof.
  assert (Hd : _decorator_name py (dotted_expr base attrs)
               = String.concat "." (base :: attrs)).
  { unfold dotted_expr. rewrite decorator_name_dotted_from.
    now rewrite (_decorator_name_eq py (Name base)). }
  split; [exact Hd|]. split.
  - rewrite (_decorator_name_eq py (Call _ _ _)). now rewrite Hd.
  - intros node module_name class_name source_lines Hin. cbn zeta.
    assert (Hname : In (String.concat "." (base :: attrs))
                       (map (_decorator_name py) (node_decorator_list node))).
    { rewrite <- Hd. now apply in_map. }
    cbn [_analyze_function FunctionInfo.decorators FunctionInfo.is_property
         FunctionInfo.is_staticmethod FunctionInfo.is_classmethod
         FunctionInfo.is_abstractmethod].
    split; [exact Hname|].
    repeat split; intros Hc; eapply any_contains_in; eassumption.
Qed.

End FunctionFacts.

(** ** The class analyzer *)

Section ClassFacts.
Context (py : PyLib).

Lemma methods_append_keys (g : string) (f : FunctionInfo.t)
    (ms : list (string * list FunctionInfo.t)) :
  map fst (methods_append g f ms) = map fst ms.
Proof.
  unfold methods_append. rewrite map_map. apply map_ext.
  intros [k fs]. cbn. now destruct (String.eqb k g).
Qed.

Lemma methods_append_other (g : string) (f : FunctionInfo.t)
    (ms : list (string * list FunctionInfo.t)) :
  ~ In g (map fst ms) -> methods_append g f ms = ms.
Proof.
  induction ms as [|[k fs] ms IH]; cbn; intros Hg; [reflexivity|].
  destruct (String.eqb_spec k g) as [->|Hk]; [tauto|].
  f_equal. apply IH. tauto.
Qed.

Lemma methods_append_perm (g : string) (f : FunctionInfo.t)
    (ms : list (string * list FunctionInfo.t)) :
  NoDup (map fst ms) -> In g (map fst ms) ->
  flat_map snd (methods_append g f ms) ≡ₚ f :: flat_map snd ms.
Proof.
  induction ms as [|[k fs] ms IH]; cbn [map fst flat_map snd];
    intros Hnd Hin; [destruct Hin|].
  apply NoDup_cons in Hnd. destruct Hnd as [Hk Hnd].
  cbn [methods_append map fst snd flat_map].
  destruct (String.eqb_spec k g) as [->|Hne].
  - fold (methods_append g f ms).
    rewrite methods_append_other by (now rewrite <- list_elem_of_In).
    cbn [flat_map snd]. rewrite <- app_assoc. cbn.
    now rewrite <- Permutation_middle.
  - fold (methods_append g f ms). cbn [flat_map snd fst].
    destruct Hin as [Hin|Hin]; [congruence|].
    rewrite (IH Hnd Hin). cbn. now rewrite Permutation_middle.
Qed.

Lemma method_group_known (func_info : FunctionInfo.t) (name : string) :
  In (method_group func_info name) method_groups.
Proof.
  unfold method_group, method_groups. split_matches; cbn; tauto.
Qed.

Lemma method_groups_distinct : NoDup method_groups.
Proof. unfold method_groups. apply NoDup_ListNoDup. repeat constructor; cbn; intuition discriminate. Qed.

Lemma class_step_methods (module_name class_name : string)
    (source_lines : list string) (st : class_locals) (child : ast) :
  map fst (methods st) = method_groups ->
  map fst (methods (class_step py module_name class_name source_lines st child))
  = method_groups
  /\ flat_map snd
       (methods (class_step py module_name class_name source_lines st child))
     ≡ₚ flat_map snd (methods st)
        ++ (if is_function_def child
            then [_analyze_function py child module_name (Some class_name)
                    source_lines]
            else []).
Proof.
  intros Hkeys.
  destruct child; cbn [class_step methods is_function_def];
    rewrite ?app_nil_r; try (now split);
    try (split_matches; cbn [methods]; rewrite ?app_nil_r; now split).
  - rewrite methods_append_keys. split; [exact Hkeys|].
    rewrite methods_append_perm.
    + apply Permutation_cons_append.
    + rewrite Hkeys. apply method_groups_distinct.
    + rewrite Hkeys. apply method_group_known.
  - rewrite methods_append_keys. split; [exact Hkeys|].
    rewrite methods_append_perm.
    + apply Permutation_cons_append.
    + rewrite Hkeys. apply method_groups_distinct.
    + rewrite Hkeys. apply method_group_known.
Qed.

Lemma class_steps_methods (module_name class_name : string)
    (source_lines : list string) (children : list ast) (st : class_locals) :
  map fst (methods st) = method_groups ->
  let st' :=
    fold_left (class_step py module_name class_name source_lines) children st in
  map fst (methods st') = method_groups
  /\ flat_map snd (methods st')
     ≡ₚ flat_map snd (methods st)
        ++ map (fun child =>
                  _analyze_function py child module_name (Some class_name)
                    source_lines)
               (List.filter is_function_def children).
Proof.
  revert st. induction children as [|c cs IH]; intros st Hkeys;
    cbn [fold_left List.filter map].
  - split; [exact Hkeys | now rewrite app_nil_r].
  - destruct (class_step_methods module_name class_name source_lines st c Hkeys)
      as [Hk Hp].
    destruct (IH _ Hk) as [Hk' Hp']. split; [exact Hk'|].
    rewrite Hp', Hp. rewrite <- app_assoc.
    now destruct (is_function_def c).
Qed.

Lemma methods_append_grouped (f : FunctionInfo.t)
    (ms : list (string * list FunctionInfo.t)) :
  Forall (fun kv : string * list FunctionInfo.t =>
            Forall (fun f => method_group f (FunctionInfo.name f) = kv.1) kv.2)
         ms ->
  Forall (fun kv : string * list FunctionInfo.t =>
            Forall (fun f => method_group f (FunctionInfo.name f) = kv.1) kv.2)
         (methods_append (method_group f (FunctionInfo.name f)) f ms).
Proof.
  induction 1 as [|[k fs] ms Hk _ IH]; cbn [methods_append map];
    constructor; [|exact IH].
  cbn [fst snd] in *.
  destruct (String.eqb_spec k (method_group f (FunctionInfo.name f)))
    as [->|Hne]; cbn [fst snd]; [|exact Hk].
  apply Forall_app. split; [exact Hk | now constructor].
Qed.

Lemma class_steps_grouped (module_name class_name : string)
    (source_lines : list string) (children : list ast) (st : class_locals) :
  Forall (fun kv : string * list FunctionInfo.t =>
            Forall (fun f => method_group f (FunctionInfo.name f) = kv.1) kv.2)
         (methods st) ->
  Forall (fun kv : string * list FunctionInfo.t =>
            Forall (fun f => method_group f (FunctionInfo.name f) = kv.1) kv.2)
         (methods
            (fold_left (class_step py module_name class_name source_lines)
               children st)).
Proof.
  revert st. induction children as [|c cs IH]; intros st Hst;
    cbn [fold_left]; [exact Hst|].
  apply IH.
  destruct c; cbn [class_step methods]; try exact Hst;
    try (split_matches; exact Hst).
  - apply (methods_append_grouped
             (_analyze_function py (FunctionDef name c body decorator_list
                                      returns lineno end_lineno)
                module_name (Some class_name) source_lines)), Hst.
  - apply (methods_append_grouped
             (_analyze_function py (AsyncFunctionDef name c body decorator_list
                                      returns lineno end_lineno)
                module_name (Some class_name) source_lines)), Hst.
Qed.

(** X13.  Methods of a class.  The [methods] dictionary of a class record
    has the six groups public, private, dunder, static, class_ and property;
    together the groups hold the analysis of each function defined directly
    in the class body, once; and each method sits in the group that its
    decorators and name select, decorators first: static, class, property,
    then dunder, private, public names. *)
Theorem class_methods_grouped (node : ast) (module_name : string)
    (source_lines : list string) :
  let ci := _analyze_class py node module_name source_lines in
  map fst (ClassInfo.methods ci) = method_groups
  /\ class_methods ci ≡ₚ analysed_methods py node module_name source_lines
  /\ forall group funcs func,
       In (group, funcs) (ClassInfo.methods ci) -> In func funcs ->
       group = method_group func (FunctionInfo.name func).
Proof.
  cbn zeta. unfold _analyze_class, class_methods, analysed_methods.
  cbn [ClassInfo.methods].
  set (st0 := mk_class [] [] []
                [("public", []); ("private", []); ("dunder", []);
                 ("static", []); ("class_", []); ("property", [])] []).
  destruct (class_steps_methods module_name (node_name node) source_lines
              (iter_child_nodes node) st0 eq_refl) as [Hk Hp].
  split; [exact Hk|]. split; [exact Hp|].
  intros group funcs func Hin Hf.
  assert (Hg := class_steps_grouped module_name (node_name node) source_lines
                  (iter_child_nodes node) st0).
  rewrite !Forall_forall in Hg.
  assert (H0 : ∀ x : string * list FunctionInfo.t, x ∈ methods st0 →
            Forall (λ f, method_group f (FunctionInfo.name f) = x.1) x.2).
  { intros x Hx. cbn in Hx.
    repeat (apply elem_of_cons in Hx; destruct Hx as [->|Hx];
            [constructor|]).
    now apply elem_of_nil in Hx. }
  specialize (Hg H0 (group, funcs) (proj2 (list_elem_of_In _ _) Hin)).
  rewrite Forall_forall in Hg. symmetry.
  apply Hg. now apply list_elem_of_In.
Qed.

Lemma class_steps_without_init (module_name class_name : string)
    (source_lines : list string) (children : list ast) (st : class_locals) :
  existsb (fun child =>
             is_function_def child && String.eqb (node_name child) "__init__")
          children = false ->
  let st' :=
    fold_left (class_step py module_name class_name source_lines) children st in
  init_params st' = init_params st /\ instance_attrs st' = instance_attrs st.
Proof.
  revert st. induction children as [|c cs IH]; intros st;
    cbn [fold_left existsb]; [now split|].
  intros [Hc Hcs]%orb_false_elim.
  destruct (IH (class_step py module_name class_name source_lines st c) Hcs)
    as [-> ->].
  destruct c; cbn [class_step init_params instance_attrs]; try (now split);
    try (split_matches; now split);
    cbn [is_function_def node_name andb] in Hc; rewrite Hc; now split.
Qed.

(** X14.  A class whose body does not define [__init__] directly is
    reported without constructor parameters and without instance
    attributes, whatever its other methods assign to [self]. *)
Theorem class_without_init (node : ast) (module_name : string)
    (source_lines : list string) :
  defines_init node = false ->
  let ci := _analyze_class py node module_name source_lines in
  ClassInfo.init_parameters ci = []
  /\ ClassInfo.instance_attributes ci = [].
Proof.
  intros Hno. cbn zeta. unfold _analyze_class.
  cbn [ClassInfo.init_parameters ClassInfo.instance_attributes].
  now destruct (class_steps_without_init module_name (node_name node)
                  source_lines (iter_child_nodes node)
                  (mk_class [] [] []
                     [("public", []); ("private", []); ("dunder", []);
                      ("static", []); ("class_", []); ("property", [])] [])
                  Hno) as [-> ->].
Qed.

End ClassFacts.

(** ** The module analyzer *)

Section ModuleFacts.
Context (py : PyLib) (w : World).






















End ModuleFacts.

(** ** Results crossing the process boundary *)

(** X17.  Rebuilding a record from the dictionary that [asdict] made of it
    gives the record back: for module records, function records and class
    records. *)
Theorem asdict_round_trip :
  (forall m, _module_info_from_dict (asdict_ModuleInfo m) = Some m)
  /\ (forall f, _func_info_from_dict (asdict_FunctionInfo f) = Some f)
  /\ (forall c, _class_info_from_dict (asdict_ClassInfo c) = Some c).
Proof.
  split; [exact ModuleInfo_of_asdict|].
  split; [exact FunctionInfo_of_asdict | exact ClassInfo_of_asdict].
Qed.

(** X18.  Missing keys.  A module dictionary without [path] cannot be
    rebuilt (the source raises [KeyError]); one that holds nothing but
    [path] is rebuilt with the import name derived from the path (slashes
    to dots, a final [.py] removed) and with every collection empty; and a
    function dictionary whose [complexity], [control_flow] and [data_flow]
    entries are missing is rebuilt with zero metrics, no flags and
    [is_pure] set. *)
Theorem from_dict_missing_keys :
  (forall items, assoc "path" items = None ->
                 _module_info_from_dict (PDict items) = None)
  /\ (forall path,
        _module_info_from_dict (PDict [("path", PStr path)])
        = Some (ModuleInfo.mk path
                  (removesuffix ".py" (replace_char "/" "." path))
                  None [] [] [] [] None false []))
  /\ (forall qualified_name name source start_line end_line,
        _func_info_from_dict
          (PDict [("qualified_name", PStr qualified_name);
                  ("name", PStr name); ("source", PStr source);
                  ("start_line", PInt start_line);
                  ("end_line", PInt end_line)])
        = Some (FunctionInfo.mk qualified_name name source start_line
                  end_line [] None []
                  (DocstringInfo.mk None None [] None [] []) []
                  (ComplexityMetrics.mk 0 0 0 0)
                  (ControlFlowInfo.mk 0 [] [] false false false false false
                     false false)
                  (DataFlowInfo.mk [] [] [] [] [] [] [] true)
                  [] false false false false false [])).
Proof.
  split; [|split].
  - intros items Hnone. unfold _module_info_from_dict. cbn [dget].
    now rewrite Hnone.
  - reflexivity.
  - reflexivity.
Qed.

(** ** Import names of modules *)

Lemma relative_to_Some (p root rel : Path) :
  relative_to p root = Some rel -> p = root ++ rel.
Proof.
  revert p. induction root as [|r root IH]; intros p; cbn [relative_to].
  - destruct p; intros [= <-]; reflexivity.
  - destruct p as [|x p]; [discriminate|]. cbn [relative_to].
    destruct (String.eqb_spec r x) as [->|]; [|intros [=]].
    intros H%IH. now subst.
Qed.

Lemma dotted_name_under_prefix (file_path root : Path) (n : string) :
  dotted_name_under file_path root = Some n ->
  exists rel, file_path = root ++ rel.
Proof.
  unfold dotted_name_under.
  destruct (relative_to file_path root) as [rel|] eqn:E; [|discriminate].
  intros _. exists rel. now apply relative_to_Some.
Qed.

Lemma first_usable_root (R : Path -> Path -> Prop) (f : Path -> option string)
    (roots : list Path) (r : Path) (n : string) :
  StronglySorted R roots -> In r roots -> f r = Some n ->
  exists r0 n0 rest,
    omap f roots = n0 :: rest /\ In r0 roots /\ f r0 = Some n0
    /\ (r0 = r \/ R r0 r).
Proof.
  induction 1 as [|x roots Hs IH Hall]; intros Hin Hf; [destruct Hin|].
  cbn [omap list_omap]. destruct (f x) as [nx|] eqn:Ex.
  - exists x, nx, (omap f roots). split; [reflexivity|].
    split; [now left|]. split; [exact Ex|].
    destruct Hin as [->|Hin]; [now left|].
    right. rewrite Forall_forall in Hall. apply Hall.
    now apply list_elem_of_In.
  - destruct Hin as [->|Hin]; [congruence|].
    destruct (IH Hin Hf) as (r0 & n0 & rest & H1 & H2 & H3 & H4).
    exists r0, n0, rest. split; [exact H1|]. split; [now right|]. now split.
Qed.

Lemma omap_none {A B} (f : A -> option B) (l : list A) :
  (forall x, In x l -> f x = None) -> omap f l = [].
Proof.
  induction l as [|x l IH]; intros H; cbn [omap list_omap]; [reflexivity|].
  rewrite (H x) by now left. apply IH. intros y Hy. apply H. now right.
Qed.

(** X19.  The import name of a file is taken relative to the deepest
    import root that contains the file and leaves a non-empty dotted name,
    whatever the order in which the roots are given; when no root does, it
    is the stem of the file name. *)
Theorem resolve_import_name_deepest_root (file_path : Path)
    (import_roots : list Path) :
  (forall root name,
      In root import_roots ->
      dotted_name_under file_path root = Some name ->
      (forall root', In root' import_roots ->
         dotted_name_under file_path root' <> None ->
         (length root' <= length root)%nat) ->
      _resolve_import_name file_path import_roots = name)
  /\ ((forall root, In root import_roots ->
         dotted_name_under file_path root = None) ->
      _resolve_import_name file_path import_roots = path_stem file_path).
Proof.
  split.
  - intros root name Hin Hname Hmax. unfold _resolve_import_name.
    set (key := fun r : Path => - (1 + len r)).
    assert (Hin' : In root (sorted_by Z.leb key import_roots)).
    { apply list_elem_of_In. rewrite sorted_by_perm.
      now apply list_elem_of_In. }
    destruct (first_usable_root _ (dotted_name_under file_path) _ root name
                (sorted_by_sorted Z.leb key Z_leb_total Z_leb_trans
                   import_roots) Hin' Hname)
      as (r0 & n0 & rest & -> & Hr0 & Hn0 & Horder).
    assert (Hr0' : In r0 import_roots).
    { apply list_elem_of_In. rewrite <- (sorted_by_perm Z.leb key).
      now apply list_elem_of_In. }
    destruct Horder as [->|Hle]; [congruence|].
    assert (Hlen : length r0 = length root).
    { assert (length r0 <= length root)%nat
        by (apply Hmax; [exact Hr0' | congruence]).
      unfold key_le, key, len in Hle. apply Z.leb_le in Hle. lia. }
    destruct (dotted_name_under_prefix _ _ _ Hn0) as (rel0 & E0).
    destruct (dotted_name_under_prefix _ _ _ Hname) as (rel & E).
    assert (r0 = root).
    { rewrite E0 in E. now apply app_inj_1 in E. }
    subst r0. congruence.
  - intros Hnone. unfold _resolve_import_name.
    rewrite omap_none; [reflexivity|].
    intros r Hr. apply Hnone.
    apply list_elem_of_In. rewrite <- (sorted_by_perm Z.leb (fun r : Path => - (1 + len r))).
    now apply list_elem_of_In.
Qed.

Lemma without_suffix_snoc (dirs : Path) (fname : string) :
  without_suffix (dirs ++ [fname]) = Some (dirs ++ [name_stem fname]).
Proof.
  unfold without_suffix. rewrite last_snoc. now rewrite removelast_last.
Qed.

Lemma nonempty_snoc {A} (l : list A) (x : A) : nonempty (l ++ [x]) = true.
Proof. now destruct l. Qed.

(** X20.  The dotted name of a file below a root is made of the
    directories between the root and the file, followed by the stem of the
    file name; the [__init__] module of a package is named like the
    package, and an [__init__] file directly in the root has no dotted name
    under that root.  With a single import root, the import name of
    [root/app/core/security.py] is thus [app.core.security]. *)
Theorem dotted_module_names (root dirs : Path) (fname : string) :
  (name_stem fname <> "__init__" ->
   dotted_name_under (root ++ dirs ++ [fname]) root
   = Some (String.concat "." (dirs ++ [name_stem fname]))
   /\ _resolve_import_name (root ++ dirs ++ [fname]) [root]
      = String.concat "." (dirs ++ [name_stem fname]))
  /\ (name_stem fname = "__init__" -> dirs <> [] ->
      dotted_name_under (root ++ dirs ++ [fname]) root
      = Some (String.concat "." dirs))
  /\ (name_stem fname = "__init__" ->
      dotted_name_under (root ++ [fname]) root = None
      /\ _resolve_import_name (root ++ [fname]) [root] = "__init__")
  /\ dotted_name_under root root = None.
Proof.
  assert (Hgen : forall ds,
            dotted_name_under (root ++ ds ++ [fname]) root
            = if String.eqb (name_stem fname) "__init__"
              then if nonempty ds then Some (String.concat "." ds) else None
              else Some (String.concat "." (ds ++ [name_stem fname]))).
  { intros ds. unfold dotted_name_under.
    rewrite relative_to_app, without_suffix_snoc, last_snoc.
    destruct (String.eqb (name_stem fname) "__init__").
    - now rewrite removelast_last.
    - now rewrite nonempty_snoc. }
  split; [|split; [|split]].
  - intros Hne. apply String.eqb_neq in Hne.
    assert (Hd : dotted_name_under (root ++ dirs ++ [fname]) root
                 = Some (String.concat "." (dirs ++ [name_stem fname])))
      by (now rewrite Hgen, Hne).
    split; [exact Hd|].
    unfold _resolve_import_name. cbn [sorted_by foldr insert_sorted omap
                                      list_omap].
    now rewrite Hd.
  - intros Hinit Hdirs. apply String.eqb_eq in Hinit.
    rewrite Hgen, Hinit. now destruct dirs.
  - intros Hinit. pose proof Hinit as Hinit'. apply String.eqb_eq in Hinit.
    assert (Hd : dotted_name_under (root ++ [fname]) root = None).
    { change (root ++ [fname]) with (root ++ [] ++ [fname]).
      now rewrite Hgen, Hinit. }
    split; [exact Hd|].
    unfold _resolve_import_name. cbn [sorted_by foldr insert_sorted omap
                                      list_omap].
    rewrite Hd. unfold path_stem, path_name. rewrite last_snoc. exact Hinit'.
  - unfold dotted_name_under.
    rewrite <- (app_nil_r root) at 1. now rewrite relative_to_app.
Qed.

(** ** Local packages *)

Section PackageFacts.
Context (w : World).





End PackageFacts.

(** X22.  The memo of local packages: after a call the memo holds the
    answer for the root and is unchanged for every other root; a later call
    for the same root returns the same set without changing the memo, even
    if the file system has changed in between. *)
Theorem local_packages_memo (w w' : World) (cache : gmap Path (gset string))
    (repo_root : Path) :
  let packages := (_get_local_packages w cache repo_root).1 in
  let cache' := (_get_local_packages w cache repo_root).2 in
  cache' !! repo_root = Some packages
  /\ (forall other, other <> repo_root -> cache' !! other = cache !! other)
  /\ _get_local_packages w' cache' repo_root = (packages, cache').
Proof.
  cbv zeta. unfold _get_local_packages.
  destruct (cache !! repo_root) as [packages|] eqn:E; cbn [fst snd].
  - split; [exact E|]. split; [reflexivity|]. now rewrite E.
  - rewrite lookup_insert_eq. split; [reflexivity|].
    split; [|reflexivity].
    intros other Hne. now rewrite lookup_insert_ne.
Qed.

(** ** Repository-level passes *)

Lemma dependency_graph_fold (modules : list ModuleInfo.t)
    (graph : gmap string (list string)) (p : string) :
  fold_left
    (fun graph mod_ =>
       <[ModuleInfo.path mod_ := sorted_set (list_to_set (local_deps mod_))]>
         graph)
    modules graph !! p
  = match last (List.filter (fun m => String.eqb (ModuleInfo.path m) p)
                  modules) with
    | Some m => Some (sorted_set (list_to_set (local_deps m)))
    | None => graph !! p
    end.
Proof.
  revert graph. induction modules as [|m modules IH]; intros graph;
    cbn [fold_left List.filter]; [reflexivity|].
  rewrite IH.
  destruct (String.eqb_spec (ModuleInfo.path m) p) as [<-|Hne].
  - destruct (List.filter _ modules) as [|m' rest] eqn:E.
    + cbn [last]. now rewrite lookup_insert_eq.
    + change (last (m :: m' :: rest)) with (last (m' :: rest)).
      destruct (last (m' :: rest)) eqn:E2; [reflexivity|].
      apply last_None in E2. discriminate.
  - destruct (last _); [reflexivity|]. now rewrite lookup_insert_ne.
Qed.

Lemma in_local_deps (m : ModuleInfo.t) (x : string) :
  In x (sorted_set (list_to_set (local_deps m)))
  <-> exists imp, In imp (ModuleInfo.imports m)
                  /\ ImportInfo.category imp = "local"
                  /\ ImportInfo.name imp = x.
Proof.
  rewrite in_sorted_set, elem_of_list_to_set, list_elem_of_In.
  unfold local_deps. rewrite in_map_iff. split.
  - intros (imp & <- & Himp). apply filter_In in Himp.
    destruct Himp as [Hin Hc]. apply String.eqb_eq in Hc. now exists imp.
  - intros (imp & Hin & Hc & <-). exists imp. split; [reflexivity|].
    apply filter_In. split; [exact Hin | now apply String.eqb_eq].
Qed.

(** X23.  The dependency graph has one entry per module path; the entry of
    a path is computed from the last module of the list with that path, and
    lists, sorted and without repetition, exactly the names of the imports
    of that module whose category is [local]. *)
Theorem dependency_graph_entries (modules : list ModuleInfo.t) :
  let graph := _build_dependency_graph modules in
  (forall p, graph !! p <> None
             <-> exists m, In m modules /\ ModuleInfo.path m = p)
  /\ forall before m after,
       modules = before ++ m :: after ->
       (forall m', In m' after -> ModuleInfo.path m' <> ModuleInfo.path m) ->
       exists deps,
         graph !! ModuleInfo.path m = Some deps
         /\ StronglySorted (fun a b => String.leb a b = true) deps
         /\ NoDup deps
         /\ forall x, In x deps
                      <-> exists imp, In imp (ModuleInfo.imports m)
                                      /\ ImportInfo.category imp = "local"
                                      /\ ImportInfo.name imp = x.
Proof.
  cbv zeta. unfold _build_dependency_graph. split.
  - intros p. rewrite dependency_graph_fold.
    destruct (last _) as [m|] eqn:E.
    + split; [intros _ | discriminate].
      assert (Hin : In m (List.filter
                            (fun m => String.eqb (ModuleInfo.path m) p)
                            modules)).
      { apply list_elem_of_In. apply last_Some in E.
        destruct E as (l' & ->). set_solver. }
      apply filter_In in Hin. destruct Hin as [Hin Hp].
      exists m. split; [exact Hin | now apply String.eqb_eq].
    + rewrite lookup_empty. split; [congruence|].
      intros (m & Hin & Hp). exfalso.
      apply last_None in E.
      assert (Hm : In m (List.filter
                           (fun m => String.eqb (ModuleInfo.path m) p)
                           modules))
        by (apply filter_In; split; [exact Hin | now apply String.eqb_eq]).
      rewrite E in Hm. destruct Hm.
  - intros before m after -> Hafter.
    exists (sorted_set (list_to_set (local_deps m))).
    split; [|split; [apply sorted_set_sorted|
                     split; [apply sorted_set_NoDup | apply in_local_deps]]].
    rewrite dependency_graph_fold, List.filter_app. cbn [List.filter].
    rewrite String.eqb_refl.
    assert (Hnil : List.filter
                     (fun m0 => String.eqb (ModuleInfo.path m0)
                                  (ModuleInfo.path m)) after = []).
    { clear -Hafter. induction after as [|a after IH]; [reflexivity|].
      cbn [List.filter].
      destruct (String.eqb_spec (ModuleInfo.path a) (ModuleInfo.path m)).
      - exfalso. apply (Hafter a); [now left | assumption].
      - apply IH. intros m' Hm'. apply Hafter. now right. }
    rewrite Hnil. now rewrite last_snoc.
Qed.

Lemma sum_methods_fold (groups : list (list FunctionInfo.t)) (total : Z) :
  fold_left (fun total group_funcs => total + len group_funcs) groups total
  = total + len (concat groups).
Proof.
  revert total. induction groups as [|g groups IH]; intros total;
    cbn [fold_left concat].
  - unfold len. cbn. lia.
  - rewrite IH. unfold len. rewrite length_app. lia.
Qed.

Lemma sum_classes_fold (classes : list ClassInfo.t) (total : Z) :
  fold_left
    (fun total c =>
       fold_left (fun total group_funcs => total + len group_funcs)
         (map snd (ClassInfo.methods c)) total)
    classes total
  = total + len (flat_map class_methods classes).
Proof.
  revert total. induction classes as [|c classes IH]; intros total;
    cbn [fold_left flat_map].
  - unfold len. cbn. lia.
  - rewrite IH, sum_methods_fold, <- flat_map_concat_map.
    fold (class_methods c). unfold len. rewrite length_app. lia.
Qed.

Lemma sum_modules_fold (modules : list ModuleInfo.t) (total : Z) :
  fold_left
    (fun total m =>
       fold_left
         (fun total c =>
            fold_left (fun total group_funcs => total + len group_funcs)
              (map snd (ClassInfo.methods c)) total)
         (ModuleInfo.classes m) total)
    modules total
  = total
    + len (flat_map (fun m => flat_map class_methods (ModuleInfo.classes m))
             modules).
Proof.
  revert total. induction modules as [|m modules IH]; intros total;
    cbn [fold_left flat_map].
  - unfold len. cbn. lia.
  - rewrite IH, sum_classes_fold. unfold len. rewrite length_app. lia.
Qed.

Lemma module_funcs_length (tested : gset string) (m : ModuleInfo.t) :
  len (module_funcs tested m)
  = len (ModuleInfo.functions m)
    + len (flat_map class_methods (ModuleInfo.classes m)).
Proof.
  unfold module_funcs, len. rewrite length_app, length_map.
  rewrite Nat2Z.inj_add. f_equal. f_equal.
  induction (ModuleInfo.classes m) as [|c cs IH]; cbn [flat_map];
    [reflexivity|].
  rewrite !length_app, length_map. lia.
Qed.

(** X24.  The total number of functions that [analyze_repo] reports, which
    counts the top-level functions of every module and the methods of every
    group of every class, is the length of the suggested test order; and
    an enrichment loop that completes changes neither this total nor the
    number of classes. *)
Theorem totals_and_test_order (py : PyLib) (w : World) (repo_root : Path)
    (modules : list ModuleInfo.t) (test_files : list string) :
  total_functions modules
  = len (TestGenerationHints.suggested_test_order
           (_generate_test_hints py modules test_files))
  /\ forall enriched,
       each (enrich w repo_root) modules = Returned enriched ->
       total_functions enriched = total_functions modules
       /\ total_classes enriched = total_classes modules.
Proof.
  assert (Htotal : forall ms,
            total_functions ms
            = foldr Z.add 0
                (map (fun m =>
                        len (ModuleInfo.functions m)
                        + len (flat_map class_methods (ModuleInfo.classes m)))
                     ms)).
  { intros ms. unfold total_functions. rewrite sum_modules_fold.
    induction ms as [|m ms IH]; cbn [map foldr flat_map].
    - unfold len. cbn. lia.
    - unfold len in *. rewrite length_app. lia. }
  assert (Henrich : forall ms ms',
            Forall2 noted ms ms' ->
            map ModuleInfo.functions ms' = map ModuleInfo.functions ms
            /\ map ModuleInfo.classes ms' = map ModuleInfo.classes ms).
  { induction 1 as [|m m' ms ms' (notes & _ & ->) _ [IH1 IH2]]; cbn [map];
      [now split|].
    rewrite IH1, IH2. now split. }
  split.
  - rewrite Htotal. cbn [_generate_test_hints
                          TestGenerationHints.suggested_test_order].
    unfold len at 3. rewrite length_map. unfold all_funcs_of.
    induction modules as [|m modules IH]; cbn [map foldr flat_map];
      [reflexivity|].
    rewrite length_app, Nat2Z.inj_add, <- IH.
    pose proof (module_funcs_length (tested_modules_of test_files) m) as Hm.
    unfold len in Hm |- *. lia.
  - intros enriched Hloop.
    destruct (Henrich _ _ (each_noted w repo_root modules enriched Hloop))
      as [Hf Hc].
    split.
    + rewrite !Htotal. f_equal.
      assert (Hsplit : forall ms,
                 map (fun m =>
                        len (ModuleInfo.functions m)
                        + len (flat_map class_methods (ModuleInfo.classes m)))
                     ms
                 = map (fun p : list FunctionInfo.t * list ClassInfo.t =>
                          len p.1 + len (flat_map class_methods p.2))
                       (zip (map ModuleInfo.functions ms)
                            (map ModuleInfo.classes ms))).
      { induction ms as [|m ms IH]; cbn [map zip zip_with];
          [reflexivity | now rewrite IH]. }
      now rewrite !Hsplit, Hf, Hc.
    + unfold total_classes.
      rewrite <- !(map_map ModuleInfo.classes len). now rewrite Hc.
Qed.

Lemma import_fixtures_known (py : PyLib) (imp : ImportInfo.t) (x : string) :
  In x (import_fixtures py imp) ->
  In x ["database_session"; "test_settings"; "async_http_client"].
Proof.
  unfold import_fixtures. cbv zeta. rewrite !in_app_iff.
  intros [H|[H|H]]; revert H; split_matches; cbn; tauto.
Qed.

Lemma function_mocks_called (py : PyLib) (func : FunctionInfo.t)
    (x : string) :
  In x (function_mocks py func) ->
  In x (DataFlowInfo.calls_made (FunctionInfo.data_flow func)).
Proof.
  unfold function_mocks. intros (call & Hcall & Hx)%in_flat_map.
  rewrite !in_app_iff in Hx.
  destruct Hx as [Hx|[Hx|Hx]]; revert Hx; split_matches; cbn;
    first [tauto | intros [<-|[]]; exact Hcall].
Qed.

(** X25.  Fixtures and mocking targets of the test hints.  The shared
    fixtures are drawn from four names, sorted and without repetition, and
    [event_loop] is among them exactly when some module has a top-level
    coroutine function.  Every mocking target is a call made by a top-level
    function or by a method, and a call made only by methods is a target
    only if it starts with [httpx.], [requests.], [aiohttp.] or [boto3.];
    the targets are sorted and without repetition. *)
Theorem fixtures_and_mocking_targets (py : PyLib)
    (modules : list ModuleInfo.t) (test_files : list string) :
  let hints := _generate_test_hints py modules test_files in
  let fixtures := TestGenerationHints.shared_fixtures_needed hints in
  let targets := TestGenerationHints.mocking_targets hints in
  (forall x, In x fixtures ->
     In x ["database_session"; "test_settings"; "async_http_client";
           "event_loop"])
  /\ (In "event_loop" fixtures
      <-> exists m, In m modules /\ has_coroutine m = true)
  /\ StronglySorted (fun a b => String.leb a b = true) fixtures
  /\ NoDup fixtures
  /\ (forall x, In x targets ->
        exists m, In m modules
          /\ ((exists f, In f (ModuleInfo.functions m)
                 /\ In x (DataFlowInfo.calls_made (FunctionInfo.data_flow f)))
              \/ exists cls f,
                   In cls (ModuleInfo.classes m) /\ In f (class_methods cls)
                   /\ In x (DataFlowInfo.calls_made
                              (FunctionInfo.data_flow f))
                   /\ any_startswith
                        ["httpx."; "requests."; "aiohttp."; "boto3."] x
                      = true))
  /\ StronglySorted (fun a b => String.leb a b = true) targets
  /\ NoDup targets.
Proof.
  cbv zeta.
  cbn [_generate_test_hints TestGenerationHints.shared_fixtures_needed
       TestGenerationHints.mocking_targets].
  split; [|split; [|split; [apply sorted_set_sorted|
            split; [apply sorted_set_NoDup|
            split; [|split; [apply sorted_set_sorted
                            | apply sorted_set_NoDup]]]]]].
  - intros x Hx. apply (proj1 (in_sorted_set _ _)) in Hx.
    apply elem_of_list_to_set, list_elem_of_In, in_flat_map in Hx.
    destruct Hx as (m & _ & Hx). apply in_app_iff in Hx.
    destruct Hx as [Hx|Hx].
    + apply in_flat_map in Hx. destruct Hx as (imp & _ & Hx).
      apply import_fixtures_known in Hx. cbn in *. tauto.
    + apply in_flat_map in Hx. destruct Hx as (f & _ & Hx).
      destruct (ControlFlowInfo.is_coroutine _); cbn in *; tauto.
  - rewrite in_sorted_set, elem_of_list_to_set, list_elem_of_In, in_flat_map.
    split.
    + intros (m & Hm & Hx). exists m. split; [exact Hm|].
      apply in_app_iff in Hx. destruct Hx as [Hx|Hx].
      * apply in_flat_map in Hx. destruct Hx as (imp & _ & Hx).
        apply import_fixtures_known in Hx. cbn in Hx.
        intuition discriminate.
      * apply in_flat_map in Hx. destruct Hx as (f & Hf & Hx).
        unfold has_coroutine. apply existsb_exists. exists f.
        split; [exact Hf|].
        destruct (ControlFlowInfo.is_coroutine _); [reflexivity|].
        destruct Hx.
    + intros (m & Hm & Hco). exists m. split; [exact Hm|].
      apply in_app_iff. right.
      unfold has_coroutine in Hco. apply existsb_exists in Hco.
      destruct Hco as (f & Hf & Hco).
      apply in_flat_map. exists f. split; [exact Hf|].
      rewrite Hco. now left.
  - intros x Hx. apply (proj1 (in_sorted_set _ _)) in Hx.
    apply elem_of_list_to_set, list_elem_of_In, in_flat_map in Hx.
    destruct Hx as (m & Hm & Hx). exists m. split; [exact Hm|].
    apply in_app_iff in Hx. destruct Hx as [Hx|Hx].
    + left. apply in_flat_map in Hx. destruct Hx as (f & Hf & Hx).
      exists f. split; [exact Hf|]. now apply (function_mocks_called py).
    + right. apply in_flat_map in Hx. destruct Hx as (cls & Hcls & Hx).
      apply in_flat_map in Hx. destruct Hx as (f & Hf & Hx).
      unfold method_mocks in Hx. apply filter_In in Hx.
      destruct Hx as [Hcall Hpre].
      exists cls, f. now repeat split.
Qed.

(** ** Import roots *)

Section ImportRootFacts.
Context (w : World).









End ImportRootFacts.

(** ** Return values and module-level names *)

Section ReturnFacts.
Context (py : PyLib).

Lemma return_types_fold (l : list ast) (acc : list string) (t : string) :
  In t (fold_left (return_type_step py) l acc)
  <-> In t acc
      \/ exists value, In (Return (Some value)) l /\ return_label py value = t.
Proof.
  revert acc. induction l as [|n l IH]; intros acc; cbn [fold_left].
  - split; [now left | intros [H|(v & [] & _)]; exact H].
  - rewrite IH. clear IH.
    assert (Hstep : In t (return_type_step py acc n)
                    <-> In t acc
                        \/ exists value,
                             n = Return (Some value)
                             /\ return_label py value = t).
    { destruct n; cbn [return_type_step];
        try (split; [now left | intros [H|(v & [=] & _)]; exact H]).
      destruct value as [value|];
        [|split; [now left | intros [H|(v & [=] & _)]; exact H]].
      assert (Hv : return_type_step py acc (Return (Some value))
                   = acc ++ [return_label py value])
        by (destruct value; reflexivity).
      cbn [return_type_step] in Hv. rewrite Hv, in_app_iff. cbn [In].
      split.
      - intros [H|[H|[]]]; [now left | right; now exists value].
      - intros [H|(v & [= <-] & H)]; [now left | right; now left]. }
    rewrite Hstep. cbn [In]. split.
    + intros [[H|(v & -> & H)]|(v & Hin & H)]; [now left | |];
        right; exists v; auto.
    + intros [H|(v & [Heq|Hin] & H)]; [now left; left | |].
      * left; right. now exists v.
      * right. now exists v.
Qed.

(** X27.  Inferred return types of a function record.  A label is listed
    exactly when some [return] statement with a value, anywhere below the
    function node (the bodies of nested functions and classes included),
    returns a value with that label; each label is listed once; a bare
    [return] contributes nothing, so a function without a valued [return]
    has an empty list. *)
Theorem return_types_inferred_exact (node : ast) (module_name : string)
    (class_name : option string) (source_lines : list string) :
  let fi := _analyze_function py node module_name class_name source_lines in
  (forall t, In t (FunctionInfo.return_types_inferred fi)
             <-> exists value, In (Return (Some value)) (subnodes node)
                               /\ return_label py value = t)
  /\ NoDup (FunctionInfo.return_types_inferred fi)
  /\ ((forall value, ~ In (Return (Some value)) (subnodes node)) ->
      FunctionInfo.return_types_inferred fi = []).
Proof.
  cbv zeta. unfold _analyze_function. cbn [FunctionInfo.return_types_inferred].
  assert (Hiff : forall t,
             In t (list_set py (fold_left (return_type_step py) (walk node) []))
             <-> exists value, In (Return (Some value)) (subnodes node)
                               /\ return_label py value = t).
  { intros t. rewrite in_list_set, return_types_fold. cbn [In]. split.
    - intros [[]|(v & Hin & H)]. exists v. split; [|exact H].
      now apply in_walk_subnodes.
    - intros (v & Hin & H). right. exists v. split; [|exact H].
      now apply in_walk_subnodes. }
  split; [exact Hiff|]. split; [apply NoDup_list_set|].
  intros Hno.
  destruct (list_set py (fold_left (return_type_step py) (walk node) []))
    as [|t rest] eqn:E; [reflexivity|].
  destruct (proj1 (Hiff t) (or_introl eq_refl)) as (v & Hin & _).
  now destruct (Hno v).
Qed.

End ReturnFacts.

Section ModuleBodyFacts.
Context (py : PyLib) (w : World).









End ModuleBodyFacts.

(** ** When the analysis returns *)


(** ** The properties on the worked inputs *)

(** [def set(self): self.x = 1] writes and reads attribute [x]. *)
Lemma written_attributes_are_read_witness :
  In "x" (DataFlowInfo.instance_attrs_written
            (_analyze_data_flow lib setter_fn))
  /\ In "x" (DataFlowInfo.instance_attrs_read
               (_analyze_data_flow lib setter_fn)).
Proof.
  assert (Hw : In "x" (DataFlowInfo.instance_attrs_written
                         (_analyze_data_flow lib setter_fn)))
    by (vm_compute; tauto).
  split; [exact Hw|].
  exact (written_attributes_are_read lib setter_fn "x" Hw).
Defined.

(** The parameters of [def f(a, b=1, *rest, key=2, **extra)]. *)
Lemma parameters_and_defaults_witness :
  map ParameterInfo.name (function_parameters lib sample_arguments)
  = ["a"; "b"; "rest"; "key"; "extra"]
  /\ map ParameterInfo.default (function_parameters lib sample_arguments)
     = [None; Some "1"; None; Some "2"; None].
Proof.
  exact (parameters_and_defaults lib [] [arg "a" None] [arg "b" None]
           [arg "key" None] [Constant (CInt 1)] (Some (arg "rest" None))
           (Some (arg "extra" None)) [Some (Constant (CInt 2))]
           eq_refl eq_refl).
Defined.

(** The one-line function of scenario A in a one-line file. *)
Lemma function_source_and_loc_witness :
  FunctionInfo.source
    (_analyze_function lib scenario_A "m" None
       ["def f(x): return x if x > 0 else -x"])
  = "def f(x): return x if x > 0 else -x"
  /\ ComplexityMetrics.loc
       (FunctionInfo.complexity
          (_analyze_function lib scenario_A "m" None
             ["def f(x): return x if x > 0 else -x"])) = 1.
Proof.
  destruct (function_source_and_loc lib scenario_A 1 1 "m" None
              ["def f(x): return x if x > 0 else -x"]
              eq_refl eq_refl eq_refl ltac:(lia)) as [Hin _].
  destruct (Hin ltac:(lia) ltac:(vm_compute; discriminate)) as [Hs Hl].
  split; [exact Hs | symmetry; exact Hl].
Defined.

(** The class [Shape] defines no [__init__]. *)
Lemma class_without_init_witness :
  defines_init shape_class = false
  /\ ClassInfo.init_parameters (_analyze_class lib shape_class "pkg.shapes" [])
     = []
  /\ ClassInfo.instance_attributes
       (_analyze_class lib shape_class "pkg.shapes" []) = [].
Proof.
  split; [reflexivity|].
  exact (class_without_init lib shape_class "pkg.shapes" [] eq_refl).
Defined.






